(** * The session relay of codepair: a shallow embedding and its properties

    The relay lives in [registerRoutes] (server routes): the WebSocket
    connection handler with its per-connection closure variables [userId] and
    [sessionId], the two module-level maps [connectedClients] and
    [sessionClients], the ['message'] handler and the ['close'] handler.

    Modelling choices, all read off the source:
    - a socket handle is a natural number; its closure variables and its
      [readyState] live in a table of connections;
    - an identifier that arrives in a JSON envelope is a JavaScript value:
      a number, [null], or [undefined] when the property is missing; the
      source tests identifiers for truthiness, so [0] behaves like [null];
    - a JavaScript [Map] is a [gmap]; a JavaScript [Set] is the list of its
      elements in insertion order, without duplicates (the source iterates
      over it, and iteration follows insertion order);
    - [send], [console.error] and the calls into [storage] are recorded, in
      program order, in a list of effects;
    - every handler runs to completion before the next event is handled. *)

From stdpp Require Import base option list gmap strings.
From Stdlib Require Import ZArith Lia.

Open Scope Z_scope.

(** ** JavaScript values used as identifiers *)

Inductive JsVal : Type :=
  | JNull
  | JUndefined
  | JNum (z : Z).

Global Instance JsVal_eq_dec : EqDecision JsVal.
Proof. solve_decision. Defined.

Definition JsVal_enc (v : JsVal) : bool + Z :=
  match v with
  | JNull => inl false
  | JUndefined => inl true
  | JNum z => inr z
  end.

Definition JsVal_dec (s : bool + Z) : JsVal :=
  match s with
  | inl false => JNull
  | inl true => JUndefined
  | inr z => JNum z
  end.

Global Instance JsVal_countable : Countable JsVal.
Proof.
  refine (inj_countable' JsVal_enc JsVal_dec _).
  intros []; reflexivity.
Defined.

(** [if (v)] on an identifier: [null], [undefined] and [0] are falsy. *)
Definition truthy (v : JsVal) : bool :=
  match v with
  | JNum z => negb (z =? 0)
  | _ => false
  end.

(** ** shared/schema.ts: [MessageType] and [WebSocketMessage] *)

Inductive MessageType : Type :=
  | CODE_CHANGE
  | CURSOR_MOVE
  | FILE_CREATE
  | FILE_DELETE
  | CHAT_MESSAGE
  | SESSION_JOIN
  | SESSION_LEAVE
  | TERMINAL_OUTPUT
  | TERMINAL_INPUT.

Global Instance MessageType_eq_dec : EqDecision MessageType.
Proof. solve_decision. Defined.

(** [payload: any].  The relay reads [fileId], [content], [name] and
    [language]; the close handler writes [userId].  Whatever else a payload
    carries is kept, opaque, in [p_other].  A missing property is
    [JUndefined] or [None]. *)
Record Payload : Type := mkPayload {
  p_fileId : JsVal;
  p_content : option string;
  p_name : option string;
  p_language : option string;
  p_userId : JsVal;
  p_other : string
}.

(** A parsed envelope.  [msg_type] is [None] when the [type] property is
    missing or is not one of the nine wire strings; [msg_payload] is [None]
    when [payload] is missing or [null], so that reading a property of it
    throws. *)
Record WebSocketMessage : Type := mkMsg {
  msg_type : option MessageType;
  msg_sessionId : JsVal;
  msg_userId : JsVal;
  msg_payload : option Payload
}.

(** What arrives on the socket: text on which [JSON.parse] throws (or that
    parses to [null], on which the first property read throws), or text that
    parses to an object. *)
Inductive RawMessage : Type :=
  | Unparseable
  | Parsed (data : WebSocketMessage).

(** ** The storage collaborator, as the relay sees it *)

Inductive StorageCall : Type :=
  | GetUser (id : JsVal)
  | UpdateUser (id : JsVal) (online : bool)
  | UpdateFile (fileId : JsVal) (content : option string)
  | CreateFile (sessionId : JsVal) (name : option string)
               (content : string) (language : string)
  | EndSession (id : JsVal).

Global Instance Payload_eq_dec : EqDecision Payload.
Proof. solve_decision. Defined.
Global Instance WebSocketMessage_eq_dec : EqDecision WebSocketMessage.
Proof. solve_decision. Defined.
Global Instance StorageCall_eq_dec : EqDecision StorageCall.
Proof. solve_decision. Defined.

Inductive Effect : Type :=
  | Send (ws : nat) (data : WebSocketMessage)
  | Call (c : StorageCall)
  | LogError
  | Unhandled.

Global Instance Effect_eq_dec : EqDecision Effect.
Proof. solve_decision. Defined.

(** The row of the user table; the relay touches [isOnline] only. *)
Record User : Type := mkUser { isOnline : bool }.

(** ** Connections *)

Inductive ReadyState : Type := CONNECTING | OPEN | CLOSING | CLOSED.

Global Instance ReadyState_eq_dec : EqDecision ReadyState.
Proof. solve_decision. Defined.

(** The closure of one [wss.on('connection', ...)] call: [let userId = null],
    [let sessionId = null], and the socket's [readyState]. *)
Record Conn : Type := mkConn {
  userId : JsVal;
  sessionId : JsVal;
  readyState : ReadyState
}.

Record State : Type := mkState {
  connectedClients : gmap JsVal nat;
  sessionClients : gmap JsVal (list JsVal);
  conns : gmap nat Conn;
  users : gmap JsVal User
}.

Definition init : State := mkState ∅ ∅ ∅ ∅.

(** ** JavaScript [Set] in insertion order *)

Definition set_add (x : JsVal) (s : list JsVal) : list JsVal :=
  if decide (x ∈ s) then s else s ++ [x].

Definition set_delete (x : JsVal) (s : list JsVal) : list JsVal :=
  filter (λ y, y ≠ x) s.

(** [sessionClients.get(sid)?.add(uid)] and [...?.delete(uid)]: nothing
    happens when the session has no entry. *)
Definition members_add (sid uid : JsVal) (sc : gmap JsVal (list JsVal))
  : gmap JsVal (list JsVal) :=
  match sc !! sid with
  | Some s => <[sid := set_add uid s]> sc
  | None => sc
  end.

Definition members_delete (sid uid : JsVal) (sc : gmap JsVal (list JsVal))
  : gmap JsVal (list JsVal) :=
  match sc !! sid with
  | Some s => <[sid := set_delete uid s]> sc
  | None => sc
  end.

(** [members(sessionId)] of the specification: the empty set for a session
    without an entry. *)
Definition members (st : State) (sid : JsVal) : list JsVal :=
  default [] (sessionClients st !! sid).

(** [clientWs && clientWs.readyState === WebSocket.OPEN] *)
Definition is_open (st : State) (ws : nat) : bool :=
  match conns st !! ws with
  | Some c => bool_decide (readyState c = OPEN)
  | None => false
  end.

(** The connection a member's event is sent to, if any. *)
Definition open_client (st : State) (clientId : JsVal) : option nat :=
  match connectedClients st !! clientId with
  | Some ws => if is_open st ws then Some ws else None
  | None => None
  end.

(** [value || fallback] on a string property: [undefined] and the empty
    string are falsy. *)
Definition or_else (v : option string) (fallback : string) : string :=
  match v with
  | Some s => if decide (s = EmptyString) then fallback else s
  | None => fallback
  end.

Definition with_conn (ws : nat) (c : Conn) (st : State) : State :=
  mkState (connectedClients st) (sessionClients st) (<[ws := c]> (conns st))
          (users st).

Definition with_sessionClients (sc : gmap JsVal (list JsVal)) (st : State)
  : State :=
  mkState (connectedClients st) sc (conns st) (users st).

(** ** [MemStorage]: the user table

    [getUser] reads the table; [updateUser(id, { isOnline })] overwrites the
    flag of an existing row and does nothing for an unknown id. *)
Definition getUser (st : State) (id : JsVal) : option User :=
  users st !! id.

Definition updateUser (id : JsVal) (online : bool) (st : State) : State :=
  match getUser st id with
  | None => st
  | Some _ =>
      mkState (connectedClients st) (sessionClients st) (conns st)
              (<[id := mkUser online]> (users st))
  end.

(** ** The handlers of [registerRoutes] *)

Section Relay.

(** Whether a call into [storage] rejects.  [MemStorage] never does; the
    relay is written against [IStorage]. *)
Variable rejects : StorageCall → bool.

(** [if (!userId) userId = data.userId;] *)
Definition bind_userId (c : Conn) (data : WebSocketMessage) : Conn :=
  if truthy (userId c) then c
  else mkConn (msg_userId data) (sessionId c) (readyState c).

(** The body of [if (data.type === MessageType.SESSION_JOIN)]. *)
Definition join_session (ws : nat) (c : Conn) (data : WebSocketMessage)
    (st : State) : Conn * State :=
  let sid := msg_sessionId data in
  let sc :=
    match sessionClients st !! sid with
    | None => <[sid := []]> (sessionClients st)
    | Some _ => sessionClients st
    end in
  (mkConn (userId c) sid (readyState c),
   mkState (<[userId c := ws]> (connectedClients st))
           (members_add sid (userId c) sc) (conns st) (users st)).

(** The sockets the broadcast loop sends to, in iteration order: every
    member other than the sender whose registered socket is open. *)
Definition recipients (st : State) (sessionUsers : list JsVal)
    (sender : JsVal) : list nat :=
  omap (λ clientId,
          if decide (clientId = sender) then None
          else open_client st clientId) sessionUsers.

(** [if (sessionId) { ... for (const clientId of sessionUsers) ... }] *)
Definition broadcast (st : State) (c : Conn) (data : WebSocketMessage)
    : list Effect :=
  if truthy (sessionId c) then
    match sessionClients st !! sessionId c with
    | Some sessionUsers =>
        (λ w, Send w data) <$> recipients st sessionUsers (userId c)
    | None => []
    end
  else [].

(** [switch (data.type)]: the state after it, the effects, and whether
    an exception left the switch (a property read on a missing payload,
    or a rejected storage call). *)
Definition dispatch (st : State) (c : Conn) (data : WebSocketMessage)
    : State * list Effect * bool :=
  match msg_type data with
  | Some CODE_CHANGE =>
      match msg_payload data with
      | None => (st, [], true)
      | Some p =>
          if truthy (p_fileId p) then
            let k := UpdateFile (p_fileId p) (p_content p) in
            (st, [Call k], rejects k)
          else (st, [], false)
      end
  | Some FILE_CREATE =>
      if truthy (sessionId c) then
        match msg_payload data with
        | None => (st, [], true)
        | Some p =>
            let k := CreateFile (sessionId c) (p_name p)
                       (or_else (p_content p) EmptyString)
                       (or_else (p_language p) "javascript") in
            (st, [Call k], rejects k)
        end
      else (st, [], false)
  | Some SESSION_LEAVE =>
      if truthy (sessionId c) && truthy (userId c) then
        let sc := members_delete (sessionId c) (userId c)
                    (sessionClients st) in
        let st' := with_sessionClients sc st in
        match sc !! sessionId c with
        | Some [] =>
            let k := EndSession (sessionId c) in
            (st', [Call k], rejects k)
        | _ => (st', [], false)
        end
      else (st, [], false)
  | _ => (st, [], false)
  end.

(** [ws.on('message', async (message) => { try { ... } catch { ... } })] *)
Definition on_message (ws : nat) (raw : RawMessage) (st : State)
    : State * list Effect :=
  match conns st !! ws with
  | None => (st, [])
  | Some c0 =>
      match raw with
      | Unparseable => (st, [LogError])
      | Parsed data =>
          let c1 := bind_userId c0 data in
          let '(c2, st2) :=
            if decide (msg_type data = Some SESSION_JOIN)
            then join_session ws c1 data st
            else (c1, st) in
          let st3 := with_conn ws c2 st2 in
          let sends := broadcast st3 c2 data in
          let '(st4, effs, threw) := dispatch st3 c2 data in
          (st4, sends ++ effs ++ (if threw then [LogError] else []))
      end
  end.

(** The message the close handler synthesizes. *)
Definition leaveMsg (sid uid : JsVal) : WebSocketMessage :=
  mkMsg (Some SESSION_LEAVE) sid uid
        (Some (mkPayload JUndefined None None None uid EmptyString)).

(** The [if (sessionId) { ... }] block of the close handler. *)
Definition close_session (c : Conn) (st : State) : State * list Effect :=
  if truthy (sessionId c) then
    let sc := members_delete (sessionId c) (userId c) (sessionClients st) in
    let st' := with_sessionClients sc st in
    match sc !! sessionId c with
    | Some sessionUsers =>
        let sends :=
          (λ w, Send w (leaveMsg (sessionId c) (userId c)))
            <$> omap (open_client st') sessionUsers in
        match sessionUsers with
        | [] =>
            let k := EndSession (sessionId c) in
            (st', sends ++ [Call k]
                    ++ (if rejects k then [Unhandled] else []))
        | _ => (st', sends)
        end
    | None => (st', [])
    end
  else (st, []).

(** [ws.on('close', async () => { ... })]; there is no [try] around it, so
    a rejected storage call abandons the rest of the handler. *)
Definition on_close (ws : nat) (st : State) : State * list Effect :=
  match conns st !! ws with
  | None => (st, [])
  | Some c =>
      if truthy (userId c) then
        let uid := userId c in
        let st1 := mkState (delete uid (connectedClients st))
                     (sessionClients st) (conns st) (users st) in
        if rejects (GetUser uid) then (st1, [Call (GetUser uid); Unhandled])
        else
          match getUser st1 uid with
          | Some _ =>
              let k := UpdateUser uid false in
              if rejects k then
                (st1, [Call (GetUser uid); Call k; Unhandled])
              else
                let r := close_session c (updateUser uid false st1) in
                (r.1, [Call (GetUser uid); Call k] ++ r.2)
          | None =>
              let r := close_session c st1 in
              (r.1, [Call (GetUser uid)] ++ r.2)
          end
      else (st, [])
  end.

(** ** The transport: what the socket server makes happen *)

Inductive Event : Type :=
  | Connect (ws : nat)
  | Message (ws : nat) (raw : RawMessage)
  | StartClosing (ws : nat)
  | Close (ws : nat).

(** A socket is handed to the connection handler once, open; ['message']
    is emitted until the socket is closed; ['close'] is emitted once, with
    [readyState] already [CLOSED]. *)
Definition step (st : State) (ev : Event) : State * list Effect :=
  match ev with
  | Connect ws =>
      match conns st !! ws with
      | None => (with_conn ws (mkConn JNull JNull OPEN) st, [])
      | Some _ => (st, [])
      end
  | Message ws raw =>
      match conns st !! ws with
      | Some c =>
          if decide (readyState c = CLOSED) then (st, [])
          else on_message ws raw st
      | None => (st, [])
      end
  | StartClosing ws =>
      match conns st !! ws with
      | Some c =>
          if decide (readyState c = OPEN)
          then (with_conn ws (mkConn (userId c) (sessionId c) CLOSING) st, [])
          else (st, [])
      | None => (st, [])
      end
  | Close ws =>
      match conns st !! ws with
      | Some c =>
          if decide (readyState c = CLOSED) then (st, [])
          else on_close ws
                 (with_conn ws (mkConn (userId c) (sessionId c) CLOSED) st)
      | None => (st, [])
      end
  end.

Fixpoint run (st : State) (evs : list Event) : State * list Effect :=
  match evs with
  | [] => (st, [])
  | ev :: evs' =>
      let '(st1, e1) := step st ev in
      let '(st2, e2) := run st1 evs' in
      (st2, e1 ++ e2)
  end.

End Relay.

(** [MemStorage]: no call rejects. *)
Definition mem_storage (k : StorageCall) : bool := false.

(** What the client sends (lib/websocket.ts, [joinSession] and
    [leaveSession]): the payload carries the user's id and nothing else. *)
Definition joinMessage (sid uid : Z) : WebSocketMessage :=
  mkMsg (Some SESSION_JOIN) (JNum sid) (JNum uid)
        (Some (mkPayload JUndefined None None None (JNum uid) EmptyString)).

Definition leaveMessage (sid uid : Z) : WebSocketMessage :=
  mkMsg (Some SESSION_LEAVE) (JNum sid) (JNum uid)
        (Some (mkPayload JUndefined None None None (JNum uid) EmptyString)).

(** How often a storage call occurs in a trace of effects. *)
Definition calls (k : StorageCall) (effs : list Effect) : nat :=
  length (filter (λ e, e = Call k) effs).

Global Arguments calls : simpl never.

Definition is_send (e : Effect) : bool :=
  match e with
  | Send _ _ => true
  | _ => false
  end.

(** The sockets the broadcast of an event reaches: those of the remembered
    session's members, the sender left out. *)
Definition fanout (st : State) (c : Conn) : list nat :=
  if truthy (sessionId c) then
    recipients st (members st (sessionId c)) (userId c)
  else [].

Definition is_join (raw : RawMessage) : bool :=
  match raw with
  | Parsed data => bool_decide (msg_type data = Some SESSION_JOIN)
  | Unparseable => false
  end.

(** The same envelope with another [sessionId] written into it. *)
Definition with_sessionId (sid : JsVal) (data : WebSocketMessage)
  : WebSocketMessage :=
  mkMsg (msg_type data) sid (msg_userId data) (msg_payload data).

(** Replace the envelope carried by every [send] of a trace. *)
Definition resend (data : WebSocketMessage) (e : Effect) : Effect :=
  match e with
  | Send w _ => Send w data
  | _ => e
  end.

(** An envelope that lacks one of the four properties of
    [WebSocketMessage]. *)
Definition missing_fields (data : WebSocketMessage) : bool :=
  bool_decide (msg_type data = None)
  || bool_decide (msg_sessionId data = JUndefined)
  || bool_decide (msg_userId data = JUndefined)
  || bool_decide (msg_payload data = None).

Definition malformed (raw : RawMessage) : bool :=
  match raw with
  | Unparseable => true
  | Parsed data => missing_fields data
  end.

(** ** Well-formed traffic and the invariants of the tables *)

(** Clients send the numeric id of a logged-in user (the serial ids of the
    user table start at 1), so an envelope that parses carries a truthy
    [userId]. *)
Definition wf_event (ev : Event) : bool :=
  match ev with
  | Message _ (Parsed data) => truthy (msg_userId data)
  | _ => true
  end.

(** The closure variables and the tables at the moment the broadcast loop
    of the message handler starts. *)
Definition at_broadcast (ws : nat) (c : Conn) (data : WebSocketMessage)
    (st : State) : Conn * State :=
  let c1 := bind_userId c data in
  let r := if decide (msg_type data = Some SESSION_JOIN)
           then join_session ws c1 data st
           else (c1, st) in
  (r.1, with_conn ws r.1 r.2).

(** A registered socket belongs to a connection that is not closed and
    whose bound user is the key it is registered under. *)
Definition registry_ok (st : State) : Prop :=
  ∀ m w, connectedClients st !! m = Some w →
    ∃ c, conns st !! w = Some c ∧ userId c = m ∧ truthy m = true
         ∧ readyState c ≠ CLOSED.

Definition sets_ok (st : State) : Prop :=
  ∀ sid l, sessionClients st !! sid = Some l → NoDup l.

(** ** What a trace says about one connection *)

Definition registered (st : State) (ws : nat) : Prop :=
  ∃ m, connectedClients st !! m = Some ws.

Definition has_sent (evs : list Event) (ws : nat) : bool :=
  existsb (λ ev, match ev with
                 | Message w _ => bool_decide (w = ws)
                 | _ => false
                 end) evs.

Definition has_joined (evs : list Event) (ws : nat) : bool :=
  existsb (λ ev, match ev with
                 | Message w raw => bool_decide (w = ws) && is_join raw
                 | _ => false
                 end) evs.

Definition has_closed (evs : list Event) (ws : nat) : bool :=
  existsb (λ ev, match ev with
                 | Close w => bool_decide (w = ws)
                 | _ => false
                 end) evs.

(** The state of a connection that has joined alone. *)
Definition alone (ws : nat) (sid uid : JsVal) (st : State) : Prop :=
  conns st !! ws = Some (mkConn uid sid OPEN)
  ∧ sessionClients st !! sid = Some [uid].

(** ** How a member's stay in a session ends *)

Inductive Ending : Type :=
  | ByLeave (data : WebSocketMessage)
  | ByClose.

Definition ending_event (ws : nat) (e : Ending) : Event :=
  match e with
  | ByLeave data => Message ws (Parsed data)
  | ByClose => Close ws
  end.

Definition is_leave (e : Ending) : bool :=
  match e with
  | ByLeave data => bool_decide (msg_type data = Some SESSION_LEAVE)
  | ByClose => true
  end.

(** A member of session [sid] about to end its stay: its connection is
    live, bound to [uid], and remembers [sid]; on a close the user store
    answers. *)
Definition member_conn (rejects : StorageCall → bool) (st : State)
    (sid : JsVal) (a : nat * JsVal * Ending) : Prop :=
  ∃ c, conns st !! a.1.1 = Some c
       ∧ userId c = a.1.2 ∧ sessionId c = sid ∧ readyState c ≠ CLOSED
       ∧ truthy a.1.2 = true
       ∧ is_leave a.2 = true
       ∧ rejects (GetUser a.1.2) = false
       ∧ rejects (UpdateUser a.1.2 false) = false.

(** [if (size === 0) endSession(...)], counted. *)
Definition once_if_empty (l : list JsVal) : nat :=
  match l with
  | [] => 1%nat
  | _ => 0%nat
  end.

(** ** Sequences of joins and leaves on one session *)

Inductive Action : Type := Join | Leave.

Global Instance Action_eq_dec : EqDecision Action.
Proof. solve_decision. Defined.

(** The position of the last [a] by participant [p] in a sequence whose
    first event has position [i]. *)
Fixpoint last_index_from (i : nat) (a : Action) (p : Z)
    (evs : list (Z * Action)) : option nat :=
  match evs with
  | [] => None
  | e :: evs' =>
      match last_index_from (S i) a p evs' with
      | Some j => Some j
      | None => if decide (e = (p, a)) then Some i else None
      end
  end.

Definition last_index (a : Action) (p : Z) (evs : list (Z * Action))
  : option nat :=
  last_index_from 0 a p evs.

(** [p] has joined, and its most recent join comes after its most recent
    leave, if it ever left. *)
Definition joined_more_recently (evs : list (Z * Action)) (p : Z) : bool :=
  match last_index Join p evs, last_index Leave p evs with
  | Some j, Some l => bool_decide (l < j)%nat
  | Some _, None => true
  | None, _ => false
  end.

(** The event participant [e.1] sends from its own connection [cid e.1]:
    the client's join or leave envelope for session [s]. *)
Definition action_event (cid : Z → nat) (s : Z) (e : Z * Action) : Event :=
  Message (cid e.1)
    (Parsed (match e.2 with
             | Join => joinMessage s e.1
             | Leave => leaveMessage s e.1
             end)).

(** What the connection of participant [p] looks like after [evs]. *)
Definition participant_conn (st : State) (cid : Z → nat) (s : Z)
    (evs : list (Z * Action)) (p : Z) : Prop :=
  ∃ c, conns st !! cid p = Some c
       ∧ readyState c = OPEN
       ∧ (userId c = JNull ∨ userId c = JNum p)
       ∧ ((sessionId c = JNum s ∧ userId c = JNum p)
          ∨ (sessionId c = JNull ∧ last_index Join p evs = None)).

(** ** Concrete states, traces and envelopes used as instances *)

(** User 1 has opened a connection and joined session 7. *)
Definition st_joined : State :=
  (run mem_storage init
     [Connect 1%nat; Message 1%nat (Parsed (joinMessage 7 1))]).1.

(** User 1 joins session 7 and leaves it again. *)
Definition c1_prefix : list Event :=
  [Connect 1%nat; Message 1%nat (Parsed (joinMessage 7 1));
   Message 1%nat (Parsed (leaveMessage 7 1))].

(** Users 1, 2 and 3, each on its own connection, have joined session 7. *)
Definition room_trace : list Event :=
  [Connect 1%nat; Connect 2%nat; Connect 3%nat;
   Message 1%nat (Parsed (joinMessage 7 1));
   Message 2%nat (Parsed (joinMessage 7 2));
   Message 3%nat (Parsed (joinMessage 7 3))].

Definition room : State := (run mem_storage init room_trace).1.

(** [code-change {fileId: 10, content: "x=1"}] from user 1 in session 7. *)
Definition codeChange : WebSocketMessage :=
  mkMsg (Some CODE_CHANGE) (JNum 7) (JNum 1)
        (Some (mkPayload (JNum 10) (Some "x=1") None None JUndefined
                 EmptyString)).

(** A chat message from user 1 whose envelope has no [sessionId]. *)
Definition chatNoSession : WebSocketMessage :=
  mkMsg (Some CHAT_MESSAGE) JUndefined (JNum 1)
        (Some (mkPayload JUndefined (Some "hello") None None JUndefined
                 EmptyString)).

(** A user table in which user 1 exists and is online. *)
Definition store_user1 : State :=
  mkState ∅ ∅ ∅ {[JNum 1 := mkUser true]}.

(** Two fresh connections, for participants 1 and 2. *)
Definition lobby : State :=
  (run mem_storage init [Connect 1%nat; Connect 2%nat]).1.

(** A user store whose [getUser] rejects. *)
Definition user_store_down (k : StorageCall) : bool :=
  match k with
  | GetUser _ => true
  | _ => false
  end.

(** ** A further instance of the relay *)

(** Two live connections opened by the same user, both joined to
    session 7, and user 2 on a third. *)
Definition twin_trace : list Event :=
  [Connect 1%nat; Connect 2%nat; Connect 3%nat;
   Message 1%nat (Parsed (joinMessage 7 1));
   Message 2%nat (Parsed (joinMessage 7 1));
   Message 3%nat (Parsed (joinMessage 7 2))].

Definition twins : State := (run mem_storage init twin_trace).1.

(** * The storage behind the relay and the HTTP routes

    [MemStorage] (server/storage.ts) keeps five JavaScript [Map]s keyed by
    numeric id and five counters.  A [Map] iterates in insertion order, and
    [getUserByUsername] and the list methods depend on that order, so a
    [Map] is modelled as the list of its entries in insertion order.
    [new Date()] is a natural number handed in by the caller. *)

Module JsMap.

Abbreviation t V := (list (Z * V)).

(** [map.get(k)] *)
Fixpoint get {V : Type} (k : Z) (m : t V) : option V :=
  match m with
  | [] => None
  | (k', v) :: m' => if decide (k' = k) then Some v else get k m'
  end.

(** [map.set(k, v)]: an existing key keeps its place, a new key goes to the
    end. *)
Fixpoint set {V : Type} (k : Z) (v : V) (m : t V) : t V :=
  match m with
  | [] => [(k, v)]
  | (k', v') :: m' =>
      if decide (k' = k) then (k, v) :: m' else (k', v') :: set k v m'
  end.

(** [map.delete(k)]: whether the key was there, and the map without it. *)
Definition delete {V : Type} (k : Z) (m : t V) : bool * t V :=
  (bool_decide (is_Some (get k m)), filter (λ e, e.1 ≠ k) m).

(** [Array.from(map.values())] *)
Definition values {V : Type} (m : t V) : list V := m.*2.

Definition keys {V : Type} (m : t V) : list Z := m.*1.

End JsMap.

(** [array.find(p)]: the first element that satisfies [p]. *)
Fixpoint js_find {A : Type} (p : A → bool) (l : list A) : option A :=
  match l with
  | [] => None
  | x :: l' => if p x then Some x else js_find p l'
  end.

Module MemStorage.

(** shared/schema.ts: the rows.  A column that may be [null] or missing is
    an [option]. *)
Module InsertUser.
Record t : Type := mk {
  username : string;
  password : string;
  email : string;
  displayName : string;
  avatar : option string
}.
End InsertUser.

Module User.
Record t : Type := mk {
  id : Z;
  username : string;
  password : string;
  email : string;
  displayName : string;
  avatar : option string;
  isOnline : bool
}.
End User.

(** [Partial<User>]: the properties present in an update. *)
Module PartialUser.
Record t : Type := mk {
  id : option Z;
  username : option string;
  password : option string;
  email : option string;
  displayName : option string;
  avatar : option (option string);
  isOnline : option bool
}.
End PartialUser.

Module Skill.
Record t : Type := mk { id : Z; userId : Z; name : string }.
End Skill.

Module InsertSession.
Record t : Type := mk {
  creatorId : Z;
  partnerId : option Z;
  language : option string
}.
End InsertSession.

Module Session.
Record t : Type := mk {
  id : Z;
  createdAt : nat;
  endedAt : option nat;
  creatorId : Z;
  partnerId : option Z;
  isActive : bool;
  language : option string
}.
End Session.

(** The relay's [FILE_CREATE] passes [data.payload.name] unchecked, so a
    stored name can be [undefined]. *)
Module InsertFile.
Record t : Type := mk {
  sessionId : Z;
  name : option string;
  content : option string;
  language : option string
}.
End InsertFile.

Module File.
Record t : Type := mk {
  id : Z;
  sessionId : Z;
  name : option string;
  content : option string;
  language : option string;
  createdAt : nat;
  updatedAt : nat
}.
End File.

Module InsertFeedback.
Record t : Type := mk {
  sessionId : Z;
  userId : Z;
  rating : Z;
  comment : option string
}.
End InsertFeedback.

Module Feedback.
Record t : Type := mk {
  id : Z;
  sessionId : Z;
  userId : Z;
  rating : Z;
  comment : option string;
  createdAt : nat
}.
End Feedback.

Record t : Type := mk {
  users : JsMap.t User.t;
  skills : JsMap.t Skill.t;
  sessions : JsMap.t Session.t;
  files : JsMap.t File.t;
  feedbacks : JsMap.t Feedback.t;
  userIdCounter : Z;
  skillIdCounter : Z;
  sessionIdCounter : Z;
  fileIdCounter : Z;
  feedbackIdCounter : Z
}.

(** [constructor()] *)
Definition empty : t := mk [] [] [] [] [] 1 1 1 1 1.

Definition with_users (us : JsMap.t User.t) (s : t) : t :=
  mk us (skills s) (sessions s) (files s) (feedbacks s) (userIdCounter s)
     (skillIdCounter s) (sessionIdCounter s) (fileIdCounter s)
     (feedbackIdCounter s).

Definition with_sessions (ss : JsMap.t Session.t) (s : t) : t :=
  mk (users s) (skills s) ss (files s) (feedbacks s) (userIdCounter s)
     (skillIdCounter s) (sessionIdCounter s) (fileIdCounter s)
     (feedbackIdCounter s).

Definition with_files (fs : JsMap.t File.t) (s : t) : t :=
  mk (users s) (skills s) (sessions s) fs (feedbacks s) (userIdCounter s)
     (skillIdCounter s) (sessionIdCounter s) (fileIdCounter s)
     (feedbackIdCounter s).

(** *** User operations *)

Definition getUser (s : t) (id : Z) : option User.t :=
  JsMap.get id (users s).

Definition getUserByUsername (s : t) (username : string) : option User.t :=
  js_find (λ user, bool_decide (User.username user = username))
          (JsMap.values (users s)).

Definition getUserByEmail (s : t) (email : string) : option User.t :=
  js_find (λ user, bool_decide (User.email user = email))
          (JsMap.values (users s)).

(** [{ ...insertUser, id, isOnline: false }] *)
Definition createUser (insertUser : InsertUser.t) (s : t) : User.t * t :=
  let id := userIdCounter s in
  let user :=
    User.mk id (InsertUser.username insertUser)
            (InsertUser.password insertUser) (InsertUser.email insertUser)
            (InsertUser.displayName insertUser)
            (InsertUser.avatar insertUser) false in
  (user,
   mk (JsMap.set id user (users s)) (skills s) (sessions s) (files s)
      (feedbacks s) (id + 1) (skillIdCounter s) (sessionIdCounter s)
      (fileIdCounter s) (feedbackIdCounter s)).

(** [{ ...user, ...userData }] *)
Definition merge_user (user : User.t) (userData : PartialUser.t) : User.t :=
  User.mk (default (User.id user) (PartialUser.id userData))
          (default (User.username user) (PartialUser.username userData))
          (default (User.password user) (PartialUser.password userData))
          (default (User.email user) (PartialUser.email userData))
          (default (User.displayName user)
                   (PartialUser.displayName userData))
          (default (User.avatar user) (PartialUser.avatar userData))
          (default (User.isOnline user) (PartialUser.isOnline userData)).

Definition updateUser (id : Z) (userData : PartialUser.t) (s : t)
  : option User.t * t :=
  match getUser s id with
  | None => (None, s)
  | Some user =>
      let updatedUser := merge_user user userData in
      (Some updatedUser, with_users (JsMap.set id updatedUser (users s)) s)
  end.

Definition listUsers (s : t) : list User.t := JsMap.values (users s).

Definition listOnlineUsers (s : t) : list User.t :=
  filter (λ user, User.isOnline user = true) (JsMap.values (users s)).

(** *** Skills operations *)

Definition getUserSkills (s : t) (userId : Z) : list Skill.t :=
  filter (λ skill, Skill.userId skill = userId) (JsMap.values (skills s)).

Definition addSkill (userId : Z) (name : string) (s : t) : Skill.t * t :=
  let id := skillIdCounter s in
  let skill := Skill.mk id userId name in
  (skill,
   mk (users s) (JsMap.set id skill (skills s)) (sessions s) (files s)
      (feedbacks s) (userIdCounter s) (id + 1) (sessionIdCounter s)
      (fileIdCounter s) (feedbackIdCounter s)).

Definition removeSkill (id : Z) (s : t) : bool * t :=
  let r := JsMap.delete id (skills s) in
  (r.1,
   mk (users s) r.2 (sessions s) (files s) (feedbacks s) (userIdCounter s)
      (skillIdCounter s) (sessionIdCounter s) (fileIdCounter s)
      (feedbackIdCounter s)).

(** *** Session operations *)

Definition createSession (insertSession : InsertSession.t) (now : nat)
    (s : t) : Session.t * t :=
  let id := sessionIdCounter s in
  let session :=
    Session.mk id now None (InsertSession.creatorId insertSession)
               (InsertSession.partnerId insertSession) true
               (InsertSession.language insertSession) in
  (session,
   mk (users s) (skills s) (JsMap.set id session (sessions s)) (files s)
      (feedbacks s) (userIdCounter s) (skillIdCounter s) (id + 1)
      (fileIdCounter s) (feedbackIdCounter s)).

Definition getSession (s : t) (id : Z) : option Session.t :=
  JsMap.get id (sessions s).

Definition getUserSessions (s : t) (userId : Z) : list Session.t :=
  filter (λ session, Session.creatorId session = userId
                     ∨ Session.partnerId session = Some userId)
         (JsMap.values (sessions s)).

(** [{ ...session, isActive: false, endedAt: new Date() }] *)
Definition endSession (id : Z) (now : nat) (s : t) : option Session.t * t :=
  match getSession s id with
  | None => (None, s)
  | Some session =>
      let updatedSession :=
        Session.mk (Session.id session) (Session.createdAt session)
                   (Some now) (Session.creatorId session)
                   (Session.partnerId session) false
                   (Session.language session) in
      (Some updatedSession,
       with_sessions (JsMap.set id updatedSession (sessions s)) s)
  end.

Definition findActiveSessions (s : t) : list Session.t :=
  filter (λ session, Session.isActive session = true)
         (JsMap.values (sessions s)).

(** *** File operations *)

Definition createFile (insertFile : InsertFile.t) (now : nat) (s : t)
  : File.t * t :=
  let id := fileIdCounter s in
  let file :=
    File.mk id (InsertFile.sessionId insertFile) (InsertFile.name insertFile)
            (InsertFile.content insertFile) (InsertFile.language insertFile)
            now now in
  (file,
   mk (users s) (skills s) (sessions s) (JsMap.set id file (files s))
      (feedbacks s) (userIdCounter s) (skillIdCounter s)
      (sessionIdCounter s) (id + 1) (feedbackIdCounter s)).

Definition getFile (s : t) (id : Z) : option File.t :=
  JsMap.get id (files s).

Definition getSessionFiles (s : t) (sessionId : Z) : list File.t :=
  filter (λ file, File.sessionId file = sessionId)
         (JsMap.values (files s)).

(** [{ ...file, content, updatedAt: new Date() }] *)
Definition updateFile (id : Z) (content : option string) (now : nat) (s : t)
  : option File.t * t :=
  match getFile s id with
  | None => (None, s)
  | Some file =>
      let updatedFile :=
        File.mk (File.id file) (File.sessionId file) (File.name file)
                content (File.language file) (File.createdAt file) now in
      (Some updatedFile, with_files (JsMap.set id updatedFile (files s)) s)
  end.

(** *** Feedback operations *)

Definition addFeedback (insertFeedback : InsertFeedback.t) (now : nat)
    (s : t) : Feedback.t * t :=
  let id := feedbackIdCounter s in
  let feedback :=
    Feedback.mk id (InsertFeedback.sessionId insertFeedback)
                (InsertFeedback.userId insertFeedback)
                (InsertFeedback.rating insertFeedback)
                (InsertFeedback.comment insertFeedback) now in
  (feedback,
   mk (users s) (skills s) (sessions s) (files s)
      (JsMap.set id feedback (feedbacks s)) (userIdCounter s)
      (skillIdCounter s) (sessionIdCounter s) (fileIdCounter s) (id + 1)).

Definition getSessionFeedback (s : t) (sessionId : Z) : list Feedback.t :=
  filter (λ feedback, Feedback.sessionId feedback = sessionId)
         (JsMap.values (feedbacks s)).

(** *** Calls, to run sequences of them *)

Inductive Op : Type :=
  | CreateUser (insertUser : InsertUser.t)
  | UpdateUser (id : Z) (userData : PartialUser.t)
  | AddSkill (userId : Z) (name : string)
  | RemoveSkill (id : Z)
  | CreateSession (insertSession : InsertSession.t) (now : nat)
  | EndSession (id : Z) (now : nat)
  | CreateFile (insertFile : InsertFile.t) (now : nat)
  | UpdateFile (id : Z) (content : option string) (now : nat)
  | AddFeedback (insertFeedback : InsertFeedback.t) (now : nat).

Definition exec (op : Op) (s : t) : t :=
  match op with
  | CreateUser insertUser => (createUser insertUser s).2
  | UpdateUser id userData => (updateUser id userData s).2
  | AddSkill userId name => (addSkill userId name s).2
  | RemoveSkill id => (removeSkill id s).2
  | CreateSession insertSession now => (createSession insertSession now s).2
  | EndSession id now => (endSession id now s).2
  | CreateFile insertFile now => (createFile insertFile now s).2
  | UpdateFile id content now => (updateFile id content now s).2
  | AddFeedback insertFeedback now => (addFeedback insertFeedback now s).2
  end.

Definition exec_all (ops : list Op) (s : t) : t :=
  foldl (λ s op, exec op s) s ops.

(** The counter is at least 1, every key of the table lies between 1 and
    the counter, and no key occurs twice. *)
Definition keys_below {V : Type} (m : JsMap.t V) (counter : Z) : Prop :=
  1 ≤ counter
  ∧ NoDup (JsMap.keys m)
  ∧ ∀ k, k ∈ JsMap.keys m → 1 ≤ k < counter.

(** Every row is stored under its own id. *)
Definition row_ids {V : Type} (idf : V → Z) (m : JsMap.t V) : Prop :=
  ∀ k v, (k, v) ∈ m → idf v = k.

Definition wf (s : t) : Prop :=
  keys_below (users s) (userIdCounter s)
  ∧ keys_below (skills s) (skillIdCounter s)
  ∧ keys_below (sessions s) (sessionIdCounter s)
  ∧ keys_below (files s) (fileIdCounter s)
  ∧ keys_below (feedbacks s) (feedbackIdCounter s)
  ∧ row_ids Skill.id (skills s)
  ∧ row_ids Session.id (sessions s)
  ∧ row_ids File.id (files s)
  ∧ row_ids Feedback.id (feedbacks s).

End MemStorage.

(** The code of a character of a string.  A character stands for one code
    unit below 256. *)
Definition char_code (c : Ascii.ascii) : Z := Z.of_N (Ascii.N_of_ascii c).

(** * The HTTP routes of [registerRoutes]

    Every handler is [async] and awaits only [MemStorage], whose methods
    settle without waiting for anything, so a handler runs to its reply
    before the next request or socket event is looked at: a route is a
    function from the store to a reply and the store afterwards.  What
    [insertXSchema.parse] makes of [req.body] is an input ([None] when it
    throws a [ZodError]), and so is what [parseInt] makes of a path
    parameter ([None] for [NaN], a key no [Map] here holds). *)

Module Server.

Import MemStorage.

(** The body of a reply that reports a failure: [{ message: '...' }] or
    [{ message: error.errors }]. *)
Inductive Failure : Type :=
  | Message (message : string)
  | ZodIssues.

(** [res.status(status).json(body)]; [res.json] alone has status 200. *)
Record Reply (A : Type) : Type := mkReply {
  status : Z;
  body : A + Failure
}.

Global Arguments mkReply {A} _ _.
Global Arguments status {A} _.
Global Arguments body {A} _.

Definition json {A : Type} (status : Z) (x : A) : Reply A :=
  mkReply status (inl x).

Definition message {A : Type} (status : Z) (text : string) : Reply A :=
  mkReply status (inr (Message text)).

(** [const { password, ...userWithoutPassword } = user] *)
Module PublicUser.
Record t : Type := mk {
  id : Z;
  username : string;
  email : string;
  displayName : string;
  avatar : option string;
  isOnline : bool
}.
End PublicUser.

Definition without_password (user : User.t) : PublicUser.t :=
  PublicUser.mk (User.id user) (User.username user) (User.email user)
                (User.displayName user) (User.avatar user)
                (User.isOnline user).

(** [{ isOnline: b }] *)
Definition online (b : bool) : PartialUser.t :=
  PartialUser.mk None None None None None None (Some b).

(** [app.post('/api/auth/register')] *)
Definition register (parsed : option InsertUser.t) (s : MemStorage.t)
    : Reply PublicUser.t * MemStorage.t :=
  match parsed with
  | None => (mkReply 400 (inr ZodIssues), s)
  | Some userData =>
      match getUserByUsername s (InsertUser.username userData) with
      | Some _ => (message 409 "Username already taken", s)
      | None =>
          match getUserByEmail s (InsertUser.email userData) with
          | Some _ => (message 409 "Email already registered", s)
          | None =>
              let r := createUser userData s in
              (json 201 (without_password r.1), r.2)
          end
      end
  end.

(** [app.post('/api/auth/login')].  [req.body] is not validated: [None]
    is a body that cannot be destructured, and a [username] or [password]
    that is not a string is [None]; no stored name or password is equal to
    it. *)
Definition login (req_body : option (option string * option string))
    (s : MemStorage.t) : Reply PublicUser.t * MemStorage.t :=
  match req_body with
  | None => (message 500 "Server error", s)
  | Some (username, password) =>
      match username ≫= getUserByUsername s with
      | None => (message 401 "Invalid credentials", s)
      | Some user =>
          if decide (password = Some (User.password user)) then
            let r := updateUser (User.id user) (online true) s in
            (json 200 (without_password user), r.2)
          else (message 401 "Invalid credentials", s)
      end
  end.

(** [app.get('/api/users/online')] *)
Definition onlineUsers (s : MemStorage.t) : Reply (list PublicUser.t) :=
  json 200 (without_password <$> listOnlineUsers s).

(** [app.get('/api/users/:userId/skills')]; no skill has [NaN] as its
    [userId]. *)
Definition userSkills (userId : option Z) (s : MemStorage.t)
    : Reply (list Skill.t) :=
  json 200 (from_option (getUserSkills s) [] userId).

(** [app.post('/api/users/:userId/skills')] *)
Definition postSkill (parsed : option (Z * string)) (s : MemStorage.t)
    : Reply Skill.t * MemStorage.t :=
  match parsed with
  | None => (mkReply 400 (inr ZodIssues), s)
  | Some (userId, name) =>
      let r := addSkill userId name s in (json 201 r.1, r.2)
  end.

(** [app.delete('/api/skills/:id')]; 204 has no body. *)
Definition deleteSkill (id : option Z) (s : MemStorage.t)
    : Reply unit * MemStorage.t :=
  match id with
  | None => (message 404 "Skill not found", s)
  | Some id =>
      let r := removeSkill id s in
      (if r.1 then json 204 () else message 404 "Skill not found", r.2)
  end.

(** The file every new session starts with. *)
Definition initial_file (sessionId : Z) : InsertFile.t :=
  InsertFile.mk sessionId (Some "main.js") (Some "// Start coding here")
                (Some "javascript").

(** [app.post('/api/sessions')]; [now] and [now'] are the two [new Date()]
    of [createSession] and [createFile]. *)
Definition postSession (parsed : option InsertSession.t) (now now' : nat)
    (s : MemStorage.t) : Reply Session.t * MemStorage.t :=
  match parsed with
  | None => (mkReply 400 (inr ZodIssues), s)
  | Some sessionData =>
      let r := createSession sessionData now s in
      let r' := createFile (initial_file (Session.id r.1)) now' r.2 in
      (json 201 r.1, r'.2)
  end.

(** [app.get('/api/sessions/:id')] *)
Definition getSessionById (id : option Z) (s : MemStorage.t)
    : Reply Session.t :=
  match id ≫= getSession s with
  | None => message 404 "Session not found"
  | Some session => json 200 session
  end.

(** [app.get('/api/users/:userId/sessions')] *)
Definition userSessions (userId : option Z) (s : MemStorage.t)
    : Reply (list Session.t) :=
  json 200 (from_option (getUserSessions s) [] userId).

(** [app.post('/api/sessions/:id/end')] *)
Definition postSessionEnd (id : option Z) (now : nat) (s : MemStorage.t)
    : Reply Session.t * MemStorage.t :=
  match id with
  | None => (message 404 "Session not found", s)
  | Some id =>
      let r := endSession id now s in
      (match r.1 with
       | None => message 404 "Session not found"
       | Some session => json 200 session
       end, r.2)
  end.

(** [app.get('/api/sessions/active')] *)
Definition activeSessions (s : MemStorage.t) : Reply (list Session.t) :=
  json 200 (findActiveSessions s).

(** [app.post('/api/sessions/:sessionId/files')] *)
Definition postFile (parsed : option InsertFile.t) (now : nat)
    (s : MemStorage.t) : Reply File.t * MemStorage.t :=
  match parsed with
  | None => (mkReply 400 (inr ZodIssues), s)
  | Some fileData =>
      let r := createFile fileData now s in (json 201 r.1, r.2)
  end.

(** [app.get('/api/sessions/:sessionId/files')] *)
Definition sessionFiles (sessionId : option Z) (s : MemStorage.t)
    : Reply (list File.t) :=
  json 200 (from_option (getSessionFiles s) [] sessionId).

(** [app.get('/api/files/:id')] *)
Definition getFileById (id : option Z) (s : MemStorage.t) : Reply File.t :=
  match id ≫= getFile s with
  | None => message 404 "File not found"
  | Some file => json 200 file
  end.

(** [app.put('/api/files/:id/content')].  [req_body] is [None] when the
    body cannot be destructured; its [content] is [None] when it is not a
    string. *)
Definition putFileContent (id : option Z) (req_body : option (option string))
    (now : nat) (s : MemStorage.t) : Reply File.t * MemStorage.t :=
  match req_body with
  | None => (message 500 "Server error", s)
  | Some None => (message 400 "Content must be a string", s)
  | Some (Some content) =>
      match id with
      | None => (message 404 "File not found", s)
      | Some id =>
          let r := updateFile id (Some content) now s in
          (match r.1 with
           | None => message 404 "File not found"
           | Some file => json 200 file
           end, r.2)
      end
  end.

(** [app.post('/api/sessions/:sessionId/feedback')] *)
Definition postFeedback (parsed : option InsertFeedback.t) (now : nat)
    (s : MemStorage.t) : Reply Feedback.t * MemStorage.t :=
  match parsed with
  | None => (mkReply 400 (inr ZodIssues), s)
  | Some feedbackData =>
      let r := addFeedback feedbackData now s in (json 201 r.1, r.2)
  end.

(** [app.get('/api/sessions/:sessionId/feedback')] *)
Definition sessionFeedback (sessionId : option Z) (s : MemStorage.t)
    : Reply (list Feedback.t) :=
  json 200 (from_option (getSessionFeedback s) [] sessionId).

(** ** Everything that writes to the store

    The requests that change the store, and the storage calls of the two
    WebSocket handlers with the numeric ids they are made with: the close
    handler's [getUser] and [updateUser(userId, { isOnline: false })], and
    [updateFile], [createFile] and [endSession] of the message handler. *)
Inductive Request : Type :=
  | PostRegister (parsed : option InsertUser.t)
  | PostLogin (req_body : option (option string * option string))
  | PostSkill (parsed : option (Z * string))
  | DeleteSkill (id : option Z)
  | PostSession (parsed : option InsertSession.t) (now now' : nat)
  | PostSessionEnd (id : option Z) (now : nat)
  | PostFile (parsed : option InsertFile.t) (now : nat)
  | PutFileContent (id : option Z) (req_body : option (option string))
                   (now : nat)
  | PostFeedback (parsed : option InsertFeedback.t) (now : nat)
  | SocketClosed (userId : Z)
  | SocketCodeChange (fileId : Z) (content : option string) (now : nat)
  | SocketFileCreate (insertFile : InsertFile.t) (now : nat)
  | SocketSessionEmpty (sessionId : Z) (now : nat).

Definition serve (s : MemStorage.t) (req : Request) : MemStorage.t :=
  match req with
  | PostRegister parsed => (register parsed s).2
  | PostLogin req_body => (login req_body s).2
  | PostSkill parsed => (postSkill parsed s).2
  | DeleteSkill id => (deleteSkill id s).2
  | PostSession parsed now now' => (postSession parsed now now' s).2
  | PostSessionEnd id now => (postSessionEnd id now s).2
  | PostFile parsed now => (postFile parsed now s).2
  | PutFileContent id req_body now => (putFileContent id req_body now s).2
  | PostFeedback parsed now => (postFeedback parsed now s).2
  | SocketClosed userId =>
      match getUser s userId with
      | Some _ => (updateUser userId (online false) s).2
      | None => s
      end
  | SocketCodeChange fileId content now => (updateFile fileId content now s).2
  | SocketFileCreate insertFile now => (createFile insertFile now s).2
  | SocketSessionEmpty sessionId now => (endSession sessionId now s).2
  end.

Definition serve_all (reqs : list Request) : MemStorage.t :=
  foldl serve empty reqs.

(** Users are stored under their own id, and no two share a username or
    an e-mail address. *)
Definition accounts_ok (s : MemStorage.t) : Prop :=
  row_ids User.id (users s)
  ∧ NoDup (User.username <$> listUsers s)
  ∧ NoDup (User.email <$> listUsers s).

(** ** Which handler answers

    Express walks the routes in the order of their registration and the
    first whose method and path pattern match answers; no handler here
    passes the request on.  A path is the list of its segments.  A literal
    segment is compared without regard to case, and [:name] matches any
    segment that is not empty. *)
Inductive Method : Type := GET | POST | PUT | DELETE.

Global Instance Method_eq_dec : EqDecision Method.
Proof. solve_decision. Defined.

Inductive Segment : Type :=
  | Lit (text : string)
  | Param.

Inductive Route : Type :=
  | Register_ | Login_ | OnlineUsers_ | UserSkills_ | PostSkill_
  | DeleteSkill_ | PostSession_ | GetSession_ | UserSessions_
  | PostSessionEnd_ | ActiveSessions_ | PostFile_ | SessionFiles_
  | GetFile_ | PutFileContent_ | PostFeedback_ | SessionFeedback_.

Global Instance Route_eq_dec : EqDecision Route.
Proof. solve_decision. Defined.

Definition routes : list (Method * list Segment * Route) :=
  [ (POST, [Lit "api"; Lit "auth"; Lit "register"], Register_);
    (POST, [Lit "api"; Lit "auth"; Lit "login"], Login_);
    (GET, [Lit "api"; Lit "users"; Lit "online"], OnlineUsers_);
    (GET, [Lit "api"; Lit "users"; Param; Lit "skills"], UserSkills_);
    (POST, [Lit "api"; Lit "users"; Param; Lit "skills"], PostSkill_);
    (DELETE, [Lit "api"; Lit "skills"; Param], DeleteSkill_);
    (POST, [Lit "api"; Lit "sessions"], PostSession_);
    (GET, [Lit "api"; Lit "sessions"; Param], GetSession_);
    (GET, [Lit "api"; Lit "users"; Param; Lit "sessions"], UserSessions_);
    (POST, [Lit "api"; Lit "sessions"; Param; Lit "end"], PostSessionEnd_);
    (GET, [Lit "api"; Lit "sessions"; Lit "active"], ActiveSessions_);
    (POST, [Lit "api"; Lit "sessions"; Param; Lit "files"], PostFile_);
    (GET, [Lit "api"; Lit "sessions"; Param; Lit "files"], SessionFiles_);
    (GET, [Lit "api"; Lit "files"; Param], GetFile_);
    (PUT, [Lit "api"; Lit "files"; Param; Lit "content"], PutFileContent_);
    (POST, [Lit "api"; Lit "sessions"; Param; Lit "feedback"],
     PostFeedback_);
    (GET, [Lit "api"; Lit "sessions"; Param; Lit "feedback"],
     SessionFeedback_) ].

Definition lower (c : Ascii.ascii) : Ascii.ascii :=
  let n := Ascii.N_of_ascii c in
  if ((65 <=? n) && (n <=? 90))%N then Ascii.ascii_of_N (n + 32) else c.

Fixpoint lowercase (s : string) : string :=
  match s with
  | EmptyString => EmptyString
  | String c s' => String (lower c) (lowercase s')
  end.

(** The parameters of the path if it matches the pattern. *)
Fixpoint path_matches (pattern : list Segment) (path : list string)
    : option (list string) :=
  match pattern, path with
  | [], [] => Some []
  | Lit text :: pattern', seg :: path' =>
      if String.eqb (lowercase text) (lowercase seg)
      then path_matches pattern' path'
      else None
  | Param :: pattern', seg :: path' =>
      if String.eqb seg EmptyString then None
      else cons seg <$> path_matches pattern' path'
  | _, _ => None
  end.

Fixpoint first_route (table : list (Method * list Segment * Route))
    (method : Method) (path : list string) : option (Route * list string) :=
  match table with
  | [] => None
  | (m, pattern, route) :: table' =>
      match (if decide (m = method) then path_matches pattern path
             else None) with
      | Some params => Some (route, params)
      | None => first_route table' method path
      end
  end.

Definition route_of (method : Method) (path : list string)
    : option (Route * list string) :=
  first_route routes method path.

(** [parseInt(text)]: white space is skipped, a sign is read (45 is [-],
    43 is [+]), [0x] or [0X] (48, then 120 or 88) selects radix 16, and the
    longest run of digits is the value; without a digit the result is
    [NaN].  The value is exact, where JavaScript rounds above 2^53. *)
Definition is_space (c : Ascii.ascii) : bool :=
  let n := Ascii.N_of_ascii c in
  (((9 <=? n) && (n <=? 13)) || (n =? 32) || (n =? 160))%N.

Fixpoint skip_spaces (s : string) : string :=
  match s with
  | String c s' => if is_space c then skip_spaces s' else s
  | EmptyString => s
  end.

Definition digit_value (c : Ascii.ascii) : option Z :=
  let n := char_code c in
  if (48 <=? n) && (n <=? 57) then Some (n - 48)
  else if (97 <=? n) && (n <=? 122) then Some (n - 87)
  else if (65 <=? n) && (n <=? 90) then Some (n - 55)
  else None.

Fixpoint digits (radix : Z) (acc : option Z) (s : string) : option Z :=
  match s with
  | EmptyString => acc
  | String c s' =>
      match digit_value c with
      | Some d =>
          if d <? radix then digits radix (Some (default 0 acc * radix + d)) s'
          else acc
      | None => acc
      end
  end.

Definition parseInt (text : string) : option Z :=
  let s1 := skip_spaces text in
  let '(sign, s2) :=
    match s1 with
    | String c rest =>
        if char_code c =? 45 then (-1, rest)
        else if char_code c =? 43 then (1, rest)
        else (1, s1)
    | EmptyString => (1, s1)
    end in
  let '(radix, s3) :=
    match s2 with
    | String c (String c' rest) =>
        if (char_code c =? 48)
           && ((char_code c' =? 120) || (char_code c' =? 88))
        then (16, rest)
        else (10, s2)
    | _ => (10, s2)
    end in
  (λ n, sign * n) <$> digits radix None s3.

End Server.

(** * The browser side: [WebSocketClient] (client/src/lib/websocket.ts)

    The client object, the [WebSocket]s it has created and the timers it
    has set.  A socket is the number of its creation; every socket carries
    the four listeners [connect] gives it, and they act on the client, not
    on the socket they were added to.  A handler registered with the
    client is a number; what a handler does when called is outside the
    model, except whether it throws. *)

Module Client.

Record WebSocketClient : Type := mkClient {
  socket : option nat;
  messageHandlers : MessageType → list nat;
  connectionStateHandlers : list nat;
  reconnectTimer : option nat;
  userId : JsVal;
  sessionId : JsVal;
  isConnected : bool
}.

(** [this], the sockets created so far with their [readyState], the timers
    that are set, and the last id [setTimeout] returned (ids are
    positive). *)
Record World : Type := mkWorld {
  this : WebSocketClient;
  sockets : list ReadyState;
  timers : list nat;
  lastTimer : nat
}.

Inductive Output : Type :=
  | Sent (k : nat) (message : WebSocketMessage)
  | StateHandlerCalled (handler : nat) (connected : bool)
  | MessageHandlerCalled (handler : nat) (message : WebSocketMessage)
  | ConsoleError.

(** [constructor()]: an empty handler set for every message type. *)
Definition new : World :=
  mkWorld (mkClient None (λ _, []) [] None JNull JNull false) [] [] 0.

Definition set_this (c : WebSocketClient) (w : World) : World :=
  mkWorld c (sockets w) (timers w) (lastTimer w).

Definition set_socket (k : option nat) (c : WebSocketClient)
    : WebSocketClient :=
  mkClient k (messageHandlers c) (connectionStateHandlers c)
           (reconnectTimer c) (userId c) (sessionId c) (isConnected c).

Definition set_reconnectTimer (id : option nat) (c : WebSocketClient)
    : WebSocketClient :=
  mkClient (socket c) (messageHandlers c) (connectionStateHandlers c) id
           (userId c) (sessionId c) (isConnected c).

Definition set_userId (u : JsVal) (c : WebSocketClient) : WebSocketClient :=
  mkClient (socket c) (messageHandlers c) (connectionStateHandlers c)
           (reconnectTimer c) u (sessionId c) (isConnected c).

Definition set_sessionId (s : JsVal) (c : WebSocketClient)
    : WebSocketClient :=
  mkClient (socket c) (messageHandlers c) (connectionStateHandlers c)
           (reconnectTimer c) (userId c) s (isConnected c).

Definition set_isConnected (b : bool) (c : WebSocketClient)
    : WebSocketClient :=
  mkClient (socket c) (messageHandlers c) (connectionStateHandlers c)
           (reconnectTimer c) (userId c) (sessionId c) b.

(** [socket.close()]: a socket that is not closed yet starts closing. *)
Definition close_socket (k : nat) (w : World) : World :=
  match sockets w !! k with
  | Some CLOSED | None => w
  | Some _ =>
      mkWorld (this w) (<[k := CLOSING]> (sockets w)) (timers w)
              (lastTimer w)
  end.

(** [window.clearTimeout(id)] *)
Definition clearTimeout (id : nat) (w : World) : World :=
  mkWorld (this w) (sockets w) (filter (λ i, i ≠ id) (timers w))
          (lastTimer w).

(** [window.setTimeout(callback, 3000)]: the id of the new timer. *)
Definition setTimeout (w : World) : nat * World :=
  let id := S (lastTimer w) in
  (id, mkWorld (this w) (sockets w) (timers w ++ [id]) id).

(** [new WebSocket(wsUrl)] *)
Definition new_socket (w : World) : nat * World :=
  (length (sockets w),
   mkWorld (this w) (sockets w ++ [CONNECTING]) (timers w) (lastTimer w)).

(** [if (this.reconnectTimer) { clearTimeout(...); this.reconnectTimer =
    null }]; a timer id is never 0. *)
Definition clear_reconnectTimer (w : World) : World :=
  match reconnectTimer (this w) with
  | Some id => set_this (set_reconnectTimer None (this w)) (clearTimeout id w)
  | None => w
  end.

(** [handlers.add(handler)] and [handlers.delete(handler)] on a [Set]. *)
Definition add_handler (h : nat) (hs : list nat) : list nat :=
  if decide (h ∈ hs) then hs else hs ++ [h].

Definition delete_handler (h : nat) (hs : list nat) : list nat :=
  filter (λ h', h' ≠ h) hs.

Definition set_messageHandlers (type : MessageType) (hs : list nat)
    (c : WebSocketClient) : WebSocketClient :=
  mkClient (socket c)
           (λ t, if decide (t = type) then hs else messageHandlers c t)
           (connectionStateHandlers c) (reconnectTimer c) (userId c)
           (sessionId c) (isConnected c).

Definition set_connectionStateHandlers (hs : list nat)
    (c : WebSocketClient) : WebSocketClient :=
  mkClient (socket c) (messageHandlers c) hs (reconnectTimer c) (userId c)
           (sessionId c) (isConnected c).

Definition addMessageHandler (type : MessageType) (h : nat) (w : World)
    : World :=
  set_this (set_messageHandlers type
               (add_handler h (messageHandlers (this w) type)) (this w)) w.

Definition removeMessageHandler (type : MessageType) (h : nat) (w : World)
    : World :=
  set_this (set_messageHandlers type
               (delete_handler h (messageHandlers (this w) type)) (this w)) w.

Definition addConnectionStateHandler (h : nat) (w : World) : World :=
  set_this (set_connectionStateHandlers
               (add_handler h (connectionStateHandlers (this w))) (this w)) w.

Definition removeConnectionStateHandler (h : nat) (w : World) : World :=
  set_this (set_connectionStateHandlers
               (delete_handler h (connectionStateHandlers (this w)))
               (this w)) w.

Section Handlers.

(** Whether a handler throws when it is called. *)
Variable throws : nat → bool.

Definition notifyConnectionStateHandlers (connected : bool)
    (c : WebSocketClient) : list Output :=
  h ← connectionStateHandlers c;
  StateHandlerCalled h connected :: (if throws h then [ConsoleError] else []).

Definition notifyMessageHandlers (message : WebSocketMessage)
    (c : WebSocketClient) : list Output :=
  match msg_type message with
  | Some type =>
      h ← messageHandlers c type;
      MessageHandlerCalled h message
        :: (if throws h then [ConsoleError] else [])
  | None => []
  end.

Definition disconnect (w : World) : World * list Output :=
  let w1 :=
    match socket (this w) with
    | Some k => set_this (set_socket None (this w)) (close_socket k w)
    | None => w
    end in
  let w2 := clear_reconnectTimer w1 in
  let w3 := set_this (set_isConnected false (this w2)) w2 in
  (w3, notifyConnectionStateHandlers false (this w3)).

Definition connect (u : Z) (w : World) : World * list Output :=
  let r :=
    match socket (this w) with
    | Some _ => disconnect w
    | None => (w, [])
    end in
  let w1 := set_this (set_userId (JNum u) (this r.1)) r.1 in
  let s := new_socket w1 in
  (set_this (set_socket (Some s.1) (this s.2)) s.2, r.2).

(** The ["open"] listener. *)
Definition open_listener (w : World) : World * list Output :=
  let w1 := set_this (set_isConnected true (this w)) w in
  (clear_reconnectTimer w1, notifyConnectionStateHandlers true (this w1)).

(** The ["close"] listener: the new timer replaces [reconnectTimer]
    without clearing what was there. *)
Definition close_listener (w : World) : World * list Output :=
  let w1 := set_this (set_isConnected false (this w)) w in
  let t := setTimeout w1 in
  (set_this (set_reconnectTimer (Some t.1) (this t.2)) t.2,
   notifyConnectionStateHandlers false (this w1)).

(** The callback of the reconnect timer. *)
Definition reconnect_callback (w : World) : World * list Output :=
  match userId (this w) with
  | JNum u => if truthy (JNum u) then connect u w else (w, [])
  | _ => (w, [])
  end.

(** The ["message"] listener. *)
Definition message_listener (raw : RawMessage) (w : World)
    : World * list Output :=
  match raw with
  | Unparseable => (w, [ConsoleError])
  | Parsed message => (w, notifyMessageHandlers message (this w))
  end.

Definition sendMessage (message : WebSocketMessage) (w : World)
    : World * list Output :=
  match socket (this w) with
  | Some k =>
      match sockets w !! k with
      | Some OPEN => (w, [Sent k message])
      | _ => (w, [ConsoleError])
      end
  | None => (w, [ConsoleError])
  end.

(** [{ userId: this.userId }] *)
Definition userId_payload (c : WebSocketClient) : Payload :=
  mkPayload JUndefined None None None (userId c) EmptyString.

Definition joinSession (s : Z) (w : World) : World * list Output :=
  if negb (isConnected (this w)) || negb (truthy (userId (this w))) then
    (w, [ConsoleError])
  else
    let w1 := set_this (set_sessionId (JNum s) (this w)) w in
    sendMessage (mkMsg (Some SESSION_JOIN) (JNum s) (userId (this w1))
                       (Some (userId_payload (this w1)))) w1.

Definition leaveSession (w : World) : World * list Output :=
  if negb (isConnected (this w)) || negb (truthy (userId (this w)))
     || negb (truthy (sessionId (this w)))
  then (w, [])
  else
    let r := sendMessage (mkMsg (Some SESSION_LEAVE) (sessionId (this w))
                                (userId (this w))
                                (Some (userId_payload (this w)))) w in
    (set_this (set_sessionId JNull (this r.1)) r.1, r.2).

(** The seven [send...] methods: nothing without a session, else one
    envelope of the given type with the client's two ids. *)
Definition send (type : MessageType) (payload : Payload) (w : World)
    : World * list Output :=
  if truthy (sessionId (this w)) then
    sendMessage (mkMsg (Some type) (sessionId (this w)) (userId (this w))
                       (Some payload)) w
  else (w, []).

Definition sendCodeChange (fileId : Z) (content : string) : World → _ :=
  send CODE_CHANGE
       (mkPayload (JNum fileId) (Some content) None None JUndefined
                  EmptyString).

(** [position] is the text of [{ line, column }]. *)
Definition sendCursorMove (fileId : Z) (position : string) : World → _ :=
  send CURSOR_MOVE
       (mkPayload (JNum fileId) None None None JUndefined position).

(** [content = ""] and [language = "javascript"] when not given. *)
Definition sendFileCreate (name : string) (content language : option string)
    : World → _ :=
  send FILE_CREATE
       (mkPayload JUndefined (Some (default EmptyString content)) (Some name)
                  (Some (default "javascript" language)) JUndefined
                  EmptyString).

Definition sendFileDelete (fileId : Z) : World → _ :=
  send FILE_DELETE
       (mkPayload (JNum fileId) None None None JUndefined EmptyString).

(** [timestamp] is [new Date().toISOString()]. *)
Definition sendChatMessage (content timestamp : string) : World → _ :=
  send CHAT_MESSAGE
       (mkPayload JUndefined (Some content) None None JUndefined timestamp).

Definition sendTerminalOutput (content : string) : World → _ :=
  send TERMINAL_OUTPUT
       (mkPayload JUndefined (Some content) None None JUndefined EmptyString).

Definition sendTerminalInput (content : string) : World → _ :=
  send TERMINAL_INPUT
       (mkPayload JUndefined (Some content) None None JUndefined EmptyString).

(** ** What happens to a client: the calls of the application and the
    events of the browser *)
Inductive Occurrence : Type :=
  | Connect (userId : Z)
  | Disconnect
  | JoinSession (sessionId : Z)
  | LeaveSession
  | SendCodeChange (fileId : Z) (content : string)
  | SendCursorMove (fileId : Z) (position : string)
  | SendFileCreate (name : string) (content language : option string)
  | SendFileDelete (fileId : Z)
  | SendChatMessage (content timestamp : string)
  | SendTerminalOutput (content : string)
  | SendTerminalInput (content : string)
  | AddMessageHandler (type : MessageType) (handler : nat)
  | RemoveMessageHandler (type : MessageType) (handler : nat)
  | AddConnectionStateHandler (handler : nat)
  | RemoveConnectionStateHandler (handler : nat)
  | SocketOpens (k : nat)
  | SocketCloses (k : nat)
  | SocketReceives (k : nat) (raw : RawMessage)
  | TimerFires (id : nat).

(** A socket opens once, from [CONNECTING]; it closes once, and a timer
    fires once, if it is still set; data arrives on a socket that has
    opened and has not closed.  An event that cannot happen changes
    nothing. *)
Definition act (w : World) (a : Occurrence) : World * list Output :=
  match a with
  | Connect u => connect u w
  | Disconnect => disconnect w
  | JoinSession s => joinSession s w
  | LeaveSession => leaveSession w
  | SendCodeChange fileId content => sendCodeChange fileId content w
  | SendCursorMove fileId position => sendCursorMove fileId position w
  | SendFileCreate name content language =>
      sendFileCreate name content language w
  | SendFileDelete fileId => sendFileDelete fileId w
  | SendChatMessage content timestamp => sendChatMessage content timestamp w
  | SendTerminalOutput content => sendTerminalOutput content w
  | SendTerminalInput content => sendTerminalInput content w
  | AddMessageHandler type h => (addMessageHandler type h w, [])
  | RemoveMessageHandler type h => (removeMessageHandler type h w, [])
  | AddConnectionStateHandler h => (addConnectionStateHandler h w, [])
  | RemoveConnectionStateHandler h => (removeConnectionStateHandler h w, [])
  | SocketOpens k =>
      match sockets w !! k with
      | Some CONNECTING =>
          open_listener (mkWorld (this w) (<[k := OPEN]> (sockets w)) (timers w)
                           (lastTimer w))
      | _ => (w, [])
      end
  | SocketCloses k =>
      match sockets w !! k with
      | Some CLOSED | None => (w, [])
      | Some _ =>
          close_listener (mkWorld (this w) (<[k := CLOSED]> (sockets w))
                                  (timers w) (lastTimer w))
      end
  | SocketReceives k raw =>
      match sockets w !! k with
      | Some OPEN | Some CLOSING => message_listener raw w
      | _ => (w, [])
      end
  | TimerFires id =>
      if decide (id ∈ timers w) then
        reconnect_callback (mkWorld (this w) (sockets w)
                            (filter (λ i, i ≠ id) (timers w)) (lastTimer w))
      else (w, [])
  end.

Fixpoint play (w : World) (occurrences : list Occurrence)
    : World * list Output :=
  match occurrences with
  | [] => (w, [])
  | a :: occurrences' =>
      let r := act w a in
      let r' := play r.1 occurrences' in
      (r'.1, r.2 ++ r'.2)
  end.

End Handlers.

Definition is_sent (o : Output) : bool :=
  match o with
  | Sent _ _ => true
  | _ => false
  end.

(** Every [connect] is given the id of a user; ids start at 1. *)
Definition connects_a_user (a : Occurrence) : Prop :=
  match a with
  | Connect u => u ≠ 0
  | _ => True
  end.

(** The ids of the client: a session id that is set comes with the id of
    a user, and neither is ever [undefined]. *)
Definition ids_ok (w : World) : Prop :=
  userId (this w) ≠ JUndefined
  ∧ sessionId (this w) ≠ JUndefined
  ∧ (truthy (sessionId (this w)) = true → truthy (userId (this w)) = true).

(** An envelope as the relay expects it: the id of a user, no property
    missing, and, unless it is a join, the id of a session. *)
Definition envelope_ok (o : Output) : Prop :=
  match o with
  | Sent _ message =>
      truthy (msg_userId message) = true
      ∧ missing_fields message = false
      ∧ (msg_type message = Some SESSION_JOIN
         ∨ truthy (msg_sessionId message) = true)
  | _ => True
  end.

End Client.

(** * The code view: [CodeBlock] (client/src/components/CodeBlock.tsx)

    [getTokenClass] tests a token with seven regular expressions, each
    anchored at both ends.  A character is named by its code. *)

Module CodeBlock.

(** An alternation of words between [^(] and [)$]: the token is one of
    the words. *)
Definition one_of (words : list string) (token : string) : bool :=
  bool_decide (token ∈ words).

Definition keywords : list string :=
  ["const"; "let"; "var"; "function"; "class"; "import"; "export"; "return";
   "if"; "else"; "for"; "while"; "switch"; "case"; "break"; "continue";
   "try"; "catch"; "throw"; "new"; "this"; "super"; "extends"; "async";
   "await"].

Definition literals : list string := ["true"; "false"; "null"; "undefined"].

Definition builtins : list string :=
  ["console"; "document"; "window"; "Array"; "Object"; "String"; "Number";
   "Boolean"; "Function"; "Symbol"; "Map"; "Set"; "Promise"; "JSON"].

Definition in_range (lo hi : Z) (c : Ascii.ascii) : bool :=
  (lo <=? char_code c) && (char_code c <=? hi).

(** [[0-9]] *)
Definition is_digit (c : Ascii.ascii) : bool := in_range 48 57 c.

(** [[a-zA-Z_$]]: 95 is the underscore, 36 the dollar sign. *)
Definition is_identifier_start (c : Ascii.ascii) : bool :=
  in_range 97 122 c || in_range 65 90 c
  || (char_code c =? 95) || (char_code c =? 36).

(** [[a-zA-Z0-9_$]] *)
Definition is_identifier_part (c : Ascii.ascii) : bool :=
  is_identifier_start c || is_digit c.

Fixpoint all_chars (p : Ascii.ascii → bool) (s : string) : bool :=
  match s with
  | EmptyString => true
  | String c s' => p c && all_chars p s'
  end.

(** [/^[a-zA-Z_$][a-zA-Z0-9_$]*$/] *)
Definition is_identifier (token : string) : bool :=
  match token with
  | EmptyString => false
  | String c rest => is_identifier_start c && all_chars is_identifier_part rest
  end.

(** The three quote characters of the class: 39, 34 and 96. *)
Definition is_quote (c : Ascii.ascii) : bool :=
  (char_code c =? 39) || (char_code c =? 34) || (char_code c =? 96).

(** What [.] does not match below 256: line feed and carriage return. *)
Definition is_line_terminator (c : Ascii.ascii) : bool :=
  (char_code c =? 10) || (char_code c =? 13).

(** Any characters but line terminators, then a quote at the end. *)
Fixpoint ends_quoted (s : string) : bool :=
  match s with
  | EmptyString => false
  | String c EmptyString => is_quote c
  | String c s' => negb (is_line_terminator c) && ends_quoted s'
  end.

(** The string test: a quote, any characters but line terminators, a
    quote; the two quotes need not be the same. *)
Definition is_string_literal (token : string) : bool :=
  match token with
  | EmptyString => false
  | String c rest => is_quote c && ends_quoted rest
  end.

(** [[0-9]+] at the start: what follows the digits, if there is a digit. *)
Fixpoint after_digits (seen : bool) (s : string) : option string :=
  match s with
  | String c s' =>
      if is_digit c then after_digits true s'
      else if seen then Some s else None
  | EmptyString => if seen then Some s else None
  end.

(** [/^[0-9]+(\.[0-9]+)?$/]: 46 is the point. *)
Definition is_number (token : string) : bool :=
  match after_digits false token with
  | Some EmptyString => true
  | Some (String c rest) =>
      (char_code c =? 46)
      && bool_decide (after_digits false rest = Some EmptyString)
  | None => false
  end.

(** [token.startsWith] of two slashes: 47 is the slash. *)
Definition is_comment (token : string) : bool :=
  match token with
  | String c (String c' _) => (char_code c =? 47) && (char_code c' =? 47)
  | _ => false
  end.

(** [/^[{}()\[\].,;:]$/]: one of the ten characters
    123 125 40 41 91 93 46 44 59 58. *)
Definition is_punctuation (token : string) : bool :=
  match token with
  | String c EmptyString =>
      bool_decide (char_code c ∈ [123; 125; 40; 41; 91; 93; 46; 44; 59; 58])
  | _ => false
  end.

Definition getTokenClass (token lang : string) : string :=
  if bool_decide (lang = "javascript") || bool_decide (lang = "typescript")
  then
    if one_of keywords token then "text-violet-400"
    else if is_identifier token && negb (one_of literals token)
    then "text-green-400"
    else if one_of builtins token then "text-blue-300"
    else if is_string_literal token then "text-green-300"
    else if is_number token then "text-orange-400"
    else if is_comment token then "text-slate-500"
    else if is_punctuation token then "text-slate-400"
    else EmptyString
  else EmptyString.

End CodeBlock.

(** ** Concrete stores and clients used as instances *)

Definition ada : MemStorage.InsertUser.t :=
  MemStorage.InsertUser.mk "ada" "secret" "ada@example.org" "Ada" None.

Definition bob : MemStorage.InsertUser.t :=
  MemStorage.InsertUser.mk "bob" "hunter2" "bob@example.org" "Bob" None.

(** Ada and Bob have registered, Ada has a skill, and Ada has opened a
    session with Bob. *)
Definition campus_requests : list Server.Request :=
  [Server.PostRegister (Some ada);
   Server.PostRegister (Some bob);
   Server.PostSkill (Some (1, "rust"));
   Server.PostSession
     (Some (MemStorage.InsertSession.mk 1 (Some 2) (Some "javascript")))
     10 11].

Definition campus : MemStorage.t := Server.serve_all campus_requests.

(** No handler throws. *)
Definition quiet (h : nat) : bool := false.

(** A client of user 1 whose socket has opened, and the same client after
    it has joined session 7. *)
Definition client_connected : Client.World :=
  (Client.play quiet Client.new [Client.Connect 1; Client.SocketOpens 0]).1.

Definition client_in_session : Client.World :=
  (Client.play quiet client_connected [Client.JoinSession 7]).1.

(** ** Sets in insertion order *)

Lemma elem_of_set_add (x y : JsVal) (s : list JsVal) :
  y ∈ set_add x s ↔ y = x ∨ y ∈ s.
Proof.
  unfold set_add. case_decide as Hx.
  - split; [by right | by intros [-> | ?]].
  - rewrite elem_of_app, list_elem_of_singleton. tauto.
Qed.

Lemma elem_of_set_delete (x y : JsVal) (s : list JsVal) :
  y ∈ set_delete x s ↔ y ≠ x ∧ y ∈ s.
Proof. unfold set_delete. by rewrite list_elem_of_filter. Qed.

Lemma NoDup_set_add (x : JsVal) (s : list JsVal) :
  NoDup s → NoDup (set_add x s).
Proof.
  intros Hs. unfold set_add. case_decide as Hx; [done |].
  apply NoDup_app. split_and!; [done | | apply NoDup_singleton].
  intros y Hy ->%list_elem_of_singleton. done.
Qed.

Lemma NoDup_set_delete (x : JsVal) (s : list JsVal) :
  NoDup s → NoDup (set_delete x s).
Proof. apply NoDup_filter. Qed.

Lemma set_add_member (x : JsVal) (s : list JsVal) :
  x ∈ s → set_add x s = s.
Proof. intros Hx. unfold set_add. by rewrite decide_True. Qed.

(** ** The shape of one run of the message handler *)

Section Handler.

Variable rejects : StorageCall → bool.

Lemma on_message_unparseable (ws : nat) (c : Conn) (st : State) :
  conns st !! ws = Some c →
  on_message rejects ws Unparseable st = (st, [LogError]).
Proof. intros Hc. unfold on_message. by rewrite Hc. Qed.

Lemma on_message_other (ws : nat) (c : Conn) (data : WebSocketMessage)
    (st : State) :
  conns st !! ws = Some c →
  msg_type data ≠ Some SESSION_JOIN →
  on_message rejects ws (Parsed data) st =
    let c1 := bind_userId c data in
    let st3 := with_conn ws c1 st in
    let r := dispatch rejects st3 c1 data in
    (r.1.1, broadcast st3 c1 data ++ r.1.2
              ++ (if r.2 then [LogError] else [])).
Proof.
  intros Hc Hty. unfold on_message. rewrite Hc.
  rewrite decide_False by done. cbn zeta.
  by destruct (dispatch _ _ _ _) as [[??]?].
Qed.

Lemma dispatch_join (st : State) (c : Conn) (data : WebSocketMessage) :
  msg_type data = Some SESSION_JOIN →
  dispatch rejects st c data = (st, [], false).
Proof. intros Hty. unfold dispatch. by rewrite Hty. Qed.

Lemma on_message_join (ws : nat) (c : Conn) (data : WebSocketMessage)
    (st : State) :
  conns st !! ws = Some c →
  msg_type data = Some SESSION_JOIN →
  on_message rejects ws (Parsed data) st =
    let r := join_session ws (bind_userId c data) data st in
    let st3 := with_conn ws r.1 r.2 in
    (st3, broadcast st3 r.1 data).
Proof.
  intros Hc Hty. unfold on_message. rewrite Hc.
  rewrite decide_True by done.
  destruct (join_session _ _ _ _) as [c2 st2] eqn:Hj. cbn zeta.
  rewrite dispatch_join by done. cbn. by rewrite app_nil_r.
Qed.

(** The switch touches neither the registry nor the connection table, and
    sends nothing. *)
Lemma dispatch_frame (st : State) (c : Conn) (data : WebSocketMessage) :
  let r := dispatch rejects st c data in
  connectedClients r.1.1 = connectedClients st
  ∧ conns r.1.1 = conns st
  ∧ users r.1.1 = users st
  ∧ filter is_send r.1.2 = [].
Proof.
  unfold dispatch.
  destruct (msg_type data) as [[]|]; cbn; try done.
  - destruct (msg_payload data); [case_match |]; done.
  - case_match; [destruct (msg_payload data) |]; done.
  - case_match; [| done]. repeat case_match; done.
Qed.

(** Without a remembered session the switch leaves the state alone. *)
Lemma dispatch_no_session (st : State) (c : Conn) (data : WebSocketMessage) :
  truthy (sessionId c) = false →
  (dispatch rejects st c data).1.1 = st.
Proof.
  intros Hs. unfold dispatch. rewrite Hs.
  destruct (msg_type data) as [[]|]; cbn; try done.
  destruct (msg_payload data); [case_match |]; done.
Qed.

(** A switch other than [SESSION_LEAVE] leaves the state alone. *)
Lemma dispatch_not_leave (st : State) (c : Conn) (data : WebSocketMessage) :
  msg_type data ≠ Some SESSION_LEAVE →
  (dispatch rejects st c data).1.1 = st.
Proof.
  intros Hty. unfold dispatch.
  destruct (msg_type data) as [[]|]; cbn; try done.
  - destruct (msg_payload data); [case_match |]; done.
  - case_match; [destruct (msg_payload data) |]; done.
Qed.

Lemma broadcast_sends (st : State) (c : Conn) (data : WebSocketMessage) :
  broadcast st c data = (λ w, Send w data) <$> fanout st c.
Proof.
  unfold broadcast, fanout, members.
  destruct (truthy (sessionId c)); [| done].
  by destruct (sessionClients st !! sessionId c).
Qed.

Lemma filter_is_send_sends (data : WebSocketMessage) (ws : list nat) :
  filter is_send ((λ w, Send w data) <$> ws) = (λ w, Send w data) <$> ws.
Proof.
  induction ws as [| w ws IH]; [done |].
  rewrite fmap_cons, filter_cons_True by done. by rewrite IH.
Qed.

Lemma filter_call_sends (k : StorageCall) (data : WebSocketMessage)
    (ws : list nat) :
  filter (λ e, e = Call k) ((λ w, Send w data) <$> ws) = [].
Proof.
  induction ws as [| w ws IH]; [done |].
  by rewrite fmap_cons, filter_cons_False by congruence.
Qed.

End Handler.

(** ** Joining *)

Section Claims_step.

Variable rejects : StorageCall → bool.

(** C7. Joining is idempotent: when a session-join arrives for a participant
    who is already in the session's membership set, the whole membership
    table, and so that session's set, is left as it was, and nothing is
    logged as an error. *)
Theorem join_idempotent (ws : nat) (c : Conn) (data : WebSocketMessage)
    (st : State) :
  conns st !! ws = Some c →
  msg_type data = Some SESSION_JOIN →
  userId (bind_userId c data) ∈ members st (msg_sessionId data) →
  let r := on_message rejects ws (Parsed data) st in
  sessionClients r.1 = sessionClients st
  ∧ members r.1 (msg_sessionId data) = members st (msg_sessionId data)
  ∧ length (members r.1 (msg_sessionId data))
    = length (members st (msg_sessionId data))
  ∧ LogError ∉ r.2.
Proof.
  intros Hc Hty Hin r.
  assert (sessionClients r.1 = sessionClients st) as Hsc.
  { subst r. rewrite (on_message_join _ _ c) by done. cbn.
    unfold members in Hin.
    destruct (sessionClients st !! msg_sessionId data) as [s|] eqn:Hs;
      [| by apply elem_of_nil in Hin].
    cbn in Hin. unfold members_add. rewrite Hs.
    rewrite set_add_member by done. by apply insert_id. }
  unfold members. rewrite Hsc. split_and!; try done.
  subst r. rewrite (on_message_join _ _ c) by done. cbn.
  rewrite broadcast_sends. intros (w & ? & _)%list_elem_of_fmap. done.
Qed.

End Claims_step.

(** ** Before the first join *)

Section Claims_prejoin.

Variable rejects : StorageCall → bool.

Lemma run_app (st : State) (evs1 evs2 : list Event) :
  run rejects st (evs1 ++ evs2) =
    let r1 := run rejects st evs1 in
    let r2 := run rejects r1.1 evs2 in
    (r2.1, r1.2 ++ r2.2).
Proof.
  revert st. induction evs1 as [| ev evs1 IH]; intros st; cbn.
  - by destruct (run rejects st evs2).
  - destruct (step rejects st ev) as [st1 e1]. rewrite IH. cbn.
    destruct (run rejects st1 evs1) as [st2 e2]. cbn.
    destruct (run rejects st2 evs2) as [st3 e3]. cbn.
    by rewrite app_assoc.
Qed.

Lemma run_cons (st : State) (ev : Event) (evs : list Event) :
  run rejects st (ev :: evs) =
    let r1 := step rejects st ev in
    let r2 := run rejects r1.1 evs in
    (r2.1, r1.2 ++ r2.2).
Proof.
  cbn. destruct (step rejects st ev) as [st1 e1]. cbn.
  by destruct (run rejects st1 evs).
Qed.

Lemma bind_userId_sessionId (c : Conn) (data : WebSocketMessage) :
  sessionId (bind_userId c data) = sessionId c.
Proof. unfold bind_userId. by destruct (truthy (userId c)). Qed.

Lemma bind_userId_readyState (c : Conn) (data : WebSocketMessage) :
  readyState (bind_userId c data) = readyState c.
Proof. unfold bind_userId. by destruct (truthy (userId c)). Qed.

(** One message that is not a join, on a connection that remembers no
    session. *)
Lemma on_message_prejoin (ws : nat) (c : Conn) (raw : RawMessage)
    (st : State) :
  conns st !! ws = Some c →
  truthy (sessionId c) = false →
  is_join raw = false →
  let r := on_message rejects ws raw st in
  filter is_send r.2 = []
  ∧ connectedClients r.1 = connectedClients st
  ∧ sessionClients r.1 = sessionClients st
  ∧ ∃ c', conns r.1 !! ws = Some c' ∧ sessionId c' = sessionId c.
Proof.
  intros Hc Hs Hj. destruct raw as [| data]; cbn zeta.
  - rewrite (on_message_unparseable _ _ c) by done. cbn.
    split_and!; try done. by exists c.
  - cbn in Hj. apply bool_decide_eq_false in Hj.
    rewrite (on_message_other _ _ c) by done. cbn zeta. cbn [fst snd].
    pose proof (dispatch_frame rejects (with_conn ws (bind_userId c data) st)
                  (bind_userId c data) data) as (_ & _ & _ & Hsend).
    rewrite dispatch_no_session by (by rewrite bind_userId_sessionId).
    unfold broadcast. rewrite bind_userId_sessionId, Hs. cbn.
    split_and!; try done.
    + rewrite filter_app, Hsend. by destruct (dispatch _ _ _ _).2.
    + exists (bind_userId c data). rewrite lookup_insert_eq.
      by rewrite bind_userId_sessionId.
Qed.

(** A message that is not a join never registers a connection and never
    adds a member. *)
Lemma on_message_other_frame (ws : nat) (raw : RawMessage) (st : State) :
  is_join raw = false →
  let r := on_message rejects ws raw st in
  connectedClients r.1 = connectedClients st
  ∧ ∀ sid x, x ∈ members r.1 sid → x ∈ members st sid.
Proof.
  intros Hj. cbn zeta.
  destruct (conns st !! ws) as [c|] eqn:Hc;
    [| unfold on_message; rewrite Hc; done].
  destruct raw as [| data].
  { rewrite (on_message_unparseable _ _ c) by done. done. }
  cbn in Hj. apply bool_decide_eq_false in Hj.
  rewrite (on_message_other _ _ c) by done. cbn zeta. cbn [fst snd].
  pose proof (dispatch_frame rejects (with_conn ws (bind_userId c data) st)
                (bind_userId c data) data) as (Hreg & _).
  split; [done |].
  intros sid x. unfold dispatch.
  destruct (msg_type data) as [[]|]; cbn; try done.
  - destruct (msg_payload data); [case_match |]; done.
  - case_match; [destruct (msg_payload data) |]; done.
  - case_match; [| done].
    set (sc := members_delete _ _ _).
    assert (x ∈ default [] (sc !! sid) → x ∈ members st sid) as Hsub.
    { subst sc. unfold members_delete, members.
      destruct (sessionClients st !! sessionId (bind_userId c data))
        as [s|] eqn:Hs; [| done].
      destruct (decide (sessionId (bind_userId c data) = sid)) as [<- |Hne].
      - rewrite lookup_insert_eq, Hs. cbn.
        by intros [_ ?]%elem_of_set_delete.
      - by rewrite lookup_insert_ne. }
    by repeat case_match.
Qed.

End Claims_prejoin.

(** ** Broadcast first, storage afterwards *)

Section Claims_order.

Variable rejects : StorageCall → bool.

Lemma is_open_with_conn (ws w : nat) (c c' : Conn) (st : State) :
  conns st !! ws = Some c →
  readyState c' = readyState c →
  is_open (with_conn ws c' st) w = is_open st w.
Proof.
  intros Hc Hr. unfold is_open, with_conn. cbn.
  destruct (decide (ws = w)) as [<- | Hne].
  - by rewrite lookup_insert_eq, Hc, Hr.
  - by rewrite lookup_insert_ne.
Qed.

Lemma recipients_ext (st st' : State) (l : list JsVal) (sender : JsVal) :
  (∀ x, open_client st' x = open_client st x) →
  recipients st' l sender = recipients st l sender.
Proof.
  intros Hext. unfold recipients.
  induction l as [| x l IH]; [done |]. cbn. by rewrite Hext, IH.
Qed.

Lemma open_client_with_conn (ws : nat) (c c' : Conn) (st : State) (x : JsVal) :
  conns st !! ws = Some c →
  readyState c' = readyState c →
  open_client (with_conn ws c' st) x = open_client st x.
Proof.
  intros Hc Hr. unfold open_client.
  change (connectedClients (with_conn ws c' st)) with (connectedClients st).
  destruct (connectedClients st !! x) as [w|]; [| done].
  by rewrite (is_open_with_conn _ _ c).
Qed.

Lemma fanout_with_conn (ws : nat) (c c' c'' : Conn) (st : State) :
  conns st !! ws = Some c →
  readyState c' = readyState c →
  fanout (with_conn ws c' st) c'' = fanout st c''.
Proof.
  intros Hc Hr. unfold fanout.
  destruct (truthy (sessionId c'')); [| done].
  change (members (with_conn ws c' st)) with (members st).
  apply recipients_ext. intros x. by apply (open_client_with_conn _ c).
Qed.

(** The switch does not read the envelope's [sessionId]. *)
Lemma dispatch_with_sessionId (st : State) (c : Conn)
    (data : WebSocketMessage) (sid : JsVal) :
  dispatch rejects st c (with_sessionId sid data) = dispatch rejects st c data.
Proof. done. Qed.

Lemma dispatch_EndSession (st : State) (c : Conn) (data : WebSocketMessage)
    (k : JsVal) :
  Call (EndSession k) ∈ (dispatch rejects st c data).1.2 → k = sessionId c.
Proof.
  unfold dispatch.
  destruct (msg_type data) as [[]|]; cbn; try by intros ?%elem_of_nil.
  - destruct (msg_payload data); [case_match |]; cbn;
      try (by intros ?%elem_of_nil).
    by intros ?%list_elem_of_singleton.
  - case_match; [destruct (msg_payload data) |]; cbn;
      try (by intros ?%elem_of_nil).
    by intros ?%list_elem_of_singleton.
  - case_match; [| by intros ?%elem_of_nil].
    repeat case_match; cbn; try (by intros ?%elem_of_nil).
    intros ?%list_elem_of_singleton. congruence.
Qed.

Lemma dispatch_other_sessions (st : State) (c : Conn)
    (data : WebSocketMessage) (sid : JsVal) :
  sid ≠ sessionId c →
  sessionClients (dispatch rejects st c data).1.1 !! sid
  = sessionClients st !! sid.
Proof.
  intros Hne. unfold dispatch.
  destruct (msg_type data) as [[]|]; cbn; try done.
  - destruct (msg_payload data); [case_match |]; done.
  - case_match; [destruct (msg_payload data) |]; done.
  - case_match; [| done].
    assert (members_delete (sessionId c) (userId c) (sessionClients st) !! sid
            = sessionClients st !! sid) as Hsc.
    { unfold members_delete. case_match; [| done].
      by rewrite lookup_insert_ne. }
    by repeat case_match.
Qed.

Lemma resend_no_sends (data : WebSocketMessage) (effs : list Effect) :
  filter is_send effs = [] → resend data <$> effs = effs.
Proof.
  induction effs as [| e effs IH]; [done |]. intros Hs.
  destruct e.
  - by rewrite filter_cons_True in Hs by done.
  - rewrite filter_cons_False in Hs by (cbn; tauto).
    rewrite fmap_cons. cbn [resend]. by rewrite IH.
  - rewrite filter_cons_False in Hs by (cbn; tauto).
    rewrite fmap_cons. cbn [resend]. by rewrite IH.
  - rewrite filter_cons_False in Hs by (cbn; tauto).
    rewrite fmap_cons. cbn [resend]. by rewrite IH.
Qed.

Lemma elem_of_recipients (st : State) (l : list JsVal) (sender : JsVal)
    (w : nat) :
  w ∈ recipients st l sender ↔
    ∃ m, m ∈ l ∧ m ≠ sender ∧ connectedClients st !! m = Some w
         ∧ is_open st w = true.
Proof.
  unfold recipients. rewrite list_elem_of_omap. unfold open_client.
  split.
  - intros (m & Hm & Hf). exists m. case_decide; [done |].
    destruct (connectedClients st !! m) as [w'|]; [| done].
    destruct (is_open st w') eqn:Ho; [| done].
    by injection Hf as ->.
  - intros (m & Hm & Hne & Hreg & Ho). exists m. split; [done |].
    rewrite decide_False by done. by rewrite Hreg, Ho.
Qed.

(** C10, as the code has it.  After a connection's join, an event that is
    not itself a join is forwarded to the members of the session the
    connection remembers: when that session's id is truthy, to exactly the
    open registered sockets of its members other than the sender, and to
    nobody otherwise.  The
    membership change and the session-end of a leave concern that session,
    and the [sessionId] written in the envelope has no influence: the same
    event naming another session gives the same state and the same effects,
    the envelope being forwarded as it came. *)
Theorem remembered_session_decides (st : State) (ws : nat) (c : Conn)
    (data : WebSocketMessage) (sid' : JsVal) :
  conns st !! ws = Some c →
  msg_type data ≠ Some SESSION_JOIN →
  let r := on_message rejects ws (Parsed data) st in
  let r' := on_message rejects ws (Parsed (with_sessionId sid' data)) st in
  let sender := userId (bind_userId c data) in
  (∃ targets,
     filter is_send r.2 = (λ w, Send w data) <$> targets
     ∧ if truthy (sessionId c)
       then ∀ w, w ∈ targets ↔
              ∃ m, m ∈ members st (sessionId c) ∧ m ≠ sender
                   ∧ connectedClients st !! m = Some w
                   ∧ is_open st w = true
       else targets = [])
  ∧ (∀ k, Call (EndSession k) ∈ r.2 → k = sessionId c)
  ∧ (∀ sid, sid ≠ sessionId c →
       sessionClients r.1 !! sid = sessionClients st !! sid)
  ∧ r'.1 = r.1
  ∧ r'.2 = resend (with_sessionId sid' data) <$> r.2.
Proof.
  intros Hc Hty r r' sender. subst r r' sender.
  rewrite !(on_message_other _ _ c) by done. cbn zeta. cbn [fst snd].
  change (bind_userId c (with_sessionId sid' data)) with (bind_userId c data).
  rewrite dispatch_with_sessionId.
  set (c1 := bind_userId c data). set (st3 := with_conn ws c1 st).
  pose proof (dispatch_frame rejects st3 c1 data) as (_ & _ & _ & Hsend).
  pose proof (dispatch_EndSession st3 c1 data) as Hend.
  pose proof (dispatch_other_sessions st3 c1 data) as Hoth.
  rewrite !broadcast_sends.
  assert (fanout st3 c1 = fanout st c1) as ->.
  { apply (fanout_with_conn _ c); [done |]. apply bind_userId_readyState. }
  destruct (dispatch rejects st3 c1 data) as [[st4 effs] threw].
  cbn [fst snd] in *. split_and!.
  - exists (fanout st c1). split.
    + rewrite !filter_app, filter_is_send_sends, Hsend.
      destruct threw; cbn; by rewrite app_nil_r.
    + unfold fanout. subst c1. rewrite bind_userId_sessionId.
      destruct (truthy (sessionId c)); [| done].
      intros w. apply elem_of_recipients.
  - intros k [Hk | [Hk | Hk]%elem_of_app]%elem_of_app.
    + by apply list_elem_of_fmap in Hk as (? & ? & _).
    + rewrite (Hend k Hk). apply bind_userId_sessionId.
    + destruct threw; [apply list_elem_of_singleton in Hk
                      | apply elem_of_nil in Hk]; done.
  - intros sid Hne. rewrite Hoth; [done |].
    subst c1. by rewrite bind_userId_sessionId.
  - done.
  - rewrite !fmap_app, <- !list_fmap_compose.
    rewrite (resend_no_sends _ effs) by done.
    by destruct threw.
Qed.


End Claims_order.

(** ** Invariants of the reachable states *)

Section Invariants.

Variable rejects : StorageCall → bool.

Lemma on_message_at_broadcast (ws : nat) (c : Conn) (data : WebSocketMessage)
    (st : State) :
  conns st !! ws = Some c →
  on_message rejects ws (Parsed data) st =
    let b := at_broadcast ws c data st in
    let r := dispatch rejects b.2 b.1 data in
    (r.1.1, broadcast b.2 b.1 data ++ r.1.2
              ++ (if r.2 then [LogError] else [])).
Proof.
  intros Hc. unfold on_message, at_broadcast. rewrite Hc.
  destruct (decide _); cbn zeta; cbn [fst snd].
  - destruct (join_session _ _ _ _) as [c2 st2]. cbn [fst snd].
    by destruct (dispatch _ _ _ _) as [[??]?].
  - by destruct (dispatch _ _ _ _) as [[??]?].
Qed.

Lemma bind_userId_truthy (c : Conn) (data : WebSocketMessage) :
  truthy (msg_userId data) = true →
  truthy (userId (bind_userId c data)) = true.
Proof.
  intros Hd. unfold bind_userId.
  by destruct (truthy (userId c)) eqn:Hu.
Qed.

Lemma bind_userId_bound (c : Conn) (data : WebSocketMessage) :
  truthy (userId c) = true → bind_userId c data = c.
Proof. intros Hu. unfold bind_userId. by rewrite Hu. Qed.

Lemma at_broadcast_conn (ws : nat) (c : Conn) (data : WebSocketMessage)
    (st : State) :
  let b := at_broadcast ws c data st in
  conns b.2 = <[ws := b.1]> (conns st)
  ∧ userId b.1 = userId (bind_userId c data)
  ∧ readyState b.1 = readyState c.
Proof.
  unfold at_broadcast. destruct (decide _); cbn;
    by rewrite ?bind_userId_readyState.
Qed.

Lemma at_broadcast_registry_ok (ws : nat) (c : Conn)
    (data : WebSocketMessage) (st : State) :
  conns st !! ws = Some c →
  readyState c ≠ CLOSED →
  truthy (msg_userId data) = true →
  registry_ok st →
  registry_ok (at_broadcast ws c data st).2.
Proof.
  intros Hc Hopen Hwf Hreg m w Hm.
  pose proof (at_broadcast_conn ws c data st) as (Hconns & Hu & Hr).
  cbn zeta in *. rewrite Hconns.
  assert (∀ m', connectedClients st !! m' = Some ws →
            userId (bind_userId c data) = m') as Hself.
  { intros m' (c' & Hc' & <- & Ht & _)%Hreg.
    assert (c' = c) as -> by congruence. by rewrite bind_userId_bound. }
  assert (connectedClients st !! m = Some w
          ∨ (m = userId (bind_userId c data) ∧ w = ws)) as [Hold | [-> ->]].
  { revert Hm. unfold at_broadcast. destruct (decide _); cbn; [| by left].
    destruct (decide (userId (bind_userId c data) = m)) as [<- | Hne].
    - rewrite lookup_insert_eq. intros [= <-]. by right.
    - rewrite lookup_insert_ne by done. by left. }
  - destruct (decide (w = ws)) as [-> | Hne].
    + rewrite lookup_insert_eq. eexists. split; [done |].
      destruct (Hreg _ _ Hold) as (c' & Hc' & <- & Ht & _).
      rewrite Hu, Hr. by rewrite (Hself _ Hold).
    + rewrite lookup_insert_ne by done. by apply Hreg.
  - rewrite lookup_insert_eq. eexists. split; [done |].
    rewrite Hu, Hr. split_and!; try done. by apply bind_userId_truthy.
Qed.


Lemma members_add_NoDup (sid uid : JsVal) (sc : gmap JsVal (list JsVal)) :
  (∀ s l, sc !! s = Some l → NoDup l) →
  ∀ s l, members_add sid uid sc !! s = Some l → NoDup l.
Proof.
  intros Hsc s l. unfold members_add.
  destruct (sc !! sid) as [l0|] eqn:Hl0; [| apply Hsc].
  destruct (decide (sid = s)) as [<- | Hne].
  - rewrite lookup_insert_eq. intros [= <-]. apply NoDup_set_add. eauto.
  - rewrite lookup_insert_ne by done. apply Hsc.
Qed.

Lemma members_delete_NoDup (sid uid : JsVal) (sc : gmap JsVal (list JsVal)) :
  (∀ s l, sc !! s = Some l → NoDup l) →
  ∀ s l, members_delete sid uid sc !! s = Some l → NoDup l.
Proof.
  intros Hsc s l. unfold members_delete.
  destruct (sc !! sid) as [l0|] eqn:Hl0; [| apply Hsc].
  destruct (decide (sid = s)) as [<- | Hne].
  - rewrite lookup_insert_eq. intros [= <-]. apply NoDup_set_delete. eauto.
  - rewrite lookup_insert_ne by done. apply Hsc.
Qed.

Lemma at_broadcast_sets_ok (ws : nat) (c : Conn) (data : WebSocketMessage)
    (st : State) :
  sets_ok st → sets_ok (at_broadcast ws c data st).2.
Proof.
  intros Hsets. unfold at_broadcast, sets_ok.
  destruct (decide _); cbn; [| apply Hsets].
  apply members_add_NoDup. intros s l.
  destruct (sessionClients st !! msg_sessionId data) eqn:Hs; [apply Hsets |].
  destruct (decide (msg_sessionId data = s)) as [<- | Hne].
  - rewrite lookup_insert_eq. intros [= <-]. apply NoDup_nil_2.
  - rewrite lookup_insert_ne by done. apply Hsets.
Qed.

Lemma dispatch_sets_ok (st : State) (c : Conn) (data : WebSocketMessage) :
  sets_ok st → sets_ok (dispatch rejects st c data).1.1.
Proof.
  intros Hsets. unfold dispatch.
  destruct (msg_type data) as [[]|]; cbn; try done.
  - destruct (msg_payload data); [case_match |]; done.
  - case_match; [destruct (msg_payload data) |]; done.
  - case_match; [| done].
    assert (sets_ok (with_sessionClients
                       (members_delete (sessionId c) (userId c)
                          (sessionClients st)) st)) as Hok.
    { unfold sets_ok. cbn. by apply members_delete_NoDup. }
    by repeat case_match.
Qed.

Lemma dispatch_registry_ok (st : State) (c : Conn) (data : WebSocketMessage) :
  registry_ok st → registry_ok (dispatch rejects st c data).1.1.
Proof.
  intros Hreg.
  pose proof (dispatch_frame rejects st c data) as (H1 & H2 & _).
  unfold registry_ok. cbn zeta in *. rewrite H1, H2. apply Hreg.
Qed.

(** What the close handler does to the tables. *)
Lemma close_session_frame (c : Conn) (st : State) :
  let r := close_session rejects c st in
  connectedClients r.1 = connectedClients st
  ∧ conns r.1 = conns st
  ∧ users r.1 = users st
  ∧ sessionClients r.1 =
      (if truthy (sessionId c)
       then members_delete (sessionId c) (userId c) (sessionClients st)
       else sessionClients st).
Proof.
  unfold close_session.
  destruct (truthy (sessionId c)); [| done].
  by repeat case_match.
Qed.

Lemma updateUser_tables (id : JsVal) (online : bool) (st : State) :
  connectedClients (updateUser id online st) = connectedClients st
  ∧ sessionClients (updateUser id online st) = sessionClients st
  ∧ conns (updateUser id online st) = conns st.
Proof. unfold updateUser. by destruct (getUser st id). Qed.

Lemma on_close_frame (ws : nat) (c : Conn) (st : State) :
  conns st !! ws = Some c →
  let r := on_close rejects ws st in
  conns r.1 = conns st
  ∧ connectedClients r.1 =
      (if truthy (userId c) then delete (userId c) (connectedClients st)
       else connectedClients st)
  ∧ (∀ sid l, sessionClients r.1 !! sid = Some l →
       sessionClients st !! sid = Some l
       ∨ ∃ l0, sessionClients st !! sid = Some l0
               ∧ l = set_delete (userId c) l0).
Proof.
  intros Hc. unfold on_close. rewrite Hc.
  assert (∀ st0 : State,
            let r := close_session rejects c st0 in
            ∀ sid l, sessionClients r.1 !! sid = Some l →
              sessionClients st0 !! sid = Some l
              ∨ ∃ l0, sessionClients st0 !! sid = Some l0
                      ∧ l = set_delete (userId c) l0) as Hcs.
  { intros st0 r sid l. subst r.
    pose proof (close_session_frame c st0) as (_ & _ & _ & ->).
    destruct (truthy (sessionId c)); [| by left].
    unfold members_delete.
    destruct (sessionClients st0 !! sessionId c) as [l0|] eqn:Hl0;
      [| by left].
    destruct (decide (sessionId c = sid)) as [<- | Hne].
    - rewrite lookup_insert_eq. intros [= <-]. right. by exists l0.
    - rewrite lookup_insert_ne by done. by left. }
  destruct (truthy (userId c)); [| by split_and!; [..| left]].
  destruct (rejects (GetUser (userId c))); [by split_and!; [..| left] |].
  set (st1 := mkState (delete (userId c) (connectedClients st))
                (sessionClients st) (conns st) (users st)).
  destruct (getUser st1 (userId c)).
  - destruct (rejects (UpdateUser (userId c) false));
      [by split_and!; [..| left] |].
    cbn zeta. cbn [fst].
    pose proof (close_session_frame c (updateUser (userId c) false st1))
      as (H1 & H2 & _).
    pose proof (Hcs (updateUser (userId c) false st1)) as H3.
    pose proof (updateUser_tables (userId c) false st1) as (U1 & U2 & U3).
    cbn zeta in *. rewrite H1, H2, U1, U3. rewrite U2 in H3. done.
  - cbn zeta. cbn [fst].
    pose proof (close_session_frame c st1) as (H1 & H2 & _).
    pose proof (Hcs st1) as H3.
    cbn zeta in *. rewrite H1, H2. done.
Qed.

Lemma step_invariants (st : State) (ev : Event) :
  wf_event ev = true →
  registry_ok st ∧ sets_ok st →
  registry_ok (step rejects st ev).1 ∧ sets_ok (step rejects st ev).1.
Proof.
  intros Hwf [Hreg Hsets]. destruct ev as [ws | ws raw | ws | ws]; cbn.
  - destruct (conns st !! ws) as [c|] eqn:Hc; [done |]. split; [| done].
    intros m w Hm. cbn in *.
    destruct (Hreg _ _ Hm) as (c' & Hc' & ?).
    rewrite lookup_insert_ne by congruence. eauto.
  - destruct (conns st !! ws) as [c|] eqn:Hc; [| done].
    case_decide as Hcl; [done |].
    destruct raw as [| data].
    { by rewrite (on_message_unparseable _ _ c). }
    rewrite (on_message_at_broadcast _ c) by done. cbn zeta. cbn [fst].
    split.
    + by apply dispatch_registry_ok, at_broadcast_registry_ok.
    + by apply dispatch_sets_ok, at_broadcast_sets_ok.
  - destruct (conns st !! ws) as [c|] eqn:Hc; [| done].
    case_decide as Hop; [| done]. split; [| done].
    intros m w Hm. cbn in *.
    destruct (Hreg _ _ Hm) as (c' & Hc' & Hu & Ht & Hr).
    destruct (decide (ws = w)) as [<- | Hne].
    + rewrite lookup_insert_eq. eexists. split; [done |].
      assert (c' = c) as -> by congruence. done.
    + rewrite lookup_insert_ne by done. eauto.
  - destruct (conns st !! ws) as [c|] eqn:Hc; [| done].
    case_decide as Hcl; [done |].
    set (c0 := mkConn (userId c) (sessionId c) CLOSED).
    pose proof (on_close_frame ws c0 (with_conn ws c0 st)) as (H1 & H2 & H3);
      [apply lookup_insert_eq |].
    cbn zeta in *. split.
    + intros m w. rewrite H1, H2. cbn. intros Hm.
      assert (connectedClients st !! m = Some w ∧ m ≠ userId c) as [Hm' Hne].
      { destruct (truthy (userId c)) eqn:Hu.
        - apply lookup_delete_Some in Hm as [? ?]. done.
        - split; [done |]. intros ->.
          destruct (Hreg _ _ Hm) as (? & _ & _ & ? & _). congruence. }
      destruct (Hreg _ _ Hm') as (c' & Hc' & Hu' & Ht & Hr).
      destruct (decide (ws = w)) as [<- | Hnw]; [congruence |].
      rewrite lookup_insert_ne by done. eauto.
    + intros sid l [Hl | (l0 & Hl0 & ->)]%H3.
      * by apply (Hsets sid).
      * apply NoDup_set_delete. by apply (Hsets sid).
Qed.

Lemma run_invariants (st : State) (evs : list Event) :
  Forall (λ ev, wf_event ev = true) evs →
  registry_ok st ∧ sets_ok st →
  registry_ok (run rejects st evs).1 ∧ sets_ok (run rejects st evs).1.
Proof.
  intros Hwf. revert st.
  induction Hwf as [| ev evs Hev _ IH]; intros st Hst; [done |].
  rewrite run_cons. cbn zeta. cbn [fst]. by apply IH, step_invariants.
Qed.

Lemma init_invariants : registry_ok init ∧ sets_ok init.
Proof. split; intros ? ? Hl; cbn in Hl; by rewrite lookup_empty in Hl. Qed.

Lemma conns_after_message (ws w : nat) (c : Conn) (data : WebSocketMessage)
    (st : State) :
  conns st !! ws = Some c →
  w ≠ ws →
  conns (on_message rejects ws (Parsed data) st).1 !! w = conns st !! w.
Proof.
  intros Hc Hw. rewrite (on_message_at_broadcast _ c) by done.
  cbn zeta. cbn [fst].
  pose proof (dispatch_frame rejects (at_broadcast ws c data st).2
                (at_broadcast ws c data st).1 data) as (_ & -> & _).
  pose proof (at_broadcast_conn ws c data st) as (-> & _).
  by rewrite lookup_insert_ne.
Qed.

Lemma conn_after_message (ws : nat) (c : Conn) (data : WebSocketMessage)
    (st : State) :
  conns st !! ws = Some c →
  ∃ c', conns (on_message rejects ws (Parsed data) st).1 !! ws = Some c'
        ∧ userId c' = userId (bind_userId c data)
        ∧ readyState c' = readyState c
        ∧ sessionId c' = (if decide (msg_type data = Some SESSION_JOIN)
                          then msg_sessionId data else sessionId c).
Proof.
  intros Hc. rewrite (on_message_at_broadcast _ c) by done.
  cbn zeta. cbn [fst].
  pose proof (dispatch_frame rejects (at_broadcast ws c data st).2
                (at_broadcast ws c data st).1 data) as (_ & -> & _).
  pose proof (at_broadcast_conn ws c data st) as (-> & Hu & Hr).
  rewrite lookup_insert_eq. eexists. split; [done |].
  split_and!; [done | done |].
  unfold at_broadcast. destruct (decide _); cbn; [done |].
  apply bind_userId_sessionId.
Qed.

End Invariants.

(** ** Messages that cannot be handled *)

Section Claims_malformed.

Variable rejects : StorageCall → bool.

Lemma dispatch_no_unhandled (st : State) (c : Conn)
    (data : WebSocketMessage) :
  Unhandled ∉ (dispatch rejects st c data).1.2.
Proof.
  intros Hk. revert Hk. unfold dispatch.
  destruct (msg_type data) as [[]|]; cbn;
    repeat case_match; cbn;
    rewrite ?list_elem_of_singleton, ?elem_of_nil; done.
Qed.

Lemma on_message_no_unhandled (ws : nat) (raw : RawMessage) (st : State) :
  Unhandled ∉ (on_message rejects ws raw st).2.
Proof.
  destruct (conns st !! ws) as [c|] eqn:Hc;
    [| unfold on_message; rewrite Hc; by intros ?%elem_of_nil].
  destruct raw as [| data].
  { rewrite (on_message_unparseable _ _ c) by done.
    by intros ?%list_elem_of_singleton. }
  rewrite (on_message_at_broadcast _ _ c) by done. cbn zeta. cbn [snd].
  rewrite broadcast_sends.
  intros [Hk | [Hk | Hk]%elem_of_app]%elem_of_app.
  - by apply list_elem_of_fmap in Hk as (? & ? & _).
  - by apply dispatch_no_unhandled in Hk.
  - destruct (dispatch _ _ _ _).2;
      [apply list_elem_of_singleton in Hk | apply elem_of_nil in Hk]; done.
Qed.

(** C8, as the handler has it.  A message that does not parse is dropped:
    the error is logged and nothing else happens.  Whatever the message,
    parseable or not, complete or not, and whichever storage call rejects,
    the handler ends normally: no exception leaves it, no connection is
    added, removed or closed, every socket keeps its [readyState], and the
    closure variables of every other connection are untouched. *)
Theorem message_handler_is_total :
  (∀ (st : State) (ws : nat) (c : Conn),
     conns st !! ws = Some c →
     on_message rejects ws Unparseable st = (st, [LogError]))
  ∧ (∀ (st : State) (ws : nat) (raw : RawMessage),
       let r := on_message rejects ws raw st in
       (Unhandled ∉ r.2)
       ∧ (∀ w, readyState <$> (conns r.1 !! w)
               = readyState <$> (conns st !! w))
       ∧ (∀ w, w ≠ ws → conns r.1 !! w = conns st !! w)).
Proof.
  split; [intros st ws c; apply on_message_unparseable |].
  intros st ws raw. cbn zeta.
  split; [apply on_message_no_unhandled |].
  destruct (conns st !! ws) as [c|] eqn:Hc;
    [| unfold on_message; rewrite Hc; done].
  destruct raw as [| data].
  { by rewrite (on_message_unparseable _ _ c). }
  split.
  - intros w. destruct (decide (w = ws)) as [-> | Hne].
    + destruct (conn_after_message rejects ws c data st Hc)
        as (c' & -> & _ & Hr & _).
      rewrite Hc. cbn. by rewrite Hr.
    + by rewrite (conns_after_message _ _ _ c).
  - intros w Hne. by apply (conns_after_message _ _ _ c).
Qed.

End Claims_malformed.

(** ** Who receives a broadcast *)

Section Claims_broadcast.

Variable rejects : StorageCall → bool.





End Claims_broadcast.

(** ** Who is in the registry *)

Section Claims_registry.

Variable rejects : StorageCall → bool.

Lemma run_snoc (st : State) (evs : list Event) (ev : Event) :
  (run rejects st (evs ++ [ev])).1
  = (step rejects (run rejects st evs).1 ev).1.
Proof.
  rewrite run_app. cbn zeta. cbn [fst]. rewrite run_cons. done.
Qed.

Lemma on_message_join_registers (ws : nat) (c : Conn)
    (data : WebSocketMessage) (st : State) :
  conns st !! ws = Some c →
  msg_type data = Some SESSION_JOIN →
  connectedClients (on_message rejects ws (Parsed data) st).1
  = <[userId (bind_userId c data) := ws]> (connectedClients st).
Proof.
  intros Hc Hty. by rewrite (on_message_join _ _ c).
Qed.

Lemma step_registered (st : State) (ev : Event) (w : nat) :
  registered (step rejects st ev).1 w →
  registered st w ∨ ∃ raw, ev = Message w raw ∧ is_join raw = true.
Proof.
  destruct ev as [ws | ws raw | ws | ws]; cbn.
  - destruct (conns st !! ws); by left.
  - destruct (conns st !! ws) as [c|] eqn:Hc; [| by left].
    case_decide; [by left |].
    destruct (is_join raw) eqn:Hj.
    + destruct raw as [| data]; [done |].
      cbn in Hj. apply bool_decide_eq_true in Hj.
      intros [m Hm]. rewrite (on_message_join_registers _ c) in Hm by done.
      apply lookup_insert_Some in Hm as [[_ <-] | [_ Hm]].
      * right. exists (Parsed data). split; [done |].
        cbn. by apply bool_decide_eq_true.
      * left. by exists m.
    + pose proof (on_message_other_frame rejects ws raw st Hj) as Hfr.
      cbn zeta in Hfr. destruct Hfr as [Heq _].
      intros [m Hm]. rewrite Heq in Hm. left. by exists m.
  - destruct (conns st !! ws); [case_decide |]; by left.
  - destruct (conns st !! ws) as [c|] eqn:Hc; [| by left].
    case_decide; [by left |].
    set (c0 := mkConn (userId c) (sessionId c) CLOSED).
    pose proof (on_close_frame rejects ws c0 (with_conn ws c0 st))
      as (_ & H2 & _); [apply lookup_insert_eq |].
    cbn zeta in H2. intros [m Hm]. rewrite H2 in Hm. cbn in Hm. left.
    exists m. destruct (truthy (userId c)); [| done].
    by apply lookup_delete_Some in Hm as [_ ?].
Qed.

Lemma registered_has_joined (evs : list Event) (w : nat) :
  registered (run rejects init evs).1 w → has_joined evs w = true.
Proof.
  induction evs as [| ev evs IH] using rev_ind.
  - intros [m Hm]. cbn in Hm. by rewrite lookup_empty in Hm.
  - rewrite run_snoc. unfold has_joined. rewrite existsb_app. cbn.
    intros [Hold | (raw & -> & Hj)]%step_registered.
    + fold (has_joined evs w). by rewrite IH.
    + rewrite bool_decide_eq_true_2 by done. rewrite Hj. cbn.
      apply orb_true_r.
Qed.

Lemma step_close_closed (st : State) (ws : nat) :
  match conns (step rejects st (Close ws)).1 !! ws with
  | Some c => readyState c = CLOSED
  | None => True
  end.
Proof.
  cbn. destruct (conns st !! ws) as [c|] eqn:Hc; [| by cbn; rewrite Hc].
  case_decide as Hcl; [by cbn; rewrite Hc |].
  set (c0 := mkConn (userId c) (sessionId c) CLOSED).
  pose proof (on_close_frame rejects ws c0 (with_conn ws c0 st))
    as (-> & _); [apply lookup_insert_eq |].
  cbn. by rewrite lookup_insert_eq.
Qed.

(** C4, as the code has it.  In a state reached by traffic whose envelopes
    carry a truthy [userId], a connection is in the registry only if it has
    sent a session-join and is not closed; a session-join on a live
    connection puts the sending connection into the registry;
    an event of another kind leaves the registry as it is; and once a
    connection has closed it is not in the registry. *)
Theorem registry_after_join_until_close (evs : list Event) :
  Forall (λ ev, wf_event ev = true) evs →
  let st := (run rejects init evs).1 in
  (∀ ws, registered st ws →
     has_joined evs ws = true
     ∧ ∃ c, conns st !! ws = Some c ∧ readyState c ≠ CLOSED)
  ∧ (∀ ws c data,
       conns st !! ws = Some c → readyState c ≠ CLOSED →
       msg_type data = Some SESSION_JOIN →
       registered (step rejects st (Message ws (Parsed data))).1 ws)
  ∧ (∀ ws raw,
       is_join raw = false →
       connectedClients (step rejects st (Message ws raw)).1
       = connectedClients st)
  ∧ (∀ ws, ¬ registered (step rejects st (Close ws)).1 ws).
Proof.
  intros Hwf st.
  destruct (run_invariants rejects init evs Hwf init_invariants)
    as [Hreg Hsets]. fold st in Hreg, Hsets.
  split_and!.
  - intros ws Hr. split; [by apply registered_has_joined |].
    destruct Hr as [m Hm]. destruct (Hreg _ _ Hm) as (c & ? & _ & _ & ?).
    by exists c.
  - intros ws c data Hc Hopen Hty. cbn. rewrite Hc.
    rewrite decide_False by done.
    exists (userId (bind_userId c data)).
    rewrite (on_message_join_registers _ c) by done.
    apply lookup_insert_eq.
  - intros ws raw Hj. cbn.
    destruct (conns st !! ws); [| done]. case_decide; [done |].
    by apply on_message_other_frame.
  - intros ws [m Hm].
    destruct (step_invariants rejects st (Close ws) eq_refl (conj Hreg Hsets))
      as [Hreg' _].
    destruct (Hreg' _ _ Hm) as (c & Hc & _ & _ & Hopen).
    pose proof (step_close_closed st ws) as Hcl. by rewrite Hc in Hcl.
Qed.

End Claims_registry.

(** ** A lone participant whose connection closes *)

Section Claims_close.

Variable rejects : StorageCall → bool.

Lemma calls_app (k : StorageCall) (e1 e2 : list Effect) :
  calls k (e1 ++ e2) = (calls k e1 + calls k e2)%nat.
Proof. unfold calls. by rewrite filter_app, length_app. Qed.

Lemma calls_cons_eq (k : StorageCall) (effs : list Effect) :
  calls k (Call k :: effs) = S (calls k effs).
Proof. unfold calls. by rewrite filter_cons_True. Qed.

Lemma calls_cons_ne (k : StorageCall) (e : Effect) (effs : list Effect) :
  e ≠ Call k → calls k (e :: effs) = calls k effs.
Proof. intros Hne. unfold calls. by rewrite filter_cons_False. Qed.

Lemma calls_sends (k : StorageCall) (data : WebSocketMessage)
    (ws : list nat) :
  calls k ((λ w, Send w data) <$> ws) = 0%nat.
Proof. unfold calls. by rewrite filter_call_sends. Qed.

Lemma calls_absent (k : StorageCall) (effs : list Effect) :
  Call k ∉ effs → calls k effs = 0%nat.
Proof.
  intros Hk. unfold calls.
  induction effs as [| e effs IH]; [done |].
  rewrite filter_cons_False.
  - apply IH. intros ?. apply Hk. by apply list_elem_of_further.
  - intros ->. apply Hk. apply list_elem_of_here.
Qed.

(** The switch of an event that is not a leave calls neither [endSession]
    nor [updateUser]. *)
Lemma dispatch_not_leave_calls (st : State) (c : Conn)
    (data : WebSocketMessage) (k : StorageCall) :
  msg_type data ≠ Some SESSION_LEAVE →
  (∀ f x, k ≠ UpdateFile f x) →
  (∀ s n x l, k ≠ CreateFile s n x l) →
  calls k (dispatch rejects st c data).1.2 = 0%nat.
Proof.
  intros Hty Hf Hc. apply calls_absent. unfold dispatch.
  destruct (msg_type data) as [[]|]; cbn; try apply not_elem_of_nil.
  - destruct (msg_payload data); [case_match |]; cbn;
      rewrite ?list_elem_of_singleton; try apply not_elem_of_nil.
    intros [= ->]. by eapply Hf.
  - case_match; [destruct (msg_payload data) |]; cbn;
      rewrite ?list_elem_of_singleton; try apply not_elem_of_nil.
    intros [= ->]. by eapply Hc.
  - done.
Qed.

Lemma calls_log (k : StorageCall) (b : bool) :
  calls k (if b then [LogError] else []) = 0%nat.
Proof. by destruct b. Qed.

Lemma step_connect_fresh (st : State) (ws : nat) :
  conns st !! ws = None →
  step rejects st (Connect ws)
  = (with_conn ws (mkConn JNull JNull OPEN) st, []).
Proof. intros Hc. cbn. by rewrite Hc. Qed.

Lemma step_message_live (st : State) (ws : nat) (c : Conn)
    (raw : RawMessage) :
  conns st !! ws = Some c →
  readyState c ≠ CLOSED →
  step rejects st (Message ws raw) = on_message rejects ws raw st.
Proof. intros Hc Hr. cbn. rewrite Hc. by rewrite decide_False. Qed.

Lemma step_close_live (st : State) (ws : nat) (c : Conn) :
  conns st !! ws = Some c →
  readyState c ≠ CLOSED →
  step rejects st (Close ws)
  = on_close rejects ws
      (with_conn ws (mkConn (userId c) (sessionId c) CLOSED) st).
Proof. intros Hc Hr. cbn. rewrite Hc. by rewrite decide_False. Qed.

Lemma alone_after_join (st : State) (ws : nat) (data : WebSocketMessage) :
  conns st !! ws = None →
  truthy (msg_userId data) = true →
  members st (msg_sessionId data) = [] →
  msg_type data = Some SESSION_JOIN →
  let r := run rejects st [Connect ws; Message ws (Parsed data)] in
  alone ws (msg_sessionId data) (msg_userId data) r.1
  ∧ users r.1 = users st
  ∧ ∀ k, calls k r.2 = 0%nat.
Proof.
  intros Hnone Hu Hmem Hty.
  rewrite run_cons, step_connect_fresh by done. cbn zeta. cbn [fst snd].
  rewrite run_cons. cbn zeta. cbn [run fst snd].
  rewrite (step_message_live _ _ (mkConn JNull JNull OPEN))
    by (done || apply lookup_insert_eq).
  rewrite (on_message_join _ _ (mkConn JNull JNull OPEN))
    by (done || apply lookup_insert_eq).
  cbn. rewrite broadcast_sends. split_and!.
  - split; cbn; [by rewrite lookup_insert_eq |].
    unfold members in Hmem. unfold members_add.
    destruct (sessionClients st !! msg_sessionId data) as [l|] eqn:Hl.
    + cbn in Hmem. subst l. rewrite Hl. by rewrite lookup_insert_eq.
    + by rewrite lookup_insert_eq, lookup_insert_eq.
  - done.
  - intros k. rewrite app_nil_r. apply calls_sends.
Qed.

Lemma alone_other_message (st : State) (ws : nat) (sid uid : JsVal)
    (data : WebSocketMessage) :
  truthy uid = true →
  alone ws sid uid st →
  msg_type data ≠ Some SESSION_JOIN →
  msg_type data ≠ Some SESSION_LEAVE →
  let r := step rejects st (Message ws (Parsed data)) in
  alone ws sid uid r.1
  ∧ users r.1 = users st
  ∧ calls (EndSession sid) r.2 = 0%nat
  ∧ calls (UpdateUser uid false) r.2 = 0%nat.
Proof.
  intros Hu [Hc Hs] Hj Hl.
  rewrite (step_message_live _ _ (mkConn uid sid OPEN)) by done.
  rewrite (on_message_other _ _ (mkConn uid sid OPEN)) by done.
  cbn zeta. cbn [fst snd].
  rewrite bind_userId_bound by done.
  rewrite dispatch_not_leave by done.
  rewrite broadcast_sends, !calls_app, !calls_sends, !calls_log.
  rewrite !dispatch_not_leave_calls by done.
  split_and!; try done. split; cbn; [by rewrite lookup_insert_eq | done].
Qed.

Lemma alone_other_messages (st : State) (ws : nat) (sid uid : JsVal)
    (mid : list WebSocketMessage) :
  truthy uid = true →
  alone ws sid uid st →
  Forall (λ d, msg_type d ≠ Some SESSION_JOIN
               ∧ msg_type d ≠ Some SESSION_LEAVE) mid →
  let r := run rejects st ((λ d, Message ws (Parsed d)) <$> mid) in
  alone ws sid uid r.1
  ∧ users r.1 = users st
  ∧ calls (EndSession sid) r.2 = 0%nat
  ∧ calls (UpdateUser uid false) r.2 = 0%nat.
Proof.
  intros Hu Hal Hmid. revert st Hal.
  induction Hmid as [| d mid [Hj Hl] _ IH]; intros st Hal; [done |].
  rewrite fmap_cons, run_cons. cbn zeta. cbn [fst snd].
  destruct (alone_other_message st ws sid uid d) as (H1 & H2 & H3 & H4);
    try done.
  cbn zeta in *.
  destruct (IH _ H1) as (I1 & I2 & I3 & I4).
  rewrite !calls_app, H3, H4, I3, I4, I2, H2. done.
Qed.

Lemma alone_close (st : State) (ws : nat) (sid uid : JsVal) (u : User) :
  truthy uid = true →
  truthy sid = true →
  alone ws sid uid st →
  getUser st uid = Some u →
  rejects (GetUser uid) = false →
  rejects (UpdateUser uid false) = false →
  let r := step rejects st (Close ws) in
  sessionClients r.1 !! sid = Some []
  ∧ getUser r.1 uid = Some (mkUser false)
  ∧ calls (EndSession sid) r.2 = 1%nat
  ∧ calls (UpdateUser uid false) r.2 = 1%nat.
Proof.
  intros Hu Hs [Hc Hm] Husr Hg Hup.
  rewrite (step_close_live _ _ (mkConn uid sid OPEN)) by done.
  unfold on_close. cbn [conns with_conn]. rewrite lookup_insert_eq.
  cbn [userId]. rewrite Hu, Hg.
  set (st1 := mkState _ _ _ _).
  assert (getUser st1 uid = Some u) as Husr1 by done.
  assert (sessionClients st1 !! sid = Some [uid]) as Hm1 by done.
  rewrite Husr1, Hup. cbn zeta. cbn [fst snd].
  unfold updateUser. rewrite Husr1.
  unfold close_session. cbn [sessionId userId sessionClients].
  rewrite Hs. unfold members_delete. rewrite Hm1.
  rewrite lookup_insert_eq. unfold set_delete.
  rewrite filter_cons_False by (by intros ?). rewrite filter_nil.
  cbn [fst snd with_sessionClients sessionClients users getUser omap
       list_omap fmap list_fmap app].
  split; [apply lookup_insert_eq |].
  split; [apply lookup_insert_eq |].
  rewrite !(calls_cons_ne _ (Call (GetUser uid))) by congruence.
  rewrite calls_cons_ne, calls_cons_eq by congruence.
  rewrite calls_cons_eq, calls_cons_ne by congruence.
  destruct (rejects (EndSession sid)); cbn;
    rewrite ?calls_cons_ne by congruence; done.
Qed.

(** C5, as the code has it.  A participant known to the user store opens
    a connection, joins a session in which nobody else is, possibly sends
    events that are neither joins nor leaves, and its connection closes
    without a session-leave; the two ids are truthy and the user store
    answers.  Then the session's membership set is empty, [endSession] has
    been called exactly once for the session, and the participant has been
    marked offline exactly once: one
    [updateUser(participant, { isOnline: false })] call, after which the
    user table shows the participant offline. *)
Theorem lone_member_disconnects (st : State) (ws : nat) (u : User)
    (data : WebSocketMessage) (mid : list WebSocketMessage) :
  let sid := msg_sessionId data in
  let uid := msg_userId data in
  conns st !! ws = None →
  msg_type data = Some SESSION_JOIN →
  truthy sid = true →
  truthy uid = true →
  members st sid = [] →
  getUser st uid = Some u →
  rejects (GetUser uid) = false →
  rejects (UpdateUser uid false) = false →
  Forall (λ d, msg_type d ≠ Some SESSION_JOIN
               ∧ msg_type d ≠ Some SESSION_LEAVE) mid →
  let r := run rejects st
             ([Connect ws; Message ws (Parsed data)]
                ++ ((λ d, Message ws (Parsed d)) <$> mid)
                ++ [Close ws]) in
  members r.1 sid = []
  ∧ sessionClients r.1 !! sid = Some []
  ∧ getUser r.1 uid = Some (mkUser false)
  ∧ calls (EndSession sid) r.2 = 1%nat
  ∧ calls (UpdateUser uid false) r.2 = 1%nat.
Proof.
  intros sid uid Hnone Hty Hs Hu Hmem Husr Hg Hup Hmid r. subst r.
  rewrite !run_app. cbn zeta. cbn [fst snd].
  destruct (alone_after_join st ws data) as (H1 & H2 & H3); try done.
  cbn zeta in *. fold sid uid in H1.
  set (st1 := (run rejects st [Connect ws; Message ws (Parsed data)]).1) in *.
  rewrite run_app. cbn zeta. cbn [fst snd].
  destruct (alone_other_messages st1 ws sid uid mid) as (I1 & I2 & I3 & I4);
    try done.
  cbn zeta in *.
  set (st2 := (run rejects st1 _).1) in *.
  assert ((run rejects st2 [Close ws]) = step rejects st2 (Close ws)) as ->.
  { rewrite run_cons. cbn zeta. cbn [run fst snd]. rewrite app_nil_r.
    by destruct (step _ _ _). }
  destruct (alone_close st2 ws sid uid u) as (J1 & J0 & J2 & J3); try done.
  { unfold getUser. by rewrite I2, H2. }
  cbn zeta in *. unfold members.
  rewrite J1, !calls_app, !H3, I3, I4, J2, J3. done.
Qed.

End Claims_close.

(** ** Ending a session *)

Section Claims_end.

Variable rejects : StorageCall → bool.

Lemma dispatch_leave (st : State) (c : Conn) (data : WebSocketMessage)
    (l : list JsVal) :
  msg_type data = Some SESSION_LEAVE →
  truthy (sessionId c) = true →
  truthy (userId c) = true →
  sessionClients st !! sessionId c = Some l →
  let r := dispatch rejects st c data in
  sessionClients r.1.1 !! sessionId c = Some (set_delete (userId c) l)
  ∧ conns r.1.1 = conns st
  ∧ calls (EndSession (sessionId c)) (r.1.2 ++ if r.2 then [LogError] else [])
    = once_if_empty (set_delete (userId c) l).
Proof.
  intros Hty Hs Hu Hl. unfold dispatch. rewrite Hty, Hs, Hu. cbn [andb].
  unfold members_delete. rewrite Hl, lookup_insert_eq.
  destruct (set_delete (userId c) l) as [| x l'] eqn:Hd; cbn.
  - rewrite lookup_insert_eq. split_and!; try done.
    by rewrite calls_cons_eq, calls_log.
  - by rewrite lookup_insert_eq.
Qed.

Lemma close_session_calls (st : State) (c : Conn) (l : list JsVal) :
  truthy (sessionId c) = true →
  sessionClients st !! sessionId c = Some l →
  let r := close_session rejects c st in
  sessionClients r.1 !! sessionId c = Some (set_delete (userId c) l)
  ∧ conns r.1 = conns st
  ∧ calls (EndSession (sessionId c)) r.2
    = once_if_empty (set_delete (userId c) l).
Proof.
  intros Hs Hl. unfold close_session. rewrite Hs.
  unfold members_delete. rewrite Hl, lookup_insert_eq.
  destruct (set_delete (userId c) l) as [| x l'] eqn:Hd; cbn.
  - rewrite lookup_insert_eq. split_and!; try done.
    rewrite calls_cons_eq.
    destruct (rejects _); by rewrite ?calls_cons_ne by congruence.
  - rewrite lookup_insert_eq. split_and!; try done.
    apply calls_sends.
Qed.

(** The close handler of a bound connection, when the user store
    answers: some calls into the user store, then the session block. *)
Lemma on_close_bound (ws : nat) (c : Conn) (st : State) :
  conns st !! ws = Some c →
  truthy (userId c) = true →
  rejects (GetUser (userId c)) = false →
  rejects (UpdateUser (userId c) false) = false →
  ∃ st0 pre,
    on_close rejects ws st
    = ((close_session rejects c st0).1,
       pre ++ (close_session rejects c st0).2)
    ∧ sessionClients st0 = sessionClients st
    ∧ conns st0 = conns st
    ∧ ∀ sid, calls (EndSession sid) pre = 0%nat.
Proof.
  intros Hc Hu Hg Hup. unfold on_close. rewrite Hc, Hu, Hg.
  set (st1 := mkState _ _ _ _).
  destruct (getUser st1 (userId c)).
  - rewrite Hup. cbn zeta.
    pose proof (updateUser_tables (userId c) false st1) as (_ & U2 & U3).
    exists (updateUser (userId c) false st1),
      [Call (GetUser (userId c)); Call (UpdateUser (userId c) false)].
    split_and!; [done | by rewrite U2 | by rewrite U3 |].
    intros sid. by rewrite !calls_cons_ne by congruence.
  - cbn zeta. exists st1, [Call (GetUser (userId c))].
    split_and!; [done | done | done |].
    intros sid. by rewrite !calls_cons_ne by congruence.
Qed.

(** One ending, by leave or by close. *)
Lemma ending_step (st : State) (sid : JsVal) (a : nat * JsVal * Ending)
    (l : list JsVal) :
  truthy sid = true →
  member_conn rejects st sid a →
  sessionClients st !! sid = Some l →
  let r := step rejects st (ending_event a.1.1 a.2) in
  sessionClients r.1 !! sid = Some (set_delete a.1.2 l)
  ∧ (∀ w, w ≠ a.1.1 → conns r.1 !! w = conns st !! w)
  ∧ calls (EndSession sid) r.2 = once_if_empty (set_delete a.1.2 l).
Proof.
  destruct a as [[ws uid] e]. cbn [fst snd].
  intros Hs (c & Hc & Hu & Hsid & Hopen & Ht & Hleave & Hg & Hup) Hl.
  cbn [fst snd] in *. destruct e as [data |]; cbn [ending_event].
  - cbn in Hleave. apply bool_decide_eq_true in Hleave.
    rewrite (step_message_live _ _ _ c) by done.
    rewrite (on_message_other _ _ c) by congruence.
    cbn zeta. cbn [fst snd].
    rewrite bind_userId_bound by congruence.
    destruct (dispatch_leave (with_conn ws c st) c data l)
      as (H1 & H2 & H3); try congruence.
    { by rewrite Hsid. }
    cbn zeta in *. rewrite Hsid, Hu in *.
    split_and!; [done | |].
    + intros w Hw. rewrite H2. cbn. by rewrite lookup_insert_ne.
    + by rewrite calls_app, broadcast_sends, calls_sends, H3.
  - rewrite (step_close_live _ _ _ c) by done.
    set (c0 := mkConn (userId c) (sessionId c) CLOSED).
    destruct (on_close_bound ws c0 (with_conn ws c0 st))
      as (st0 & pre & -> & Hsc & Hcn & Hpre);
      [apply lookup_insert_eq | by cbn; rewrite Hu .. |].
    cbn [fst snd].
    destruct (close_session_calls st0 c0 l) as (H1 & H2 & H3).
    { cbn. by rewrite Hsid. }
    { cbn. by rewrite Hsc, Hsid. }
    cbn zeta in *. cbn [userId sessionId c0] in *.
    rewrite Hsid, Hu in *. split_and!; [done | |].
    + intros w Hw. rewrite H2, Hcn. cbn. by rewrite lookup_insert_ne.
    + by rewrite calls_app, Hpre, H3.
Qed.

Lemma set_delete_head_perm (uid : JsVal) (l rest : list JsVal) :
  l ≡ₚ uid :: rest → NoDup (uid :: rest) → set_delete uid l ≡ₚ rest.
Proof.
  intros Hp Hnd. unfold set_delete. rewrite Hp.
  rewrite filter_cons_False by (by intros ?).
  apply NoDup_cons in Hnd as [Hnot _]. clear Hp.
  induction rest as [| x rest IH]; [done |].
  rewrite filter_cons_True.
  - f_equiv. apply IH. intros ?. apply Hnot. by apply list_elem_of_further.
  - intros ->. apply Hnot. apply list_elem_of_here.
Qed.

(** Endings that leave somebody behind: no call yet, and the set shrinks
    to those who stay. *)
Lemma endings_leave_rest (st : State) (sid : JsVal)
    (acts : list (nat * JsVal * Ending)) (l rest : list JsVal) :
  truthy sid = true →
  rest ≠ [] →
  NoDup (acts.*1.*1) →
  NoDup (acts.*1.*2 ++ rest) →
  sessionClients st !! sid = Some l →
  l ≡ₚ acts.*1.*2 ++ rest →
  Forall (member_conn rejects st sid) acts →
  let r := run rejects st ((λ a, ending_event a.1.1 a.2) <$> acts) in
  calls (EndSession sid) r.2 = 0%nat
  ∧ (∃ l', sessionClients r.1 !! sid = Some l' ∧ l' ≡ₚ rest)
  ∧ (∀ w, w ∉ acts.*1.*1 → conns r.1 !! w = conns st !! w).
Proof.
  intros Hs Hrest. revert st l.
  induction acts as [| a acts IH]; intros st l Hws Huids Hl Hperm Hall.
  { cbn. split_and!; [done | by exists l | done]. }
  apply Forall_cons in Hall as [Ha Hall].
  rewrite !fmap_cons in Hws, Huids, Hperm. cbn [app] in Huids, Hperm.
  rewrite fmap_cons, run_cons. cbn zeta. cbn [snd fst].
  destruct (ending_step st sid a l Hs Ha Hl) as (H1 & H2 & H3).
  cbn zeta in *.
  pose proof (set_delete_head_perm _ _ _ Hperm Huids) as Hperm'.
  assert (once_if_empty (set_delete a.1.2 l) = 0%nat) as Hzero.
  { destruct (set_delete a.1.2 l) eqn:Hd; [| done].
    symmetry in Hperm'. apply Permutation_nil_r in Hperm'.
    apply app_eq_nil in Hperm' as [_ ?]. done. }
  apply NoDup_cons in Hws as [Hfresh Hws].
  apply NoDup_cons in Huids as [_ Huids].
  destruct (IH (step rejects st (ending_event a.1.1 a.2)).1
              (set_delete a.1.2 l)) as (I1 & I2 & I3); try done.
  { apply Forall_forall. intros b Hb.
    rewrite Forall_forall in Hall.
    destruct (Hall b Hb) as (c & Hc & Hmore).
    exists c. split; [| done]. rewrite H2; [done |].
    intros Heq. apply Hfresh. rewrite <- Heq.
    apply list_elem_of_fmap. exists b.1. split; [done |].
    apply list_elem_of_fmap. by exists b. }
  cbn zeta in *. split_and!.
  - by rewrite calls_app, H3, Hzero, I1.
  - done.
  - intros w Hw. apply not_elem_of_cons in Hw as [Hw1 Hw2].
    rewrite I3 by done. by apply H2.
Qed.

(** C1, as the code has it.  When the members of a session end their stay
    one after the other, each by exactly one event on its own connection, a
    session-leave or a close, then [endSession] is called exactly once for
    the session, and it is the last of these events that calls it: the
    events before it make no such call. *)
Theorem session_ends_once (st : State) (sid : JsVal)
    (acts : list (nat * JsVal * Ending)) (l : list JsVal) :
  truthy sid = true →
  acts ≠ [] →
  NoDup (acts.*1.*1) →
  NoDup (acts.*1.*2) →
  sessionClients st !! sid = Some l →
  l ≡ₚ acts.*1.*2 →
  Forall (member_conn rejects st sid) acts →
  let evs := (λ a, ending_event a.1.1 a.2) <$> acts in
  calls (EndSession sid) (run rejects st evs).2 = 1%nat
  ∧ ∃ before last,
      evs = before ++ [last]
      ∧ calls (EndSession sid) (run rejects st before).2 = 0%nat
      ∧ calls (EndSession sid)
          (step rejects (run rejects st before).1 last).2 = 1%nat.
Proof.
  intros Hs Hne Hws Huids Hl Hperm Hall. cbn zeta.
  destruct (exists_last Hne) as (acts' & a & ->).
  assert ((acts' ++ [a]).*1.*1 = acts'.*1.*1 ++ [a.1.1]) as Ews
    by (by rewrite !fmap_app).
  assert ((acts' ++ [a]).*1.*2 = acts'.*1.*2 ++ [a.1.2]) as Euids
    by (by rewrite !fmap_app).
  rewrite Ews in Hws. rewrite Euids in Huids, Hperm.
  apply Forall_app in Hall as [Hall [Ha _]%Forall_cons].
  destruct (endings_leave_rest st sid acts' l [a.1.2] Hs)
    as (H0 & (l' & Hl' & Hperm') & Hconns); try done.
  { by apply NoDup_app in Hws as [? _]. }
  cbn zeta in *.
  set (before := (λ a0, ending_event a0.1.1 a0.2) <$> acts') in *.
  assert (member_conn rejects (run rejects st before).1 sid a) as Ha'.
  { destruct Ha as (c & Hc & Hmore). exists c. split; [| done].
    rewrite Hconns; [done |].
    apply NoDup_app in Hws as (_ & Hdisj & _).
    intros Hin. apply (Hdisj _ Hin). apply list_elem_of_here. }
  destruct (ending_step _ sid a l' Hs Ha' Hl') as (_ & _ & Hlast).
  cbn zeta in Hlast.
  assert (set_delete a.1.2 l' = []) as Hnil.
  { apply Permutation_nil_r.
    apply set_delete_head_perm; [done | apply NoDup_singleton]. }
  rewrite Hnil in Hlast. cbn [once_if_empty] in Hlast.
  assert (calls (EndSession sid)
            (run rejects st (before ++ [ending_event a.1.1 a.2])).2 = 1%nat)
    as Htotal.
  { rewrite run_app. cbn zeta. cbn [snd fst]. rewrite run_cons.
    cbn zeta. cbn [run snd fst]. rewrite app_nil_r.
    by rewrite calls_app, H0, Hlast. }
  rewrite fmap_app. cbn [fmap list_fmap]. fold before.
  split; [done |]. by exists before, (ending_event a.1.1 a.2).
Qed.

End Claims_end.

(** C1 fails as stated: one member joins session 7 and leaves it, which
    empties the membership set and calls [endSession(7)] once; when the same
    connection then closes, as it does after the client's [leaveSession] and
    [disconnect], [endSession(7)] is called once more. *)
Lemma session_end_repeats :
  let r := run mem_storage init c1_prefix in
  members r.1 (JNum 7) = []
  ∧ calls (EndSession (JNum 7)) r.2 = 1%nat
  ∧ calls (EndSession (JNum 7)) (step mem_storage r.1 (Close 1%nat)).2 = 1%nat
  ∧ ¬ (calls (EndSession (JNum 7))
         (run mem_storage init (c1_prefix ++ [Close 1%nat])).2 ≤ 1)%nat.
Proof.
  split_and!; [by vm_compute .. |].
  assert (calls (EndSession (JNum 7))
            (run mem_storage init (c1_prefix ++ [Close 1%nat])).2 = 2%nat)
    as -> by (by vm_compute).
  lia.
Qed.

(** ** Membership after joins and leaves *)

Section Claims_membership.

Variable rejects : StorageCall → bool.

Lemma last_index_from_bound (i : nat) (a : Action) (p : Z)
    (evs : list (Z * Action)) (j : nat) :
  last_index_from i a p evs = Some j → (i ≤ j < i + length evs)%nat.
Proof.
  revert i. induction evs as [| e evs IH]; intros i; cbn; [done |].
  destruct (last_index_from (S i) a p evs) as [j'|] eqn:Hj.
  - intros [= <-]. apply IH in Hj. lia.
  - case_decide; [| done]. intros [= <-]. lia.
Qed.

Lemma last_index_from_snoc (i : nat) (a : Action) (p : Z)
    (evs : list (Z * Action)) (e : Z * Action) :
  last_index_from i a p (evs ++ [e])
  = if decide (e = (p, a)) then Some (i + length evs)%nat
    else last_index_from i a p evs.
Proof.
  revert i. induction evs as [| e' evs IH]; intros i; cbn.
  - case_decide; [by rewrite Nat.add_0_r | done].
  - rewrite IH. case_decide; [| done].
    f_equal. lia.
Qed.

Lemma joined_more_recently_snoc (evs : list (Z * Action)) (q p : Z)
    (a : Action) :
  joined_more_recently (evs ++ [(q, a)]) p
  = if decide (q = p) then bool_decide (a = Join)
    else joined_more_recently evs p.
Proof.
  unfold joined_more_recently, last_index.
  rewrite !last_index_from_snoc. cbn.
  destruct (decide (q = p)) as [-> | Hne].
  - destruct a.
    + rewrite decide_True by done. rewrite decide_False by congruence.
      destruct (last_index_from 0 Leave p evs) as [l|] eqn:Hl; [| done].
      apply last_index_from_bound in Hl.
      rewrite bool_decide_eq_true_2 by lia. done.
    + rewrite decide_False by congruence. rewrite decide_True by done.
      destruct (last_index_from 0 Join p evs) as [j|] eqn:Hj; [| done].
      apply last_index_from_bound in Hj.
      rewrite bool_decide_eq_false_2 by lia. done.
  - by rewrite !decide_False by congruence.
Qed.

Lemma last_index_snoc_other (evs : list (Z * Action)) (q p : Z)
    (a b : Action) :
  (q, b) ≠ (p, a) →
  last_index a p (evs ++ [(q, b)]) = last_index a p evs.
Proof.
  intros Hne. unfold last_index. rewrite last_index_from_snoc.
  by rewrite decide_False.
Qed.

Lemma never_joined (evs : list (Z * Action)) (p : Z) :
  last_index Join p evs = None → joined_more_recently evs p = false.
Proof. intros Hn. unfold joined_more_recently. by rewrite Hn. Qed.

(** The membership set of the joined session after a join. *)
Lemma members_after_join (ws : nat) (c : Conn) (data : WebSocketMessage)
    (st : State) (x : JsVal) :
  conns st !! ws = Some c →
  msg_type data = Some SESSION_JOIN →
  x ∈ members (on_message rejects ws (Parsed data) st).1 (msg_sessionId data)
  ↔ x = userId (bind_userId c data) ∨ x ∈ members st (msg_sessionId data).
Proof.
  intros Hc Hty. rewrite (on_message_join _ _ c) by done.
  unfold members. cbn. unfold members_add.
  destruct (sessionClients st !! msg_sessionId data) as [l|] eqn:Hl.
  - rewrite Hl, lookup_insert_eq. cbn. apply elem_of_set_add.
  - rewrite lookup_insert_eq, lookup_insert_eq. cbn.
    rewrite elem_of_set_add. done.
Qed.

(** The membership set of the remembered session after a leave. *)
Lemma members_after_leave (ws : nat) (c : Conn) (data : WebSocketMessage)
    (st : State) (x : JsVal) :
  conns st !! ws = Some c →
  msg_type data = Some SESSION_LEAVE →
  truthy (userId (bind_userId c data)) = true →
  truthy (sessionId c) = true →
  x ∈ members (on_message rejects ws (Parsed data) st).1 (sessionId c)
  ↔ x ≠ userId (bind_userId c data) ∧ x ∈ members st (sessionId c).
Proof.
  intros Hc Hty Hu Hs. rewrite (on_message_other _ _ c) by congruence.
  cbn zeta. cbn [fst]. unfold dispatch.
  rewrite Hty, bind_userId_sessionId, Hs, Hu. cbn [andb].
  unfold members, members_delete. cbn [sessionClients with_conn].
  destruct (sessionClients st !! sessionId c) as [l|] eqn:Hl.
  - rewrite lookup_insert_eq.
    assert (∀ st0 : State, st0 = with_sessionClients
              (<[sessionId c := set_delete (userId (bind_userId c data)) l]>
                 (sessionClients st))
              (with_conn ws (bind_userId c data) st) →
            default [] (sessionClients st0 !! sessionId c)
            = set_delete (userId (bind_userId c data)) l) as Hst.
    { intros st0 ->. cbn. by rewrite lookup_insert_eq. }
    destruct (set_delete _ l) eqn:Hd; cbn [fst];
      rewrite (Hst _ eq_refl), <- ?Hd; apply elem_of_set_delete.
  - rewrite Hl. cbn. rewrite Hl. cbn. rewrite elem_of_nil. tauto.
Qed.

Lemma bind_userId_participant (c : Conn) (s p : Z) (a : Action) :
  p ≠ 0 →
  userId c = JNull ∨ userId c = JNum p →
  userId (bind_userId c (match a with
                         | Join => joinMessage s p
                         | Leave => leaveMessage s p
                         end)) = JNum p.
Proof.
  intros Hp [Hu | Hu]; unfold bind_userId; rewrite Hu; cbn.
  - by destruct a.
  - destruct (p =? 0) eqn:Hz; [lia | done].
Qed.

Lemma truthy_JNum (z : Z) : z ≠ 0 → truthy (JNum z) = true.
Proof. intros Hz. cbn. destruct (z =? 0) eqn:Hq; [lia | done]. Qed.

Section Participants.

Variable cid : Z → nat.
Variable ps : list Z.
Variable s : Z.
Hypothesis s_nonzero : s ≠ 0.
Hypothesis ps_nonzero : Forall (λ p, p ≠ 0) ps.
Hypothesis cid_inj : ∀ p q, p ∈ ps → q ∈ ps → cid p = cid q → p = q.

Lemma membership_step (st : State) (evs : list (Z * Action)) (q : Z)
    (a : Action) :
  q ∈ ps →
  (∀ p, p ∈ ps → participant_conn st cid s evs p) →
  (∀ x, x ∈ members st (JNum s) ↔
     ∃ p, p ∈ ps ∧ x = JNum p ∧ joined_more_recently evs p = true) →
  let st' := (step rejects st (action_event cid s (q, a))).1 in
  (∀ p, p ∈ ps → participant_conn st' cid s (evs ++ [(q, a)]) p)
  ∧ (∀ x, x ∈ members st' (JNum s) ↔
       ∃ p, p ∈ ps ∧ x = JNum p
            ∧ joined_more_recently (evs ++ [(q, a)]) p = true).
Proof.
  intros Hq Hconn Hmem st'.
  assert (q ≠ 0) as Hq0 by (by rewrite Forall_forall in ps_nonzero;
                               apply ps_nonzero).
  destruct (Hconn q Hq) as (c & Hc & Hr & Hu & Hs).
  set (data := match a with
               | Join => joinMessage s q
               | Leave => leaveMessage s q
               end).
  assert (st' = (on_message rejects (cid q) (Parsed data) st).1) as Hst'.
  { subst st'. unfold action_event. cbn [fst snd]. fold data.
    rewrite (step_message_live _ _ _ c); [done | done |]. by rewrite Hr. }
  assert (userId (bind_userId c data) = JNum q) as Hbind
    by (by apply bind_userId_participant).
  assert (msg_type data = Some SESSION_JOIN ↔ a = Join) as Hjoin
    by (by destruct a; cbn).
  split.
  - intros p Hp. destruct (decide (p = q)) as [-> | Hne].
    + destruct (conn_after_message rejects (cid q) c data st Hc)
        as (c' & Hc' & Hu' & Hr' & Hs').
      exists c'. rewrite Hst'. split; [done |].
      rewrite Hr', Hu', Hbind. split_and!; [done | by right |].
      destruct a.
      * left. rewrite Hs'. by rewrite decide_True.
      * rewrite Hs', decide_False by done.
        destruct Hs as [[? _] | [? Hnone]]; [by left | right].
        split; [done |]. by rewrite last_index_snoc_other.
    + destruct (Hconn p Hp) as (c' & Hc' & Hr' & Hu' & Hs').
      exists c'. rewrite Hst'.
      rewrite (conns_after_message _ _ _ c)
        by (done || (intros ?; apply Hne; by apply cid_inj)).
      split_and!; try done.
      destruct Hs' as [? | [? Hnone]]; [by left | right].
      split; [done |]. rewrite last_index_snoc_other; [done |]. congruence.
  - intros x. rewrite Hst'.
    assert (∀ p, joined_more_recently (evs ++ [(q, a)]) p
                 = if decide (q = p) then bool_decide (a = Join)
                   else joined_more_recently evs p) as Hsnoc
      by (intros p; apply joined_more_recently_snoc).
    destruct a.
    + change (JNum s) with (msg_sessionId data).
      rewrite (members_after_join _ c) by done.
      rewrite Hbind. change (msg_sessionId data) with (JNum s).
      rewrite Hmem. split.
      * intros [-> | (p & Hp & -> & Hj)].
        -- exists q. rewrite Hsnoc, decide_True by done. done.
        -- exists p. rewrite Hsnoc. split_and!; try done.
           destruct (decide (q = p)); [by apply bool_decide_eq_true_2 | done].
      * intros (p & Hp & -> & Hj). rewrite Hsnoc in Hj.
        destruct (decide (q = p)); [left; congruence | right]. by exists p.
    + assert (∀ p, p ∈ ps →
                joined_more_recently (evs ++ [(q, Leave)]) p = true
                ↔ p ≠ q ∧ joined_more_recently evs p = true) as Hleave.
      { intros p Hp. rewrite Hsnoc. destruct (decide (q = p)) as [Hd | Hd].
        - subst p. rewrite bool_decide_eq_false_2 by done.
          split; [done | by intros [? _]].
        - split; [intros ?; split; [congruence | done] | by intros [_ ?]]. }
      destruct Hs as [[Hs Hu'] | [Hs Hnone]].
      * rewrite <- Hs.
        rewrite (members_after_leave _ c); try done.
        2: { rewrite Hbind. by apply truthy_JNum. }
        2: { rewrite Hs. by apply truthy_JNum. }
        rewrite Hbind, Hs, Hmem. split.
        -- intros (Hx & p & Hp & -> & Hj). exists p.
           split_and!; try done. apply Hleave; [done |].
           split; [congruence | done].
        -- intros (p & Hp & -> & Hj). apply Hleave in Hj as [? ?]; [| done].
           split; [congruence |]. by exists p.
      * destruct (on_message_prejoin rejects (cid q) c (Parsed data) st)
          as (_ & _ & Hsc & _); try done.
        { by rewrite Hs. }
        cbn zeta in Hsc. unfold members at 1. rewrite Hsc.
        fold (members st (JNum s)). rewrite Hmem.
        apply never_joined in Hnone. split.
        -- intros (p & Hp & -> & Hj). exists p. split_and!; try done.
           apply Hleave; [done |]. split; [congruence | done].
        -- intros (p & Hp & -> & Hj). apply Hleave in Hj as [? ?]; [| done].
           by exists p.
Qed.

(** C3, as the code has it.  Participants with non-zero ids and distinct,
    freshly opened connections send joins and leaves, in any order and
    number, for one session that has a non-zero id and no member at the
    start.  Afterwards the session's membership set consists exactly of the
    participants whose most recent join comes after their most recent
    leave. *)
Theorem membership_is_joined_more_recently (st : State)
    (evs : list (Z * Action)) :
  (∀ p, p ∈ ps → conns st !! cid p = Some (mkConn JNull JNull OPEN)) →
  members st (JNum s) = [] →
  Forall (λ e, e.1 ∈ ps) evs →
  let st' := (run rejects st (action_event cid s <$> evs)).1 in
  ∀ x, x ∈ members st' (JNum s) ↔
    ∃ p, p ∈ ps ∧ x = JNum p ∧ joined_more_recently evs p = true.
Proof.
  intros Hfresh Hempty Hevs. cbn zeta.
  enough ((∀ p, p ∈ ps →
             participant_conn
               (run rejects st (action_event cid s <$> evs)).1 cid s evs p)
          ∧ (∀ x, x ∈ members
                        (run rejects st (action_event cid s <$> evs)).1
                        (JNum s) ↔
               ∃ p, p ∈ ps ∧ x = JNum p
                    ∧ joined_more_recently evs p = true)) as [_ ?]
    by done.
  induction evs as [| [q a] evs' IH] using rev_ind.
  - cbn. split.
    + intros p Hp. exists (mkConn JNull JNull OPEN).
      split_and!; [by apply Hfresh | done | by left | by right].
    + intros x. rewrite Hempty. split; [by intros ?%elem_of_nil |].
      by intros (p & _ & _ & ?).
  - apply Forall_app in Hevs as [Hevs' [Hq _]%Forall_cons].
    destruct (IH Hevs') as [IH1 IH2].
    rewrite fmap_app.
    change (action_event cid s <$> [(q, a)])
      with [action_event cid s (q, a)].
    rewrite run_snoc. by apply membership_step.
Qed.

End Participants.

End Claims_membership.

(** ** Only a join registers and adds *)

Section Claims_join_only.

Variable rejects : StorageCall → bool.

(** C9. Events received on a connection before its first session-join are
    broadcast to no one and change neither the connection registry nor any
    membership set; and whatever the connection's state, an event that is not
    a session-join registers no connection and adds no member to any
    session, while a session-join registers the sending connection under
    its participant and makes the participant a member of the session it
    names. *)
Theorem nothing_before_first_join :
  (∀ (st : State) (ws : nat) (c : Conn) (raws : list RawMessage),
     conns st !! ws = Some c →
     sessionId c = JNull →
     Forall (λ raw, is_join raw = false) raws →
     let r := run rejects st (Message ws <$> raws) in
     filter is_send r.2 = []
     ∧ connectedClients r.1 = connectedClients st
     ∧ sessionClients r.1 = sessionClients st)
  ∧ (∀ (st : State) (ws : nat) (raw : RawMessage),
       is_join raw = false →
       let r := step rejects st (Message ws raw) in
       connectedClients r.1 = connectedClients st
       ∧ ∀ sid x, x ∈ members r.1 sid → x ∈ members st sid)
  ∧ (∀ (st : State) (ws : nat) (c : Conn) (data : WebSocketMessage),
       conns st !! ws = Some c →
       msg_type data = Some SESSION_JOIN →
       let r := on_message rejects ws (Parsed data) st in
       let sender := userId (bind_userId c data) in
       connectedClients r.1 !! sender = Some ws
       ∧ sender ∈ members r.1 (msg_sessionId data)).
Proof.
  split_and!.
  - intros st ws c raws Hc Hs Hall.
    assert (truthy (sessionId c) = false) as Hf by (by rewrite Hs).
    clear Hs. revert st c Hc Hf.
    induction Hall as [| raw raws Hraw _ IH]; intros st c Hc Hf; [done |].
    rewrite fmap_cons, run_cons. cbn zeta. cbn [fst snd].
    assert (∃ c', let r := step rejects st (Message ws raw) in
              filter is_send r.2 = []
              ∧ connectedClients r.1 = connectedClients st
              ∧ sessionClients r.1 = sessionClients st
              ∧ conns r.1 !! ws = Some c' ∧ sessionId c' = sessionId c)
      as (c' & Hsend & Hreg & Hsc & Hc' & Hs').
    { cbn. rewrite Hc. case_decide.
      - exists c. done.
      - destruct (on_message_prejoin rejects ws c raw st) as (?&?&?& c' &?&?);
          try done.
        exists c'. done. }
    cbn zeta in *.
    destruct (IH (step rejects st (Message ws raw)).1 c') as (IH1 & IH2 & IH3);
      [done | by rewrite Hs' |].
    rewrite filter_app, Hsend, IH1, IH2, IH3. done.
  - intros st ws raw Hj. cbn.
    destruct (conns st !! ws) as [c|]; [| done].
    case_decide; [done |]. by apply on_message_other_frame.
  - intros st ws c data Hc Hty. cbn zeta. split.
    + rewrite (on_message_join_registers _ _ c) by done.
      apply lookup_insert_eq.
    + apply (members_after_join _ _ c); [done | done | by left].
Qed.

End Claims_join_only.

(** ** Instances *)

Lemma join_idempotent_witness :
  let r := on_message mem_storage 1%nat (Parsed (joinMessage 7 1)) st_joined in
  sessionClients r.1 = sessionClients st_joined
  ∧ members r.1 (JNum 7) = members st_joined (JNum 7)
  ∧ length (members r.1 (JNum 7)) = length (members st_joined (JNum 7))
  ∧ LogError ∉ r.2.
Proof.
  apply (join_idempotent mem_storage 1%nat (mkConn (JNum 1) (JNum 7) OPEN)
           (joinMessage 7 1) st_joined).
  - reflexivity.
  - reflexivity.
  - vm_compute. constructor.
Defined.

Lemma nothing_before_first_join_witness :
  let r := run mem_storage lobby
             (Message 1%nat <$> [Parsed codeChange; Unparseable;
                                 Parsed chatNoSession]) in
  filter is_send r.2 = []
  ∧ connectedClients r.1 = connectedClients lobby
  ∧ sessionClients r.1 = sessionClients lobby.
Proof.
  apply (proj1 (nothing_before_first_join mem_storage) lobby 1%nat
           (mkConn JNull JNull OPEN)).
  - reflexivity.
  - reflexivity.
  - repeat constructor.
Defined.

Lemma remembered_session_decides_witness :
  let r := on_message mem_storage 1%nat (Parsed codeChange) room in
  let r' := on_message mem_storage 1%nat
              (Parsed (with_sessionId (JNum 99) codeChange)) room in
  let sender := userId (bind_userId (mkConn (JNum 1) (JNum 7) OPEN)
                          codeChange) in
  (∃ targets,
     filter is_send r.2 = (λ w, Send w codeChange) <$> targets
     ∧ if truthy (JNum 7)
       then ∀ w, w ∈ targets ↔
              ∃ m, m ∈ members room (JNum 7) ∧ m ≠ sender
                   ∧ connectedClients room !! m = Some w
                   ∧ is_open room w = true
       else targets = [])
  ∧ (∀ k, Call (EndSession k) ∈ r.2 → k = JNum 7)
  ∧ (∀ sid, sid ≠ JNum 7 →
       sessionClients r.1 !! sid = sessionClients room !! sid)
  ∧ r'.1 = r.1
  ∧ r'.2 = resend (with_sessionId (JNum 99) codeChange) <$> r.2.
Proof.
  apply (remembered_session_decides mem_storage room 1%nat
           (mkConn (JNum 1) (JNum 7) OPEN) codeChange (JNum 99)).
  - reflexivity.
  - discriminate.
Defined.


Lemma message_handler_is_total_witness :
  on_message mem_storage 1%nat Unparseable room = (room, [LogError]).
Proof.
  apply (proj1 (message_handler_is_total mem_storage) room 1%nat
           (mkConn (JNum 1) (JNum 7) OPEN)).
  reflexivity.
Defined.


(** With socket 3 closing, the event of user 1 reaches socket 2 only, and
    nothing is logged. *)
Example broadcast_skips_closing_socket :
  (on_message mem_storage 1%nat (Parsed codeChange)
     (run mem_storage init (room_trace ++ [StartClosing 3%nat])).1).2
  = [Send 2%nat codeChange; Call (UpdateFile (JNum 10) (Some "x=1"))].
Proof. by vm_compute. Qed.

Lemma registry_after_join_until_close_witness :
  let st := (run mem_storage init room_trace).1 in
  (∀ ws, registered st ws →
     has_joined room_trace ws = true
     ∧ ∃ c, conns st !! ws = Some c ∧ readyState c ≠ CLOSED)
  ∧ (∀ ws c data,
       conns st !! ws = Some c → readyState c ≠ CLOSED →
       msg_type data = Some SESSION_JOIN →
       registered (step mem_storage st (Message ws (Parsed data))).1 ws)
  ∧ (∀ ws raw,
       is_join raw = false →
       connectedClients (step mem_storage st (Message ws raw)).1
       = connectedClients st)
  ∧ (∀ ws, ¬ registered (step mem_storage st (Close ws)).1 ws).
Proof.
  apply (registry_after_join_until_close mem_storage room_trace).
  repeat constructor.
Defined.

Lemma lone_member_disconnects_witness :
  let r := run mem_storage store_user1
             ([Connect 1%nat; Message 1%nat (Parsed (joinMessage 7 1))]
                ++ ((λ d, Message 1%nat (Parsed d)) <$> [codeChange])
                ++ [Close 1%nat]) in
  members r.1 (JNum 7) = []
  ∧ sessionClients r.1 !! JNum 7 = Some []
  ∧ getUser r.1 (JNum 1) = Some (mkUser false)
  ∧ calls (EndSession (JNum 7)) r.2 = 1%nat
  ∧ calls (UpdateUser (JNum 1) false) r.2 = 1%nat.
Proof.
  apply (lone_member_disconnects mem_storage store_user1 1%nat (mkUser true)
           (joinMessage 7 1) [codeChange]).
  - reflexivity.
  - reflexivity.
  - reflexivity.
  - reflexivity.
  - reflexivity.
  - reflexivity.
  - reflexivity.
  - reflexivity.
  - repeat constructor; discriminate.
Defined.

Lemma session_ends_once_witness :
  let evs := (λ a, ending_event a.1.1 a.2)
               <$> [(2%nat, JNum 2, ByLeave (leaveMessage 7 2));
                    (1%nat, JNum 1, ByClose);
                    (3%nat, JNum 3, ByLeave (leaveMessage 7 3))] in
  calls (EndSession (JNum 7)) (run mem_storage room evs).2 = 1%nat
  ∧ ∃ before last,
      evs = before ++ [last]
      ∧ calls (EndSession (JNum 7)) (run mem_storage room before).2 = 0%nat
      ∧ calls (EndSession (JNum 7))
          (step mem_storage (run mem_storage room before).1 last).2 = 1%nat.
Proof.
  apply (session_ends_once mem_storage room (JNum 7)
           [(2%nat, JNum 2, ByLeave (leaveMessage 7 2));
            (1%nat, JNum 1, ByClose);
            (3%nat, JNum 3, ByLeave (leaveMessage 7 3))]
           [JNum 1; JNum 2; JNum 3]).
  - reflexivity.
  - discriminate.
  - cbn. repeat constructor; rewrite ?elem_of_cons, ?elem_of_nil;
      intros H; decompose [or] H; discriminate || done.
  - cbn. repeat constructor; rewrite ?elem_of_cons, ?elem_of_nil;
      intros H; decompose [or] H; discriminate || done.
  - reflexivity.
  - cbn. apply perm_swap.
  - repeat constructor.
    + exists (mkConn (JNum 2) (JNum 7) OPEN). by split_and!.
    + exists (mkConn (JNum 1) (JNum 7) OPEN). by split_and!.
    + exists (mkConn (JNum 3) (JNum 7) OPEN). by split_and!.
Defined.

Lemma membership_is_joined_more_recently_witness :
  let evs := [(1, Join); (2, Join); (1, Leave); (1, Join); (2, Leave)] in
  let st' := (run mem_storage lobby (action_event Z.to_nat 7 <$> evs)).1 in
  JNum 1 ∈ members st' (JNum 7) ↔
    ∃ p, p ∈ [1; 2] ∧ JNum 1 = JNum p ∧ joined_more_recently evs p = true.
Proof.
  apply (membership_is_joined_more_recently mem_storage Z.to_nat [1; 2] 7).
  - discriminate.
  - repeat constructor; discriminate.
  - intros p q Hp Hq Heq.
    rewrite !elem_of_cons, !elem_of_nil in Hp, Hq.
    destruct Hp as [-> | [-> | []]], Hq as [-> | [-> | []]];
      done || discriminate.
  - intros p Hp. rewrite !elem_of_cons, !elem_of_nil in Hp.
    destruct Hp as [-> | [-> | []]]; reflexivity.
  - reflexivity.
  - repeat constructor.
Defined.

(** ** Where the specification and the code part *)

(** C4 fails as stated, in two ways.  A connection that has sent an event,
    here a chat message, and has not closed is not in the registry, because
    only a session-join registers.  And a connection that joined with
    [userId] 0 is still in the registry after it has closed: the join
    registers it under 0 without a test, and the close handler does nothing
    behind [if (userId)]. *)
Lemma sender_is_not_registered :
  let evs := [Connect 1%nat; Message 1%nat (Parsed chatNoSession)] in
  let st := (run mem_storage init evs).1 in
  has_sent evs 1%nat = true
  ∧ has_closed evs 1%nat = false
  ∧ ¬ registered st 1%nat
  ∧ ¬ (registered st 1%nat
       ↔ has_sent evs 1%nat = true ∧ has_closed evs 1%nat = false)
  ∧ let evs0 := [Connect 1%nat; Message 1%nat (Parsed (joinMessage 7 0));
                 Close 1%nat] in
    let st0 := (run mem_storage init evs0).1 in
    has_closed evs0 1%nat = true
    ∧ connectedClients st0 !! JNum 0 = Some 1%nat
    ∧ registered st0 1%nat.
Proof.
  cbn zeta.
  assert (¬ registered
            (run mem_storage init
               [Connect 1%nat; Message 1%nat (Parsed chatNoSession)]).1
            1%nat) as Hnot.
  { intros [m Hm]. vm_compute in Hm. discriminate. }
  split_and!; [reflexivity | reflexivity | done | | reflexivity
               | reflexivity | by exists (JNum 0)].
  intros [_ Hreg]. apply Hnot, Hreg. by split.
Qed.


(** C3 fails as stated, in two ways.  Participant 0 joins session 7 and
    leaves it: the join adds 0 without a test, the leave does nothing behind
    [if (sessionId && userId)], and 0 stays a member although its last
    leave comes after its last join.  The same holds for participant 1 in
    the session whose id is 0. *)
Lemma zero_id_member_is_not_removed :
  let evs := [(0, Join); (0, Leave)] in
  let st := (run mem_storage init [Connect 0%nat]).1 in
  let st' := (run mem_storage st (action_event Z.to_nat 7 <$> evs)).1 in
  let evs1 := [(1, Join); (1, Leave)] in
  let st1 := (run mem_storage init [Connect 1%nat]).1 in
  let st1' := (run mem_storage st1 (action_event Z.to_nat 0 <$> evs1)).1 in
  conns st !! 0%nat = Some (mkConn JNull JNull OPEN)
  ∧ members st (JNum 7) = []
  ∧ members st' (JNum 7) = [JNum 0]
  ∧ joined_more_recently evs 0 = false
  ∧ ¬ (JNum 0 ∈ members st' (JNum 7) ↔
         ∃ p, p ∈ [0] ∧ JNum 0 = JNum p
              ∧ joined_more_recently evs p = true)
  ∧ members st1' (JNum 0) = [JNum 1]
  ∧ joined_more_recently evs1 1 = false.
Proof.
  cbn zeta. split_and!; try reflexivity.
  intros [Hin _].
  destruct Hin as (p & _ & [= <-] & Hj); [| done].
  vm_compute. constructor.
Qed.

(** C5 fails as stated, in three ways.  On the empty user store the server
    starts with, participant 1 joins session 7 alone and its connection
    closes: [getUser] finds nobody, so behind [if (user)] there is no
    [updateUser] call.  A participant with id 0 is not taken out of the set
    by the close, and the session is not ended; nor is a session whose id
    is 0. *)
Lemma unknown_user_is_not_marked_offline :
  let r := run mem_storage init
             [Connect 1%nat; Message 1%nat (Parsed (joinMessage 7 1));
              Close 1%nat] in
  let r0 := run mem_storage store_user1
              [Connect 1%nat; Message 1%nat (Parsed (joinMessage 7 0));
               Close 1%nat] in
  let r1 := run mem_storage store_user1
              [Connect 1%nat; Message 1%nat (Parsed (joinMessage 0 1));
               Close 1%nat] in
  r.2 = [Call (GetUser (JNum 1)); Call (EndSession (JNum 7))]
  ∧ calls (UpdateUser (JNum 1) false) r.2 = 0%nat
  ∧ ¬ (calls (UpdateUser (JNum 1) false) r.2 = 1%nat)
  ∧ members r0.1 (JNum 7) = [JNum 0]
  ∧ calls (EndSession (JNum 7)) r0.2 = 0%nat
  ∧ members r1.1 (JNum 0) = [JNum 1]
  ∧ calls (EndSession (JNum 0)) r1.2 = 0%nat.
Proof.
  cbn zeta. split_and!; try reflexivity.
  by vm_compute.
Qed.

(** C10 fails as stated for an event that is itself a join.  Connection 1
    remembers session 7.  Its join for session 7 is forwarded to the other
    two members; the same join naming session 8 is forwarded to nobody,
    adds user 1 to session 8, and makes 8 the remembered session: here the
    [sessionId] of the envelope decides. *)
Lemma later_join_moves_the_fanout :
  let data := joinMessage 7 1 in
  let r := on_message mem_storage 1%nat (Parsed data) room in
  let r' := on_message mem_storage 1%nat
              (Parsed (with_sessionId (JNum 8) data)) room in
  conns room !! 1%nat = Some (mkConn (JNum 1) (JNum 7) OPEN)
  ∧ members room (JNum 7) = [JNum 1; JNum 2; JNum 3]
  ∧ filter is_send r.2 = [Send 2%nat data; Send 3%nat data]
  ∧ filter is_send r'.2 = []
  ∧ members r'.1 (JNum 8) = [JNum 1]
  ∧ conns r'.1 !! 1%nat = Some (mkConn (JNum 1) (JNum 8) OPEN)
  ∧ r'.1 ≠ r.1
  ∧ r'.2 ≠ resend (with_sessionId (JNum 8) data) <$> r.2.
Proof.
  cbn zeta. split_and!; try reflexivity.
  - intros Heq.
    assert (members
              (on_message mem_storage 1%nat
                 (Parsed (with_sessionId (JNum 8) (joinMessage 7 1))) room).1
              (JNum 8) = [JNum 1]) as H8 by reflexivity.
    rewrite Heq in H8. by vm_compute in H8.
  - by vm_compute.
Qed.

(** A member whose id is 0 is taken out of the set by neither handler:
    after its leave and the close of its connection it is still a member,
    and [endSession] has not been called. *)
Example zero_id_member_keeps_the_session :
  let r := run mem_storage init
             [Connect 1%nat; Message 1%nat (Parsed (joinMessage 7 0));
              Message 1%nat (Parsed (leaveMessage 7 0)); Close 1%nat] in
  members r.1 (JNum 7) = [JNum 0]
  ∧ calls (EndSession (JNum 7)) r.2 = 0%nat.
Proof. by vm_compute. Qed.

(** C8 fails as stated: an envelope without [sessionId], sent on a
    connection that has joined session 7, is not dropped and nothing is
    logged; it is forwarded to the other two members. *)
Lemma incomplete_envelope_is_relayed :
  let r := on_message mem_storage 1%nat (Parsed chatNoSession) room in
  malformed (Parsed chatNoSession) = true
  ∧ r.2 = [Send 2%nat chatNoSession; Send 3%nat chatNoSession]
  ∧ ¬ (LogError ∈ r.2 ∧ filter is_send r.2 = []).
Proof.
  cbn zeta.
  assert ((on_message mem_storage 1%nat (Parsed chatNoSession) room).2
          = [Send 2%nat chatNoSession; Send 3%nat chatNoSession]) as ->
    by (by vm_compute).
  split_and!; [reflexivity | reflexivity |].
  intros [Hlog _]. rewrite !elem_of_cons, elem_of_nil in Hlog.
  by destruct Hlog as [? | [? | []]].
Qed.

(** The close handler has no [try]: when [getUser] rejects, the rejection is
    not caught and the rest of the handler does not run, so the closed
    connection's user stays in the membership set. *)
Lemma close_handler_rejection_is_not_caught :
  let r := step user_store_down st_joined (Close 1%nat) in
  r.2 = [Call (GetUser (JNum 1)); Unhandled]
  ∧ members r.1 (JNum 7) = [JNum 1].
Proof. by vm_compute. Qed.

(** * Further properties of the relay *)

Section Relay_more.

Variable rejects : StorageCall → bool.

Lemma no_send_in (effs : list Effect) (w : nat) (d : WebSocketMessage) :
  filter is_send effs = [] → Send w d ∉ effs.
Proof.
  intros Hf Hin.
  assert (Send w d ∈ filter is_send effs) as Hin'
    by (by apply list_elem_of_filter).
  rewrite Hf in Hin'. by apply elem_of_nil in Hin'.
Qed.

Lemma is_open_at_broadcast (ws w : nat) (c : Conn) (data : WebSocketMessage)
    (st : State) :
  conns st !! ws = Some c →
  is_open (at_broadcast ws c data st).2 w = is_open st w.
Proof.
  intros Hc. unfold is_open.
  pose proof (at_broadcast_conn ws c data st) as (-> & _ & Hr).
  destruct (decide (ws = w)) as [<- | Hne].
  - rewrite lookup_insert_eq, Hc. by rewrite Hr.
  - by rewrite lookup_insert_ne.
Qed.

Lemma on_message_send (ws w : nat) (c : Conn) (data d : WebSocketMessage)
    (st : State) :
  conns st !! ws = Some c →
  Send w d ∈ (on_message rejects ws (Parsed data) st).2 →
  d = data
  ∧ w ∈ fanout (at_broadcast ws c data st).2 (at_broadcast ws c data st).1.
Proof.
  intros Hc. rewrite (on_message_at_broadcast _ _ c) by done.
  cbn zeta. cbn [snd]. rewrite broadcast_sends.
  pose proof (dispatch_frame rejects (at_broadcast ws c data st).2
                (at_broadcast ws c data st).1 data) as (_ & _ & _ & Hs).
  intros [Hin | [Hin | Hin]%elem_of_app]%elem_of_app.
  - apply list_elem_of_fmap in Hin as (w' & [= -> ->] & Hw). done.
  - by apply no_send_in in Hin.
  - destruct (dispatch _ _ _ _).2;
      [apply list_elem_of_singleton in Hin | apply elem_of_nil in Hin]; done.
Qed.

Lemma close_session_send (c : Conn) (st : State) (w : nat)
    (d : WebSocketMessage) :
  Send w d ∈ (close_session rejects c st).2 →
  d = leaveMsg (sessionId c) (userId c)
  ∧ ∃ m, m ∈ set_delete (userId c) (members st (sessionId c))
         ∧ connectedClients st !! m = Some w
         ∧ is_open st w = true.
Proof.
  unfold close_session.
  destruct (truthy (sessionId c)); [| by intros ?%elem_of_nil].
  unfold members_delete.
  destruct (sessionClients st !! sessionId c) as [l|] eqn:Hl;
    [| rewrite Hl; by intros ?%elem_of_nil].
  assert (members st (sessionId c) = l) as ->
    by (unfold members; by rewrite Hl).
  rewrite lookup_insert_eq.
  set (st' := with_sessionClients _ st).
  assert (∀ effs, Send w d ∈
            ((λ w0, Send w0 (leaveMsg (sessionId c) (userId c)))
               <$> omap (open_client st') (set_delete (userId c) l)) ++ effs →
          filter is_send effs = [] →
          d = leaveMsg (sessionId c) (userId c)
          ∧ ∃ m, m ∈ set_delete (userId c) l
                 ∧ connectedClients st !! m = Some w
                 ∧ is_open st w = true) as Hsend.
  { intros effs [Hin | Hin]%elem_of_app Heffs;
      [| by apply no_send_in in Hin].
    apply list_elem_of_fmap in Hin as (w' & [= -> ->] & Hw).
    split; [done |].
    apply list_elem_of_omap in Hw as (m & Hm & Ho). exists m.
    split; [done |]. unfold open_client in Ho. cbn in Ho.
    destruct (connectedClients st !! m) as [w0|]; [| done].
    change (is_open st' w0) with (is_open st w0) in Ho.
    destruct (is_open st w0) eqn:Hopen; [| done]. by injection Ho as ->. }
  destruct (set_delete (userId c) l) eqn:Hd.
  - intros Hin. apply (Hsend _ Hin). by destruct (rejects _).
  - intros Hin. apply (Hsend []); [by rewrite app_nil_r | done].
Qed.

Lemma on_close_send (ws w : nat) (c : Conn) (st : State)
    (d : WebSocketMessage) :
  conns st !! ws = Some c →
  Send w d ∈ (on_close rejects ws st).2 →
  d = leaveMsg (sessionId c) (userId c)
  ∧ ∃ m, m ∈ set_delete (userId c) (members st (sessionId c))
         ∧ m ≠ userId c
         ∧ connectedClients st !! m = Some w
         ∧ is_open st w = true.
Proof.
  intros Hc. unfold on_close. rewrite Hc.
  destruct (truthy (userId c)); [| by intros ?%elem_of_nil].
  set (st1 := mkState _ _ _ _).
  assert (∀ st0 : State,
            sessionClients st0 = sessionClients st →
            connectedClients st0 = delete (userId c) (connectedClients st) →
            conns st0 = conns st →
            Send w d ∈ (close_session rejects c st0).2 →
            d = leaveMsg (sessionId c) (userId c)
            ∧ ∃ m, m ∈ set_delete (userId c) (members st (sessionId c))
                   ∧ m ≠ userId c
                   ∧ connectedClients st !! m = Some w
                   ∧ is_open st w = true) as Hcs.
  { intros st0 Hsc Hreg Hcn (-> & m & Hm & Hw & Ho)%close_session_send.
    split; [done |]. exists m.
    unfold members in *. rewrite Hsc in Hm. rewrite Hreg in Hw.
    apply lookup_delete_Some in Hw as [Hne Hw].
    split_and!; [done | done | done |].
    unfold is_open in *. by rewrite Hcn in Ho. }
  destruct (rejects (GetUser (userId c))).
  { cbn [snd]. rewrite !elem_of_cons, elem_of_nil. by intros [? | [? | []]]. }
  destruct (getUser st1 (userId c)).
  - destruct (rejects (UpdateUser (userId c) false)).
    { cbn [snd]. rewrite !elem_of_cons, elem_of_nil.
      by intros [? | [? | [? | []]]]. }
    cbn zeta. cbn [snd].
    pose proof (updateUser_tables (userId c) false st1) as (U1 & U2 & U3).
    rewrite !elem_of_app, !elem_of_cons, elem_of_nil.
    intros [[? | [? | []]] | Hin]; try done.
    by apply (Hcs (updateUser (userId c) false st1)).
  - cbn zeta. cbn [snd].
    rewrite !elem_of_app, !elem_of_cons, elem_of_nil.
    intros [[? | []] | Hin]; try done.
    by apply (Hcs st1).
Qed.

(** X1. The relay only ever calls [send] on a socket whose [readyState]
    is [OPEN], and the socket that is closing down is never sent its own
    leave notice. *)
Theorem sends_only_to_open_sockets (st : State) (ev : Event) (w : nat)
    (d : WebSocketMessage) :
  Send w d ∈ (step rejects st ev).2 →
  is_open st w = true ∧ ev ≠ Close w.
Proof.
  destruct ev as [ws | ws raw | ws | ws]; cbn.
  - destruct (conns st !! ws); by intros ?%elem_of_nil.
  - destruct (conns st !! ws) as [c|] eqn:Hc; [| by intros ?%elem_of_nil].
    case_decide; [by intros ?%elem_of_nil |].
    destruct raw as [| data].
    { rewrite (on_message_unparseable _ _ c) by done.
      by intros ?%list_elem_of_singleton. }
    intros (_ & Hw)%(on_message_send _ _ c); [| done].
    split; [| done]. unfold fanout in Hw.
    destruct (truthy _); [| by apply elem_of_nil in Hw].
    apply elem_of_recipients in Hw as (m & _ & _ & _ & Ho).
    by rewrite (is_open_at_broadcast _ _ c) in Ho.
  - destruct (conns st !! ws); [case_decide |]; by intros ?%elem_of_nil.
  - destruct (conns st !! ws) as [c|] eqn:Hc; [| by intros ?%elem_of_nil].
    case_decide; [by intros ?%elem_of_nil |].
    set (c0 := mkConn (userId c) (sessionId c) CLOSED).
    intros (_ & m & _ & _ & _ & Ho)%(on_close_send _ _ c0);
      [| apply lookup_insert_eq].
    unfold is_open in Ho. cbn in Ho.
    destruct (decide (ws = w)) as [<- | Hne].
    + by rewrite lookup_insert_eq in Ho.
    + rewrite lookup_insert_ne in Ho by done. split; [done | congruence].
Qed.

(** Whoever is sent something is registered at that moment; a socket that
    is in the registry under no key is sent nothing. *)
Lemma unregistered_gets_nothing (st : State) (ev : Event) (w : nat)
    (d : WebSocketMessage) :
  ¬ registered st w → Send w d ∉ (step rejects st ev).2.
Proof.
  intros Hnot Hin. apply Hnot. clear Hnot.
  destruct ev as [ws | ws raw | ws | ws]; cbn in Hin.
  - destruct (conns st !! ws); by apply elem_of_nil in Hin.
  - destruct (conns st !! ws) as [c|] eqn:Hc; [| by apply elem_of_nil in Hin].
    case_decide; [by apply elem_of_nil in Hin |].
    destruct raw as [| data].
    { rewrite (on_message_unparseable _ _ c) in Hin by done.
      by apply list_elem_of_singleton in Hin. }
    apply (on_message_send _ _ c) in Hin as (_ & Hw); [| done].
    unfold fanout in Hw.
    destruct (truthy _); [| by apply elem_of_nil in Hw].
    apply elem_of_recipients in Hw as (m & _ & Hne & Hm & _).
    pose proof (at_broadcast_conn ws c data st) as (_ & Hu & _).
    cbn zeta in Hu. rewrite Hu in Hne.
    exists m. revert Hm. unfold at_broadcast.
    destruct (decide _); cbn; [| done].
    by rewrite lookup_insert_ne by congruence.
  - destruct (conns st !! ws); [case_decide |]; by apply elem_of_nil in Hin.
  - destruct (conns st !! ws) as [c|] eqn:Hc; [| by apply elem_of_nil in Hin].
    case_decide; [by apply elem_of_nil in Hin |].
    set (c0 := mkConn (userId c) (sessionId c) CLOSED) in *.
    apply (on_close_send _ _ c0) in Hin as (_ & m & _ & _ & Hm & _);
      [| apply lookup_insert_eq].
    by exists m.
Qed.

(** A socket that is not registered is sent nothing, and stays
    unregistered, as long as no session-join arrives on it. *)
Lemma unregistered_stays_silent (st : State) (evs : list Event) (w : nat) :
  ¬ registered st w →
  has_joined evs w = false →
  ¬ registered (run rejects st evs).1 w
  ∧ ∀ d, Send w d ∉ (run rejects st evs).2.
Proof.
  revert st. induction evs as [| ev evs IH]; intros st Hnot Hj.
  { split; [done |]. intros d. apply not_elem_of_nil. }
  cbn [has_joined existsb] in Hj. apply orb_false_iff in Hj as [Hev Hj].
  assert (¬ registered (step rejects st ev).1 w) as Hnot'.
  { intros [Hold | (raw & -> & Hraw)]%step_registered; [done |].
    by rewrite bool_decide_eq_true_2, Hraw in Hev. }
  destruct (IH _ Hnot' Hj) as [Hreg Hsilent].
  rewrite run_cons. cbn zeta. cbn [fst snd]. split; [done |].
  intros d [Hin | Hin]%elem_of_app.
  - by apply (unregistered_gets_nothing st ev w d).
  - by apply (Hsilent d).
Qed.

(** X2. A second connection of the same user takes over the registry
    entry, and the close of either connection deletes that entry: when one
    of two connections bound to the same user closes, the user has no
    registry entry any more, the surviving connection is untouched, but it
    is registered under no key, and whatever events follow, nothing is sent
    to it as long as it does not send a session-join again. *)
Theorem stale_close_silences_twin (st : State) (ws1 ws2 : nat)
    (c1 c2 : Conn) :
  registry_ok st →
  ws1 ≠ ws2 →
  conns st !! ws1 = Some c1 →
  conns st !! ws2 = Some c2 →
  readyState c1 ≠ CLOSED →
  truthy (userId c1) = true →
  userId c2 = userId c1 →
  let st' := (step rejects st (Close ws1)).1 in
  connectedClients st' !! userId c1 = None
  ∧ conns st' !! ws2 = Some c2
  ∧ ¬ registered st' ws2
  ∧ ∀ evs d, has_joined evs ws2 = false →
      Send ws2 d ∉ (run rejects st' evs).2.
Proof.
  intros Hreg Hne Hc1 Hc2 Hopen Hu Hsame st'.
  assert (connectedClients st' = delete (userId c1) (connectedClients st)
          ∧ conns st' = <[ws1 := mkConn (userId c1) (sessionId c1) CLOSED]>
                          (conns st)) as [Hreg' Hconns'].
  { subst st'. rewrite (step_close_live _ _ _ c1) by done.
    pose proof (on_close_frame rejects ws1
                  (mkConn (userId c1) (sessionId c1) CLOSED)
                  (with_conn ws1 (mkConn (userId c1) (sessionId c1) CLOSED) st))
      as (H1 & H2 & _); [apply lookup_insert_eq |].
    cbn zeta in *. cbn [userId] in H2. rewrite Hu in H2. done. }
  assert (¬ registered st' ws2) as Hnot.
  { intros [m Hm]. rewrite Hreg' in Hm.
    apply lookup_delete_Some in Hm as [Hm1 Hm2].
    destruct (Hreg _ _ Hm2) as (c & Hc & Hcu & _).
    congruence. }
  split_and!.
  - rewrite Hreg'. apply lookup_delete_eq.
  - rewrite Hconns'. by rewrite lookup_insert_ne.
  - done.
  - intros evs d Hj. by apply unregistered_stays_silent.
Qed.

(** X3. In every state reached from the empty tables by traffic that
    carries truthy user ids, a registered socket belongs to a connection that
    is known and not closed and whose bound user is the key it is registered
    under, so a socket is registered under at most one user; and no
    membership set lists a user twice. *)
Theorem reachable_tables_consistent (evs : list Event) :
  Forall (λ ev, wf_event ev = true) evs →
  let st := (run rejects init evs).1 in
  (∀ m w, connectedClients st !! m = Some w →
     ∃ c, conns st !! w = Some c ∧ userId c = m ∧ truthy m = true
          ∧ readyState c ≠ CLOSED)
  ∧ (∀ m1 m2 w, connectedClients st !! m1 = Some w →
       connectedClients st !! m2 = Some w → m1 = m2)
  ∧ (∀ sid, NoDup (members st sid)).
Proof.
  intros Hwf st.
  destruct (run_invariants rejects init evs Hwf init_invariants)
    as [Hreg Hsets]. fold st in Hreg, Hsets.
  split_and!.
  - apply Hreg.
  - intros m1 m2 w (c1 & Hc1 & <- & _)%Hreg (c2 & Hc2 & <- & _)%Hreg.
    congruence.
  - intros sid. unfold members.
    destruct (sessionClients st !! sid) as [l|] eqn:Hl; [| constructor].
    by apply (Hsets sid).
Qed.

Lemma step_members (st : State) (ev : Event) (sid x : JsVal) :
  x ∈ members (step rejects st ev).1 sid →
  x ∈ members st sid
  ∨ ∃ ws data, ev = Message ws (Parsed data)
               ∧ msg_type data = Some SESSION_JOIN
               ∧ msg_sessionId data = sid.
Proof.
  destruct ev as [ws | ws raw | ws | ws]; cbn.
  - destruct (conns st !! ws); by left.
  - destruct (conns st !! ws) as [c|] eqn:Hc; [| by left].
    case_decide; [by left |].
    destruct (is_join raw) eqn:Hj.
    + destruct raw as [| data]; [done |].
      cbn in Hj. apply bool_decide_eq_true in Hj.
      destruct (decide (msg_sessionId data = sid)) as [<- | Hne].
      { right. by exists ws, data. }
      rewrite (on_message_join _ _ c) by done. cbn. unfold members. cbn.
      unfold members_add.
      destruct (sessionClients st !! msg_sessionId data) eqn:Hl.
      * rewrite Hl. rewrite lookup_insert_ne by done. by left.
      * rewrite lookup_insert_eq. rewrite !lookup_insert_ne by done. by left.
    + pose proof (on_message_other_frame rejects ws raw st Hj) as Hfr.
      cbn zeta in Hfr. destruct Hfr as [_ Hsub]. left. by apply Hsub.
  - destruct (conns st !! ws); [case_decide |]; by left.
  - destruct (conns st !! ws) as [c|] eqn:Hc; [| by left].
    case_decide; [by left |].
    set (c0 := mkConn (userId c) (sessionId c) CLOSED).
    pose proof (on_close_frame rejects ws c0 (with_conn ws c0 st))
      as (_ & _ & H3); [apply lookup_insert_eq |].
    cbn zeta in H3. unfold members. intros Hx. left.
    destruct (sessionClients (on_close rejects ws (with_conn ws c0 st)).1
                !! sid) as [l|] eqn:Hl; [| by apply elem_of_nil in Hx].
    destruct (H3 _ _ Hl) as [Hsame | (l0 & Hl0 & ->)]; cbn in *.
    + by rewrite Hsame.
    + rewrite Hl0. cbn. by apply elem_of_set_delete in Hx as [_ ?].
Qed.

(** X4. Membership comes from joins only: if, after any traffic at all, a
    session's membership set is not empty, then some connection has sent a
    session-join naming that session. *)
Theorem members_only_after_join (evs : list Event) (sid x : JsVal) :
  x ∈ members (run rejects init evs).1 sid →
  ∃ ws data, Message ws (Parsed data) ∈ evs
             ∧ msg_type data = Some SESSION_JOIN
             ∧ msg_sessionId data = sid.
Proof.
  induction evs as [| ev evs IH] using rev_ind.
  - unfold members. cbn. rewrite lookup_empty. by intros ?%elem_of_nil.
  - rewrite run_snoc.
    intros [Hold | (ws & data & -> & Hty & Hsid)]%step_members.
    + destruct (IH Hold) as (ws & data & Hin & ?).
      exists ws, data. split; [| done]. apply elem_of_app. by left.
    + exists ws, data. split; [| done].
      apply elem_of_app. right. apply list_elem_of_here.
Qed.

End Relay_more.

Section Relay_paths.

Variable rejects : StorageCall → bool.

Lemma omap_ext_in {A B} (f g : A → option B) (l : list A) :
  (∀ x, x ∈ l → f x = g x) → omap f l = omap g l.
Proof.
  induction l as [| x l IH]; intros Hfg; [done |]. cbn.
  rewrite (Hfg x) by apply list_elem_of_here.
  rewrite IH; [done |]. intros y Hy. apply Hfg. by apply list_elem_of_further.
Qed.

(** Skipping the sender in the loop is the same as looping over the set
    without the sender. *)
Lemma recipients_set_delete (st : State) (l : list JsVal) (u : JsVal) :
  recipients st l u = omap (open_client st) (set_delete u l).
Proof.
  unfold recipients, set_delete.
  induction l as [| x l IH]; [done |].
  destruct (decide (x = u)) as [-> | Hne].
  - rewrite filter_cons_False by (by intros ?).
    cbn [omap list_omap]. by rewrite decide_True.
  - rewrite filter_cons_True by done.
    cbn [omap list_omap]. rewrite decide_False by done. by rewrite IH.
Qed.

Lemma calls_other_end (sid sid' : JsVal) (b : bool) (tail : list Effect) :
  sid ≠ sid' →
  calls (EndSession sid)
    ([Call (EndSession sid')] ++ (if b then tail else [])) =
  calls (EndSession sid) (if b then tail else []).
Proof. intros Hne. cbn. apply calls_cons_ne. congruence. Qed.

(** What the session block of the close handler does, spelled out. *)
Lemma close_session_shape (c : Conn) (st : State) :
  truthy (sessionId c) = true →
  let sc := members_delete (sessionId c) (userId c) (sessionClients st) in
  let st' := with_sessionClients sc st in
  (close_session rejects c st).1 = st'
  ∧ filter is_send (close_session rejects c st).2
    = (λ w, Send w (leaveMsg (sessionId c) (userId c)))
        <$> omap (open_client st') (default [] (sc !! sessionId c))
  ∧ calls (EndSession (sessionId c)) (close_session rejects c st).2
    = match sc !! sessionId c with
      | Some [] => 1%nat
      | _ => 0%nat
      end
  ∧ ∀ sid, sid ≠ sessionId c →
      calls (EndSession sid) (close_session rejects c st).2 = 0%nat.
Proof.
  intros Hs. cbn zeta. unfold close_session. rewrite Hs.
  destruct (members_delete _ _ _ !! sessionId c) as [l|] eqn:Hl; cbn [default].
  - set (sends := (λ w, Send w _) <$> _).
    assert (filter is_send sends = sends) as Hsends
      by apply filter_is_send_sends.
    assert (∀ k, calls k sends = 0%nat) as Hcalls
      by (intros k; apply calls_sends).
    destruct l as [| x l]; cbn [fst snd].
    + split_and!; [done | | |].
      * rewrite filter_app, Hsends. cbn [app].
        rewrite filter_cons_False by (cbn; tauto).
        destruct (rejects _);
          [rewrite filter_cons_False by (cbn; tauto) |];
          by rewrite filter_nil, app_nil_r.
      * rewrite calls_app, Hcalls. cbn [app]. rewrite calls_cons_eq.
        destruct (rejects _); by rewrite ?calls_cons_ne by congruence.
      * intros sid Hne. rewrite calls_app, Hcalls. cbn [app].
        rewrite calls_cons_ne by congruence.
        destruct (rejects _); by rewrite ?calls_cons_ne by congruence.
    + split_and!; [done | done | apply Hcalls | intros; apply Hcalls].
  - done.
Qed.

(** The close handler of a bound connection when the user store answers:
    calls into the user store, then the session block run on tables that
    differ from the ones before only by the deleted registry entry and the
    user row. *)
Lemma on_close_shape (ws : nat) (c : Conn) (st : State) :
  conns st !! ws = Some c →
  truthy (userId c) = true →
  rejects (GetUser (userId c)) = false →
  rejects (UpdateUser (userId c) false) = false →
  ∃ st0 pre,
    on_close rejects ws st
    = ((close_session rejects c st0).1,
       pre ++ (close_session rejects c st0).2)
    ∧ sessionClients st0 = sessionClients st
    ∧ conns st0 = conns st
    ∧ connectedClients st0 = delete (userId c) (connectedClients st)
    ∧ filter is_send pre = []
    ∧ ∀ sid, calls (EndSession sid) pre = 0%nat.
Proof.
  intros Hc Hu Hg Hup. unfold on_close. rewrite Hc, Hu, Hg.
  set (st1 := mkState _ _ _ _).
  destruct (getUser st1 (userId c)).
  - rewrite Hup. cbn zeta.
    pose proof (updateUser_tables (userId c) false st1) as (U1 & U2 & U3).
    exists (updateUser (userId c) false st1),
      [Call (GetUser (userId c)); Call (UpdateUser (userId c) false)].
    split_and!; [done | by rewrite U2 | by rewrite U3 | by rewrite U1
                | done |].
    intros sid. by rewrite !calls_cons_ne by congruence.
  - cbn zeta. exists st1, [Call (GetUser (userId c))].
    split_and!; [done | done | done | done | done |].
    intros sid. by rewrite !calls_cons_ne by congruence.
Qed.

(** The message handler on a session-leave of a bound, joined connection,
    spelled out. *)
Lemma on_message_leave_shape (ws : nat) (c : Conn) (data : WebSocketMessage)
    (st : State) :
  conns st !! ws = Some c →
  msg_type data = Some SESSION_LEAVE →
  truthy (userId c) = true →
  truthy (sessionId c) = true →
  let sc := members_delete (sessionId c) (userId c) (sessionClients st) in
  let r := on_message rejects ws (Parsed data) st in
  sessionClients r.1 = sc
  ∧ filter is_send r.2 = (λ w, Send w data) <$> fanout st c
  ∧ calls (EndSession (sessionId c)) r.2
    = match sc !! sessionId c with
      | Some [] => 1%nat
      | _ => 0%nat
      end.
Proof.
  intros Hc Hty Hu Hs. cbn zeta.
  rewrite (on_message_other _ _ c) by congruence. cbn zeta. cbn [fst snd].
  rewrite bind_userId_bound by done.
  pose proof (dispatch_frame rejects (with_conn ws c st) c data)
    as (_ & _ & _ & Hsend).
  rewrite !filter_app, Hsend, broadcast_sends, filter_is_send_sends.
  rewrite (fanout_with_conn _ c) by done.
  rewrite !calls_app, calls_sends, calls_log.
  unfold dispatch. rewrite Hty, Hs, Hu. cbn [andb sessionClients with_conn].
  destruct (members_delete _ _ _ !! sessionId c) as [[| x l]|]; cbn.
  - split_and!; [done | |].
    + destruct (rejects _);
        [rewrite filter_cons_False by (cbn; tauto) |];
        by rewrite filter_nil, app_nil_r.
    + by rewrite calls_cons_eq.
  - by rewrite app_nil_r.
  - by rewrite app_nil_r.
Qed.

(** X5. The two ways out of a session agree.  For a connection bound to
    user [u] that remembers session [s], the client's session-leave envelope
    and the close of the connection leave the same membership table, send
    the same leave envelope to the same sockets in the same order, and call
    [endSession(s)] the same number of times. *)
Theorem leave_and_close_agree (st : State) (ws : nat) (c : Conn) (s u : Z) :
  registry_ok st →
  conns st !! ws = Some c →
  readyState c ≠ CLOSED →
  userId c = JNum u →
  sessionId c = JNum s →
  u ≠ 0 →
  s ≠ 0 →
  rejects (GetUser (JNum u)) = false →
  rejects (UpdateUser (JNum u) false) = false →
  let bye := step rejects st (Message ws (Parsed (leaveMessage s u))) in
  let gone := step rejects st (Close ws) in
  sessionClients bye.1 = sessionClients gone.1
  ∧ filter is_send bye.2 = filter is_send gone.2
  ∧ calls (EndSession (JNum s)) bye.2 = calls (EndSession (JNum s)) gone.2.
Proof.
  intros Hreg Hc Hopen Hu Hs Hu0 Hs0 Hg Hup bye gone.
  destruct c as [cu cs cr]. cbn in Hu, Hs, Hopen. subst cu cs.
  set (c := mkConn (JNum u) (JNum s) cr) in *.
  assert (truthy (JNum u) = true) as Htu by (by apply truthy_JNum).
  assert (truthy (JNum s) = true) as Hts by (by apply truthy_JNum).
  (* the leave *)
  destruct (on_message_leave_shape ws c (leaveMessage s u) st)
    as (B1 & B2 & B3); try done.
  cbn zeta in B1, B2, B3. cbn [sessionId userId c] in B1, B2, B3.
  assert (bye = on_message rejects ws (Parsed (leaveMessage s u)) st) as Hbye
    by (subst bye; by rewrite (step_message_live _ _ _ c)).
  (* the close *)
  set (c0 := mkConn (JNum u) (JNum s) CLOSED).
  destruct (on_close_shape ws c0 (with_conn ws c0 st))
    as (st0 & pre & Heq & Hsc & Hcn & Hrg & Hpre1 & Hpre2);
    [apply lookup_insert_eq | done | done | done |].
  assert (gone = ((close_session rejects c0 st0).1,
                  pre ++ (close_session rejects c0 st0).2)) as Hgone
    by (subst gone; by rewrite (step_close_live _ _ _ c)).
  destruct (close_session_shape c0 st0 Hts) as (G1 & G2 & G3 & _).
  cbn zeta in G1, G2, G3. cbn [sessionId userId c0] in G1, G2, G3.
  rewrite Hsc in G1, G2, G3. cbn [sessionClients with_conn] in G1, G2, G3.
  cbn [userId c0 connectedClients with_conn] in Hrg.
  rewrite Hbye, Hgone. cbn [fst snd].
  rewrite B1, B2, B3, G1, filter_app, Hpre1, G2, calls_app, Hpre2, G3.
  split_and!; [done | | done].
  (* same sockets, same envelope *)
  cbn [app].
  change (leaveMsg (JNum s) (JNum u)) with (leaveMessage s u).
  f_equal. unfold fanout. cbn [sessionId userId c]. rewrite Hts.
  rewrite recipients_set_delete.
  unfold members, members_delete.
  destruct (sessionClients st !! JNum s) as [l|] eqn:Hl; cbn [default].
  2: { by rewrite Hl. }
  rewrite lookup_insert_eq. cbn [default].
  apply omap_ext_in. intros m [Hmu Hm]%elem_of_set_delete.
  unfold open_client. cbn [connectedClients with_sessionClients].
  rewrite Hrg. rewrite lookup_delete_ne by done.
  destruct (connectedClients st !! m) as [w|] eqn:Hw; [| done].
  assert (is_open (with_sessionClients
                     (<[JNum s := set_delete (JNum u) l]> (sessionClients st))
                     st0) w = is_open st w) as ->; [| done].
  unfold is_open. cbn [conns with_sessionClients]. rewrite Hcn.
  cbn [conns with_conn].
  destruct (decide (ws = w)) as [<- | Hne].
  - destruct (Hreg _ _ Hw) as (c' & Hc' & Hcu & _).
    rewrite Hc in Hc'. injection Hc' as <-. cbn in Hcu. congruence.
  - by rewrite lookup_insert_ne.
Qed.

Lemma members_add_other (sid sid' uid : JsVal)
    (sc : gmap JsVal (list JsVal)) :
  sid' ≠ sid → members_add sid uid sc !! sid' = sc !! sid'.
Proof.
  intros Hne. unfold members_add. destruct (sc !! sid); [| done].
  by rewrite lookup_insert_ne.
Qed.

Lemma members_delete_other (sid sid' uid : JsVal)
    (sc : gmap JsVal (list JsVal)) :
  sid' ≠ sid → members_delete sid uid sc !! sid' = sc !! sid'.
Proof.
  intros Hne. unfold members_delete. destruct (sc !! sid); [| done].
  by rewrite lookup_insert_ne.
Qed.

(** A message that is not a join, seen from a session other than the one
    the connection remembers. *)
Lemma on_message_elsewhere (ws : nat) (c : Conn) (raw : RawMessage)
    (st : State) (s1 : JsVal) :
  conns st !! ws = Some c →
  is_join raw = false →
  s1 ≠ sessionId c →
  let r := on_message rejects ws raw st in
  sessionClients r.1 !! s1 = sessionClients st !! s1
  ∧ calls (EndSession s1) r.2 = 0%nat
  ∧ ∃ c', conns r.1 !! ws = Some c' ∧ sessionId c' = sessionId c
          ∧ readyState c' = readyState c.
Proof.
  intros Hc Hj Hne. cbn zeta. destruct raw as [| data].
  { rewrite (on_message_unparseable _ _ c) by done. cbn.
    split_and!; [done | done |]. by exists c. }
  cbn in Hj. apply bool_decide_eq_false in Hj.
  destruct (conn_after_message rejects ws c data st Hc)
    as (c' & Hc' & _ & Hr & Hs').
  rewrite decide_False in Hs' by done.
  split_and!; [| | by exists c'].
  - rewrite (on_message_other _ _ c) by done. cbn zeta. cbn [fst].
    rewrite dispatch_other_sessions; [done |].
    by rewrite bind_userId_sessionId.
  - apply calls_absent. intros Hin.
    rewrite (on_message_other _ _ c) in Hin by done.
    cbn zeta in Hin. cbn [snd] in Hin. rewrite broadcast_sends in Hin.
    apply elem_of_app in Hin as [Hin | [Hin | Hin]%elem_of_app].
    + by apply list_elem_of_fmap in Hin as (? & ? & _).
    + apply dispatch_EndSession in Hin.
      rewrite bind_userId_sessionId in Hin. done.
    + destruct (dispatch _ _ _ _).2;
        [apply list_elem_of_singleton in Hin | apply elem_of_nil in Hin];
        done.
Qed.

Lemma on_close_elsewhere (ws : nat) (c : Conn) (st : State) (s1 : JsVal) :
  conns st !! ws = Some c →
  s1 ≠ sessionId c →
  let r := on_close rejects ws st in
  sessionClients r.1 !! s1 = sessionClients st !! s1
  ∧ calls (EndSession s1) r.2 = 0%nat.
Proof.
  intros Hc Hne. cbn zeta. unfold on_close. rewrite Hc.
  assert (∀ st0 : State,
            sessionClients st0 = sessionClients st →
            sessionClients (close_session rejects c st0).1 !! s1
            = sessionClients st !! s1
            ∧ calls (EndSession s1) (close_session rejects c st0).2 = 0%nat)
    as Hcs.
  { intros st0 Hsc. destruct (truthy (sessionId c)) eqn:Hs.
    - destruct (close_session_shape c st0 Hs) as (-> & _ & _ & Hcalls).
      cbn. rewrite members_delete_other by done. rewrite Hsc.
      split; [done |]. by apply Hcalls.
    - unfold close_session. rewrite Hs. cbn. by rewrite Hsc. }
  destruct (truthy (userId c)); [| done].
  destruct (rejects (GetUser (userId c))).
  { cbn. split; [done |]. by rewrite !calls_cons_ne by congruence. }
  set (st1 := mkState _ _ _ _).
  destruct (getUser st1 (userId c)).
  - destruct (rejects (UpdateUser (userId c) false)).
    { cbn. split; [done |]. by rewrite !calls_cons_ne by congruence. }
    cbn zeta. cbn [fst snd].
    pose proof (updateUser_tables (userId c) false st1) as (_ & U2 & _).
    destruct (Hcs (updateUser (userId c) false st1) U2) as [H1 H2].
    split; [done |].
    rewrite calls_app, H2. by rewrite !calls_cons_ne by congruence.
  - cbn zeta. cbn [fst snd]. destruct (Hcs st1 eq_refl) as [H1 H2].
    split; [done |].
    rewrite calls_app, H2. by rewrite !calls_cons_ne by congruence.
Qed.

Lemma elsewhere_tail (ws : nat) (s1 : JsVal) (raws : list RawMessage)
    (st : State) (c : Conn) :
  conns st !! ws = Some c →
  s1 ≠ sessionId c →
  Forall (λ raw, is_join raw = false) raws →
  let r := run rejects st ((Message ws <$> raws) ++ [Close ws]) in
  sessionClients r.1 !! s1 = sessionClients st !! s1
  ∧ calls (EndSession s1) r.2 = 0%nat.
Proof.
  intros Hc Hne Hall. revert st c Hc Hne.
  induction Hall as [| raw raws Hraw _ IH]; intros st c Hc Hne.
  - cbn [fmap list_fmap app]. rewrite run_cons. cbn zeta. cbn [run fst snd].
    rewrite app_nil_r. cbn [step]. rewrite Hc.
    case_decide; [done |].
    set (c0 := mkConn (userId c) (sessionId c) CLOSED).
    destruct (on_close_elsewhere ws c0 (with_conn ws c0 st) s1) as [H1 H2];
      [apply lookup_insert_eq | done |].
    done.
  - rewrite fmap_cons. cbn [app]. rewrite run_cons. cbn zeta. cbn [fst snd].
    assert (∃ c', let r := step rejects st (Message ws raw) in
              sessionClients r.1 !! s1 = sessionClients st !! s1
              ∧ calls (EndSession s1) r.2 = 0%nat
              ∧ conns r.1 !! ws = Some c' ∧ sessionId c' = sessionId c)
      as (c' & H1 & H2 & Hc' & Hs').
    { cbn [step]. rewrite Hc. case_decide.
      - by exists c.
      - destruct (on_message_elsewhere ws c raw st s1)
          as (? & ? & c' & ? & ? & _); try done.
        by exists c'. }
    cbn zeta in *.
    destruct (IH _ c' Hc') as [I1 I2]; [by rewrite Hs' |].
    rewrite calls_app, H2, I2, I1, H1. done.
Qed.

(** X6. Joining another session does not leave the first one.  Once a
    connection has joined session [s2], neither its later events nor its
    close touch the membership set of any other session [s1], and
    [endSession(s1)] is not called: a user who had joined [s1] on this
    connection before stays in the membership set of [s1] after the
    connection is gone. *)
Theorem joining_elsewhere_keeps_old_membership (st : State) (ws : nat)
    (c : Conn) (data : WebSocketMessage) (raws : list RawMessage)
    (s1 : JsVal) :
  conns st !! ws = Some c →
  readyState c ≠ CLOSED →
  msg_type data = Some SESSION_JOIN →
  msg_sessionId data ≠ s1 →
  Forall (λ raw, is_join raw = false) raws →
  let r := run rejects st
             (Message ws (Parsed data) :: (Message ws <$> raws)
                ++ [Close ws]) in
  sessionClients r.1 !! s1 = sessionClients st !! s1
  ∧ members r.1 s1 = members st s1
  ∧ calls (EndSession s1) r.2 = 0%nat.
Proof.
  intros Hc Hopen Hty Hne Hall r.
  enough (sessionClients r.1 !! s1 = sessionClients st !! s1
          ∧ calls (EndSession s1) r.2 = 0%nat) as [H1 H2]
    by (unfold members; by rewrite H1).
  subst r. rewrite run_cons. cbn zeta. cbn [fst snd].
  rewrite (step_message_live _ _ _ c) by done.
  destruct (conn_after_message rejects ws c data st Hc)
    as (c' & Hc' & _ & _ & Hs').
  rewrite decide_True in Hs' by done.
  destruct (elsewhere_tail ws s1 raws
              (on_message rejects ws (Parsed data) st).1 c') as [T1 T2];
    [done | by rewrite Hs' | done |].
  cbn zeta in T1, T2. rewrite calls_app, T1, T2.
  rewrite (on_message_join _ _ c) by done. cbn zeta. cbn [fst snd].
  rewrite broadcast_sends, calls_sends. split; [| done].
  cbn. rewrite members_add_other by done.
  destruct (sessionClients st !! msg_sessionId data); [done |].
  by rewrite lookup_insert_ne.
Qed.

End Relay_paths.

(** * Further properties: the storage, the routes and the client *)

(** ** A [Map] in insertion order *)

Section JsMap_facts.

Context {V : Type}.

Implicit Types (m : JsMap.t V) (k : Z) (v : V).

Lemma jsmap_get_set_eq k v m : JsMap.get k (JsMap.set k v m) = Some v.
Proof.
  induction m as [| [k' v'] m IH]; cbn.
  - by rewrite decide_True.
  - destruct (decide (k' = k)) as [-> | Hne]; cbn.
    + by rewrite decide_True.
    + by rewrite decide_False.
Qed.

Lemma jsmap_get_set_ne k k' v m :
  k ≠ k' → JsMap.get k' (JsMap.set k v m) = JsMap.get k' m.
Proof.
  intros Hne. induction m as [| [k0 v0] m IH]; cbn.
  - by rewrite decide_False.
  - destruct (decide (k0 = k)) as [-> | Hne0]; cbn.
    + by rewrite !decide_False.
    + by rewrite IH.
Qed.

Lemma jsmap_get_None k m : JsMap.get k m = None ↔ k ∉ JsMap.keys m.
Proof.
  unfold JsMap.keys. induction m as [| [k' v'] m IH]; cbn.
  - split; [intros _; apply not_elem_of_nil | done].
  - rewrite not_elem_of_cons. destruct (decide (k' = k)) as [-> | Hne].
    + split; [done | by intros [? _]].
    + rewrite IH. split; [by intros ?; split | by intros [_ ?]].
Qed.

Lemma jsmap_get_Some_in k v m : JsMap.get k m = Some v → (k, v) ∈ m.
Proof.
  induction m as [| [k' v'] m IH]; cbn; [done |].
  destruct (decide (k' = k)) as [-> | Hne].
  - intros [= ->]. apply list_elem_of_here.
  - intros ?. by apply list_elem_of_further, IH.
Qed.

Lemma jsmap_in_get k v m :
  NoDup (JsMap.keys m) → (k, v) ∈ m → JsMap.get k m = Some v.
Proof.
  unfold JsMap.keys. induction m as [| [k' v'] m IH]; cbn.
  - by intros _ ?%elem_of_nil.
  - intros [Hk Hnd]%NoDup_cons [[= -> ->] | Hin]%elem_of_cons.
    + by rewrite decide_True.
    + rewrite decide_False; [by apply IH |].
      intros ->. apply Hk. apply list_elem_of_fmap. by exists (k, v).
Qed.

(** Setting a new key appends. *)
Lemma jsmap_set_new k v m :
  JsMap.get k m = None → JsMap.set k v m = m ++ [(k, v)].
Proof.
  induction m as [| [k' v'] m IH]; cbn; [done |].
  destruct (decide (k' = k)); [done |]. intros ?. by rewrite IH.
Qed.

(** Setting an existing key keeps every key where it is. *)
Lemma jsmap_keys_set_old k v m :
  is_Some (JsMap.get k m) → JsMap.keys (JsMap.set k v m) = JsMap.keys m.
Proof.
  unfold JsMap.keys. induction m as [| [k' v'] m IH]; cbn.
  - by intros [? ?].
  - destruct (decide (k' = k)) as [-> | Hne]; cbn; [done |].
    intros ?. by rewrite IH.
Qed.

Lemma jsmap_set_set k v1 v2 m :
  JsMap.set k v2 (JsMap.set k v1 m) = JsMap.set k v2 m.
Proof.
  induction m as [| [k' v'] m IH]; cbn.
  - by rewrite decide_True.
  - destruct (decide (k' = k)) as [-> | Hne]; cbn.
    + by rewrite decide_True.
    + rewrite decide_False by done. by rewrite IH.
Qed.

Lemma jsmap_set_same k v m :
  JsMap.get k m = Some v → JsMap.set k v m = m.
Proof.
  induction m as [| [k' v'] m IH]; cbn; [done |].
  destruct (decide (k' = k)) as [-> | Hne].
  - by intros [= ->].
  - intros ?. by rewrite IH.
Qed.

(** The values after overwriting the row of an existing key: the same
    list with that one row replaced, for any way [f] of telling the rows
    apart that agrees with the keys. *)
Lemma jsmap_values_set_old (idf : V → Z) k v m :
  MemStorage.row_ids idf m →
  NoDup (JsMap.keys m) →
  is_Some (JsMap.get k m) →
  JsMap.values (JsMap.set k v m)
  = (λ x, if decide (idf x = k) then v else x) <$> JsMap.values m.
Proof.
  unfold JsMap.values, JsMap.keys, MemStorage.row_ids.
  induction m as [| [k' v'] m IH]; cbn.
  - by intros _ _ [? ?].
  - intros Hrows [Hk Hnd]%NoDup_cons Hsome.
    assert (idf v' = k') as Hv' by (apply Hrows, list_elem_of_here).
    assert (∀ k0 v0, (k0, v0) ∈ m → idf v0 = k0) as Hrows'
      by (intros ???; by apply Hrows, list_elem_of_further).
    destruct (decide (k' = k)) as [-> | Hne]; cbn.
    + rewrite decide_True by done. f_equal.
      clear IH Hsome Hrows. induction m as [| [k1 v1] m IH]; [done |].
      cbn in *. apply not_elem_of_cons in Hk as [Hk1 Hk].
      apply NoDup_cons in Hnd as [_ Hnd].
      rewrite decide_False.
      * f_equal. apply IH; [done | done |].
        intros ???. by apply Hrows', list_elem_of_further.
      * rewrite (Hrows' k1 v1) by apply list_elem_of_here. done.
    + rewrite decide_False by congruence. f_equal. by apply IH.
Qed.

Lemma jsmap_delete_get k m : JsMap.get k (JsMap.delete k m).2 = None.
Proof.
  unfold JsMap.delete. cbn [snd].
  induction m as [| [k' v'] m IH]; [done |].
  destruct (decide (k' = k)) as [-> | Hne].
  - by rewrite filter_cons_False by (by intros ?).
  - rewrite filter_cons_True by done. cbn [JsMap.get].
    by rewrite decide_False.
Qed.

Lemma jsmap_delete_get_ne k k' m :
  k ≠ k' → JsMap.get k' (JsMap.delete k m).2 = JsMap.get k' m.
Proof.
  intros Hne. unfold JsMap.delete. cbn [snd].
  induction m as [| [k0 v0] m IH]; [done |].
  destruct (decide (k0 = k)) as [-> | Hne0].
  - rewrite filter_cons_False by (by intros ?). cbn [JsMap.get].
    by rewrite decide_False.
  - rewrite filter_cons_True by done. cbn [JsMap.get]. by rewrite IH.
Qed.

Lemma jsmap_delete_absent k m :
  JsMap.get k m = None → JsMap.delete k m = (false, m).
Proof.
  intros Hn. unfold JsMap.delete. rewrite Hn. f_equal.
  apply jsmap_get_None in Hn. unfold JsMap.keys in Hn.
  induction m as [| [k' v'] m IH]; [done |].
  cbn in Hn. apply not_elem_of_cons in Hn as [Hne Hn].
  rewrite filter_cons_True by (cbn; congruence). by rewrite IH.
Qed.

Lemma jsmap_delete_sub k m x : x ∈ (JsMap.delete k m).2 → x ∈ m.
Proof.
  unfold JsMap.delete. cbn [snd]. by intros [_ ?]%list_elem_of_filter.
Qed.

Lemma jsmap_delete_keys k m :
  JsMap.keys (JsMap.delete k m).2 = filter (λ k', k' ≠ k) (JsMap.keys m).
Proof.
  unfold JsMap.keys, JsMap.delete. cbn [snd].
  induction m as [| [k' v'] m IH]; [done |].
  rewrite fmap_cons. cbn [fst]. destruct (decide (k' = k)) as [-> | Hne].
  - rewrite !filter_cons_False by (by intros ?). done.
  - rewrite !filter_cons_True by done. rewrite fmap_cons. by rewrite IH.
Qed.

Lemma jsmap_values_delete (idf : V → Z) k m :
  MemStorage.row_ids idf m →
  JsMap.values (JsMap.delete k m).2
  = filter (λ x, idf x ≠ k) (JsMap.values m).
Proof.
  unfold JsMap.values, MemStorage.row_ids, JsMap.delete. cbn [snd].
  induction m as [| [k' v'] m IH]; intros Hrows; [done |].
  assert (idf v' = k') as Hv' by (apply Hrows, list_elem_of_here).
  rewrite fmap_cons. cbn [snd].
  destruct (decide (k' = k)) as [-> | Hne].
  - rewrite !filter_cons_False by (cbn; intros ?; congruence).
    apply IH. intros ???. by apply Hrows, list_elem_of_further.
  - rewrite !filter_cons_True by (cbn; congruence).
    rewrite fmap_cons. cbn [snd]. f_equal.
    apply IH. intros ???. by apply Hrows, list_elem_of_further.
Qed.

End JsMap_facts.

(** ** The tables of [MemStorage] *)

Section MemStorage_facts.

Import MemStorage.

Lemma jsmap_set_in {V : Type} (k k' : Z) (v v' : V) (m : JsMap.t V) :
  (k', v') ∈ JsMap.set k v m → (k', v') = (k, v) ∨ (k', v') ∈ m.
Proof.
  induction m as [| [k0 v0] m IH]; cbn.
  - intros ?%list_elem_of_singleton. by left.
  - destruct (decide (k0 = k)) as [-> | Hne].
    + intros [? | ?]%elem_of_cons; [by left |].
      right. by apply list_elem_of_further.
    + intros [-> | Hin]%elem_of_cons; [right; apply list_elem_of_here |].
      destruct (IH Hin); [by left |]. right. by apply list_elem_of_further.
Qed.

Lemma keys_below_set_new {V : Type} (m : JsMap.t V) (c : Z) (v : V) :
  keys_below m c → keys_below (JsMap.set c v m) (c + 1).
Proof.
  intros (Hc & Hnd & Hk).
  assert (JsMap.get c m = None) as Hnone.
  { apply jsmap_get_None. intros Hin. apply Hk in Hin. lia. }
  rewrite jsmap_set_new by done. unfold keys_below, JsMap.keys.
  rewrite fmap_app. cbn [fmap list_fmap fst].
  split_and!; [lia | |].
  - apply NoDup_app. split_and!; [done | | apply NoDup_singleton].
    intros k Hin ->%list_elem_of_singleton. apply Hk in Hin. lia.
  - intros k [Hin | ->%list_elem_of_singleton]%elem_of_app; [| lia].
    apply Hk in Hin. lia.
Qed.

Lemma keys_below_set_old {V : Type} (m : JsMap.t V) (c k : Z) (v : V) :
  is_Some (JsMap.get k m) → keys_below m c → keys_below (JsMap.set k v m) c.
Proof.
  intros Hsome Hkb. unfold keys_below. by rewrite jsmap_keys_set_old.
Qed.

Lemma keys_below_delete {V : Type} (m : JsMap.t V) (c k : Z) :
  keys_below m c → keys_below (JsMap.delete k m).2 c.
Proof.
  intros (Hc & Hnd & Hk). unfold keys_below. rewrite jsmap_delete_keys.
  split_and!; [done | by apply NoDup_filter |].
  intros k' [_ ?]%list_elem_of_filter. by apply Hk.
Qed.

Lemma row_ids_set {V : Type} (idf : V → Z) (m : JsMap.t V) (k : Z) (v : V) :
  idf v = k → row_ids idf m → row_ids idf (JsMap.set k v m).
Proof.
  intros Hv Hrows k' v' [[= -> ->] | Hin]%jsmap_set_in; [done |].
  by apply Hrows.
Qed.

Lemma row_ids_delete {V : Type} (idf : V → Z) (m : JsMap.t V) (k : Z) :
  row_ids idf m → row_ids idf (JsMap.delete k m).2.
Proof. intros Hrows k' v' Hin%jsmap_delete_sub. by apply Hrows. Qed.

Lemma empty_wf : wf empty.
Proof.
  unfold wf, keys_below, row_ids. cbn.
  split_and!; try lia; try apply NoDup_nil_2;
    intros; exfalso; by eapply elem_of_nil.
Qed.

Lemma exec_wf (op : Op) (s : t) : wf s → wf (exec op s).
Proof.
  intros (Hu & Hsk & Hse & Hf & Hfb & Rsk & Rse & Rf & Rfb).
  destruct op; cbn [exec].
  - unfold createUser; cbn. split_and!; try done.
    by apply keys_below_set_new.
  - unfold updateUser. destruct (getUser s id) eqn:Hg; cbn; [| done].
    split_and!; try done. apply keys_below_set_old; [| done].
    unfold getUser in Hg. by rewrite Hg.
  - unfold addSkill; cbn. split_and!; try done.
    + by apply keys_below_set_new.
    + by apply row_ids_set.
  - unfold removeSkill; cbn [fst snd skills users sessions files feedbacks
                              userIdCounter skillIdCounter sessionIdCounter
                              fileIdCounter feedbackIdCounter wf].
    split_and!; try done.
    + by apply keys_below_delete.
    + by apply row_ids_delete.
  - unfold createSession; cbn. split_and!; try done.
    + by apply keys_below_set_new.
    + by apply row_ids_set.
  - unfold endSession. destruct (getSession s id) eqn:Hg; cbn; [| done].
    split_and!; try done.
    + apply keys_below_set_old; [| done].
      unfold getSession in Hg. by rewrite Hg.
    + apply row_ids_set; [| done]. cbn.
      by apply Rse, jsmap_get_Some_in.
  - unfold createFile; cbn. split_and!; try done.
    + by apply keys_below_set_new.
    + by apply row_ids_set.
  - unfold updateFile. destruct (getFile s id) eqn:Hg; cbn; [| done].
    split_and!; try done.
    + apply keys_below_set_old; [| done].
      unfold getFile in Hg. by rewrite Hg.
    + apply row_ids_set; [| done]. cbn.
      by apply Rf, jsmap_get_Some_in.
  - unfold addFeedback; cbn. split_and!; try done.
    + by apply keys_below_set_new.
    + by apply row_ids_set.
Qed.

Lemma exec_all_wf (ops : list Op) (s : t) : wf s → wf (exec_all ops s).
Proof.
  revert s. induction ops as [| op ops IH]; intros s Hs; [done |].
  cbn. by apply IH, exec_wf.
Qed.

Lemma filter_all {A : Type} (P : A → Prop) `{∀ x, Decision (P x)}
    (l : list A) :
  (∀ x, x ∈ l → P x) → filter P l = l.
Proof.
  induction l as [| x l IH]; intros Hall; [done |].
  rewrite filter_cons_True by apply Hall, list_elem_of_here.
  f_equal. apply IH. intros ??. by apply Hall, list_elem_of_further.
Qed.

Lemma jsmap_values_in {V : Type} (idf : V → Z) (m : JsMap.t V) (x : V) :
  row_ids idf m → x ∈ JsMap.values m → (idf x, x) ∈ m.
Proof.
  intros Hrows ([k v] & -> & Hin)%list_elem_of_fmap. cbn.
  by rewrite (Hrows k v Hin).
Qed.

Lemma jsmap_values_get {V : Type} (idf : V → Z) (m : JsMap.t V) (x : V) :
  row_ids idf m → NoDup (JsMap.keys m) → x ∈ JsMap.values m →
  JsMap.get (idf x) m = Some x.
Proof.
  intros Hrows Hnd Hin. apply jsmap_in_get; [done |].
  by apply jsmap_values_in.
Qed.

Lemma active_after_end (id : Z) (upd : Session.t) (l : list Session.t) :
  Session.isActive upd = false →
  filter (λ x, Session.isActive x = true)
         ((λ x, if decide (Session.id x = id) then upd else x) <$> l)
  = filter (λ x, Session.id x ≠ id)
           (filter (λ x, Session.isActive x = true) l).
Proof.
  intros Hupd. induction l as [| y l IH]; [done |].
  rewrite fmap_cons. destruct (decide (Session.id y = id)) as [Hy | Hy].
  - rewrite filter_cons_False by congruence. rewrite IH.
    destruct (decide (Session.isActive y = true)).
    + rewrite (filter_cons_True (λ x, Session.isActive x = true)) by done.
      by rewrite filter_cons_False by (by intros ?).
    + by rewrite (filter_cons_False (λ x, Session.isActive x = true)) by done.
  - destruct (decide (Session.isActive y = true)).
    + rewrite !(filter_cons_True (λ x, Session.isActive x = true)) by done.
      rewrite filter_cons_True by done. by rewrite IH.
    + by rewrite !(filter_cons_False (λ x, Session.isActive x = true)) by done.
Qed.

(** X7. Whatever calls are made on a fresh [MemStorage], in every table
    the keys are distinct and lie between 1 and the table's counter, and
    every skill, session, file and feedback row is stored under its own
    [id]. *)
Theorem storage_stays_well_formed (ops : list Op) :
  wf (exec_all ops empty).
Proof. apply exec_all_wf, empty_wf. Qed.

Lemma exec_skill_counter (op : Op) (s : t) :
  skillIdCounter s ≤ skillIdCounter (exec op s).
Proof.
  destruct op; cbn [exec];
    unfold createUser, updateUser, addSkill, removeSkill, createSession,
      endSession, createFile, updateFile, addFeedback;
    repeat case_match; cbn; lia.
Qed.

Lemma exec_all_skill_counter (ops : list Op) (s : t) :
  skillIdCounter s ≤ skillIdCounter (exec_all ops s).
Proof.
  revert s. induction ops as [| op ops IH]; intros s; [done |].
  cbn. pose proof (exec_skill_counter op s). pose proof (IH (exec op s)).
  unfold exec_all in *. lia.
Qed.

(** X8. A skill id is never handed out twice, not even after the skill
    has been removed: a skill added later, whatever calls came in between,
    has a strictly larger id. *)
Theorem skill_ids_are_never_reused (s : t) (ops : list Op)
    (userId userId' : Z) (name name' : string) :
  let first := addSkill userId name s in
  let later := addSkill userId' name' (exec_all ops first.2) in
  Skill.id first.1 < Skill.id later.1.
Proof.
  cbn zeta. pose proof (exec_all_skill_counter ops (addSkill userId name s).2)
    as Hmono.
  unfold addSkill in *. cbn [fst snd Skill.id] in *.
  set (s1 := mk _ _ _ _ _ _ _ _ _ _) in *.
  assert (skillIdCounter s1 = skillIdCounter s + 1) as Hs1 by done.
  lia.
Qed.

(** X9. [createUser] never overwrites: on a well-formed store the new
    user gets an id no user had, is stored offline under that id whatever
    the caller sent, comes last in [listUsers], and every other user is
    found as before. *)
Theorem createUser_is_fresh (insertUser : InsertUser.t) (s : t) :
  wf s →
  let r := createUser insertUser s in
  getUser s (User.id r.1) = None
  ∧ getUser r.2 (User.id r.1) = Some r.1
  ∧ User.isOnline r.1 = false
  ∧ (∀ id, id ≠ User.id r.1 → getUser r.2 id = getUser s id)
  ∧ listUsers r.2 = listUsers s ++ [r.1].
Proof.
  intros ((Hc & Hnd & Hk) & _). cbn zeta.
  assert (JsMap.get (userIdCounter s) (users s) = None) as Hnone.
  { apply jsmap_get_None. intros Hin. apply Hk in Hin. lia. }
  unfold createUser, getUser, listUsers. cbn [fst snd users User.id].
  split_and!.
  - done.
  - apply jsmap_get_set_eq.
  - done.
  - intros id Hne. by apply jsmap_get_set_ne.
  - rewrite jsmap_set_new by done. unfold JsMap.values.
    by rewrite fmap_app.
Qed.

(** X10. Ending a session twice is the same as ending it once at the later
    time: the second [endSession] returns the same row and leaves the same
    store as if the first had never happened, so only [endedAt] tells how
    often a session was ended. *)
Theorem endSession_absorbs (id : Z) (t1 t2 : nat) (s : t) :
  endSession id t2 (endSession id t1 s).2 = endSession id t2 s.
Proof.
  unfold endSession at 2 3. destruct (getSession s id) as [x|] eqn:Hg.
  - cbn [snd]. unfold endSession, getSession. cbn [sessions with_sessions].
    rewrite jsmap_get_set_eq. cbn.
    unfold with_sessions. cbn. by rewrite jsmap_set_set.
  - cbn [snd]. unfold endSession. by rewrite Hg.
Qed.

(** X11. [endSession] takes exactly one session out of
    [findActiveSessions]: on a well-formed store the active sessions
    afterwards are the active sessions before without the one ended, in the
    same order; every other session is found as before; the ended row keeps
    everything but [isActive] and [endedAt]; an unknown id changes
    nothing. *)
Theorem endSession_deactivates (id : Z) (now : nat) (s : t) :
  wf s →
  let r := endSession id now s in
  findActiveSessions r.2
  = filter (λ x, Session.id x ≠ id) (findActiveSessions s)
  ∧ (∀ id', id' ≠ id → getSession r.2 id' = getSession s id')
  ∧ match getSession s id with
    | Some x =>
        r.1 = getSession r.2 id
        ∧ r.1 = Some (Session.mk (Session.id x) (Session.createdAt x)
                        (Some now) (Session.creatorId x)
                        (Session.partnerId x) false (Session.language x))
    | None => r = (None, s)
    end.
Proof.
  intros (_ & _ & (_ & Hnd & _) & _ & _ & _ & Rse & _). cbn zeta.
  unfold endSession, findActiveSessions.
  destruct (getSession s id) as [x|] eqn:Hg; cbn [fst snd].
  - unfold getSession in *. cbn [sessions with_sessions].
    split_and!.
    + rewrite (jsmap_values_set_old Session.id) by (done || by rewrite Hg).
      by apply active_after_end.
    + intros id' Hne. by apply jsmap_get_set_ne.
    + by rewrite jsmap_get_set_eq.
    + done.
  - split_and!; [| done | done].
    symmetry. apply filter_all.
    intros x [_ Hx]%list_elem_of_filter Hid.
    apply (jsmap_values_get Session.id) in Hx; [| done | done].
    unfold getSession in Hg. rewrite Hid in Hx. congruence.
Qed.

Lemma filter_fmap_stable {A : Type} (P : A → Prop) `{∀ x, Decision (P x)}
    (g : A → A) (l : list A) :
  (∀ x, P (g x) ↔ P x) → filter P (g <$> l) = g <$> filter P l.
Proof.
  intros Hg. induction l as [| x l IH]; [done |].
  rewrite fmap_cons. destruct (decide (P x)) as [Hx | Hx].
  - rewrite !filter_cons_True by (done || by apply Hg).
    by rewrite fmap_cons, IH.
  - rewrite !filter_cons_False by (done || by rewrite Hg). done.
Qed.

Lemma filter_comm {A : Type} (P Q : A → Prop) `{∀ x, Decision (P x)}
    `{∀ x, Decision (Q x)} (l : list A) :
  filter P (filter Q l) = filter Q (filter P l).
Proof.
  rewrite !list_filter_filter. apply list_filter_iff. intros x. tauto.
Qed.

(** X12. The last write wins: [updateFile] after an earlier [updateFile]
    of the same file returns the same row and leaves the same store as if
    the earlier one had not happened. *)
Theorem updateFile_absorbs (id : Z) (c1 c2 : option string) (t1 t2 : nat)
    (s : t) :
  updateFile id c2 t2 (updateFile id c1 t1 s).2 = updateFile id c2 t2 s.
Proof.
  unfold updateFile at 2 3. destruct (getFile s id) as [x|] eqn:Hg.
  - cbn [snd]. unfold updateFile, getFile. cbn [files with_files].
    rewrite jsmap_get_set_eq. cbn.
    unfold with_files. cbn. by rewrite jsmap_set_set.
  - cbn [snd]. unfold updateFile. by rewrite Hg.
Qed.

(** X13. [updateFile] rewrites one row and nothing else: on a well-formed
    store every session's file list keeps its files and their order, only
    the file with the given id has its [content] and [updatedAt] replaced;
    the row returned is the row stored; an unknown id returns [undefined]
    and changes nothing. *)
Theorem updateFile_rewrites_one_file (id : Z) (content : option string)
    (now : nat) (s : t) :
  wf s →
  let r := updateFile id content now s in
  let upd f := File.mk (File.id f) (File.sessionId f) (File.name f) content
                 (File.language f) (File.createdAt f) now in
  (∀ sid, getSessionFiles r.2 sid
          = (λ f, if decide (File.id f = id) then upd f else f)
              <$> getSessionFiles s sid)
  ∧ (∀ id', id' ≠ id → getFile r.2 id' = getFile s id')
  ∧ r.1 = upd <$> getFile s id
  ∧ getFile r.2 id = r.1
  ∧ (getFile s id = None → r.2 = s).
Proof.
  intros (_ & _ & _ & (_ & Hnd & _) & _ & _ & _ & Rf & _). cbn zeta.
  unfold updateFile, getSessionFiles.
  destruct (getFile s id) as [x|] eqn:Hg; cbn [fst snd].
  - unfold getFile in *. cbn [files with_files]. split_and!.
    + intros sid.
      rewrite (jsmap_values_set_old File.id) by (done || by rewrite Hg).
      rewrite <- filter_fmap_stable by (intros f; by case_decide).
      f_equal. apply list_fmap_ext. intros i f Hf.
      case_decide as Hid; [| done].
      apply list_elem_of_lookup_2 in Hf.
      apply (jsmap_values_get File.id) in Hf; [| done | done].
      rewrite Hid in Hf. congruence.
    + intros id' Hne. by apply jsmap_get_set_ne.
    + done.
    + by rewrite jsmap_get_set_eq.
    + done.
  - split_and!; try done.
    intros sid. rewrite <- (list_fmap_id (filter _ _)) at 1.
    apply list_fmap_ext. intros i f Hf. case_decide as Hid; [| done].
    apply list_elem_of_lookup_2, list_elem_of_filter in Hf as [_ Hf].
    apply (jsmap_values_get File.id) in Hf; [| done | done].
    unfold getFile in Hg. rewrite Hid in Hf. congruence.
Qed.

(** X14. [removeSkill] answers [true] exactly when some user had a skill
    with that id; on a well-formed store every user's skill list then loses
    that skill and nothing else, in the same order, and removing the same
    id again answers [false] and changes nothing. *)
Theorem removeSkill_reports (id : Z) (s : t) :
  wf s →
  let r := removeSkill id s in
  (r.1 = true ↔ ∃ u sk, sk ∈ getUserSkills s u ∧ Skill.id sk = id)
  ∧ (∀ u, getUserSkills r.2 u
          = filter (λ sk, Skill.id sk ≠ id) (getUserSkills s u))
  ∧ removeSkill id r.2 = (false, r.2).
Proof.
  intros (_ & (_ & Hnd & _) & _ & _ & _ & Rsk & _). cbn zeta.
  unfold removeSkill, getUserSkills. cbn [fst snd skills].
  split_and!.
  - unfold JsMap.delete. cbn [fst]. rewrite bool_decide_eq_true. split.
    + intros [sk Hsk]. exists (Skill.userId sk), sk.
      apply jsmap_get_Some_in in Hsk as Hin. split; [| by apply Rsk in Hin].
      apply list_elem_of_filter. split; [done |].
      apply list_elem_of_fmap. by exists (id, sk).
    + intros (u & sk & [_ Hin]%list_elem_of_filter & Hid).
      apply (jsmap_values_get Skill.id) in Hin; [| done | done].
      rewrite Hid in Hin. by exists sk.
  - intros u. rewrite (jsmap_values_delete Skill.id) by done.
    apply filter_comm.
  - rewrite jsmap_delete_absent by apply jsmap_delete_get. done.
Qed.

End MemStorage_facts.

(** ** The HTTP routes over [MemStorage] *)

Section Server_facts.

Import MemStorage Server.

Lemma js_find_None {A : Type} (p : A → bool) (l : list A) :
  js_find p l = None ↔ ∀ x, x ∈ l → p x = false.
Proof.
  induction l as [| y l IH]; cbn.
  - split; [by intros _ ? ?%elem_of_nil | done].
  - destruct (p y) eqn:Hy.
    + split; [done |]. intros Hall.
      specialize (Hall y (list_elem_of_here _ _)). congruence.
    + rewrite IH. split.
      * intros Hall x [-> | ?]%elem_of_cons; [done | by apply Hall].
      * intros Hall x Hx. by apply Hall, list_elem_of_further.
Qed.

Lemma js_find_Some {A : Type} (p : A → bool) (l : list A) (x : A) :
  js_find p l = Some x → x ∈ l ∧ p x = true.
Proof.
  induction l as [| y l IH]; cbn; [done |].
  destruct (p y) eqn:Hy.
  - intros [= ->]. split; [apply list_elem_of_here | done].
  - intros [? ?]%IH. split; [by apply list_elem_of_further | done].
Qed.

(** Where a key is unique, looking a row up by it finds that row. *)
Lemma js_find_unique {A B : Type} `{EqDecision B} (f : A → B) (l : list A)
    (x : A) :
  NoDup (f <$> l) → x ∈ l →
  js_find (λ y, bool_decide (f y = f x)) l = Some x.
Proof.
  induction l as [| y l IH]; cbn; [by intros _ ?%elem_of_nil |].
  intros [Hy Hnd]%NoDup_cons [-> | Hin]%elem_of_cons.
  - by rewrite bool_decide_eq_true_2.
  - rewrite bool_decide_eq_false_2; [by apply IH |].
    intros Heq. apply Hy. rewrite Heq. apply list_elem_of_fmap. by exists x.
Qed.

Lemma not_taken {B : Type} `{EqDecision B} (f : User.t → B) (l : list User.t)
    (b : B) :
  js_find (λ user, bool_decide (f user = b)) l = None ↔ b ∉ f <$> l.
Proof.
  rewrite js_find_None. split.
  - intros Hall (x & -> & Hx)%list_elem_of_fmap.
    apply Hall in Hx. by rewrite bool_decide_eq_true_2 in Hx.
  - intros Hb x Hx. apply bool_decide_eq_false_2. intros <-.
    apply Hb, list_elem_of_fmap. by exists x.
Qed.

Lemma empty_accounts_ok : accounts_ok empty.
Proof.
  split_and!; cbn; try apply NoDup_nil_2.
  intros ?? ?%elem_of_nil. done.
Qed.

Lemma createUser_accounts_ok (userData : InsertUser.t) (s : MemStorage.t) :
  wf s → accounts_ok s →
  getUserByUsername s (InsertUser.username userData) = None →
  getUserByEmail s (InsertUser.email userData) = None →
  accounts_ok (createUser userData s).2.
Proof.
  intros ((Hc & Hnd & Hk) & _) (Hrows & Hnames & Hmails) Hname Hmail.
  assert (JsMap.get (userIdCounter s) (users s) = None) as Hnone.
  { apply jsmap_get_None. intros Hin. apply Hk in Hin. lia. }
  apply not_taken in Hname, Hmail.
  unfold accounts_ok, createUser, listUsers in *. cbn [snd users].
  split_and!.
  - by apply row_ids_set.
  - rewrite jsmap_set_new by done. unfold JsMap.values in *.
    rewrite !fmap_app. apply NoDup_app.
    split_and!; [done | | apply NoDup_singleton].
    intros x Hx ->%list_elem_of_singleton. by apply Hname.
  - rewrite jsmap_set_new by done. unfold JsMap.values in *.
    rewrite !fmap_app. apply NoDup_app.
    split_and!; [done | | apply NoDup_singleton].
    intros x Hx ->%list_elem_of_singleton. by apply Hmail.
Qed.

(** What [updateUser(id, { isOnline: b })] does to the list of users. *)
Lemma updateUser_online_users (id : Z) (b : bool) (s : MemStorage.t) :
  wf s → row_ids User.id (users s) →
  listUsers (updateUser id (online b) s).2
  = (λ x, if decide (User.id x = id)
          then merge_user x (online b) else x) <$> listUsers s.
Proof.
  intros ((_ & Hnd & _) & _) Hrows.
  unfold updateUser, listUsers.
  destruct (getUser s id) as [user|] eqn:Hg; cbn [snd users with_users];
    unfold getUser in Hg.
  - rewrite (jsmap_values_set_old User.id) by (done || by rewrite Hg).
    apply list_fmap_ext. intros i x Hx. case_decide as Hid; [| done].
    apply list_elem_of_lookup_2 in Hx.
    apply (jsmap_values_get User.id) in Hx; [| done | done].
    rewrite Hid in Hx. congruence.
  - rewrite <- (list_fmap_id (JsMap.values _)) at 1.
    apply list_fmap_ext. intros i x Hx. case_decide as Hid; [| done].
    apply list_elem_of_lookup_2 in Hx.
    apply (jsmap_values_get User.id) in Hx; [| done | done].
    rewrite Hid in Hx. congruence.
Qed.

Lemma updateUser_online_accounts_ok (id : Z) (b : bool) (s : MemStorage.t) :
  wf s → accounts_ok s → accounts_ok (updateUser id (online b) s).2.
Proof.
  intros Hwf (Hrows & Hnames & Hmails). unfold accounts_ok.
  rewrite (updateUser_online_users id b) by done.
  split_and!.
  - unfold updateUser.
    destruct (getUser s id) as [user|] eqn:Hg; cbn [snd users with_users];
      [| done].
    apply row_ids_set; [| done]. cbn.
    by apply Hrows, jsmap_get_Some_in.
  - rewrite <- list_fmap_compose.
    erewrite list_fmap_ext; [exact Hnames |].
    intros i x Hx. cbn. by case_decide.
  - rewrite <- list_fmap_compose.
    erewrite list_fmap_ext; [exact Hmails |].
    intros i x Hx. cbn. by case_decide.
Qed.

Lemma serve_wf (s : MemStorage.t) (req : Request) : wf s → wf (serve s req).
Proof.
  intros Hwf. destruct req; cbn [serve].
  - unfold register. repeat case_match; cbn [snd]; try done.
    by apply (exec_wf (CreateUser _)).
  - unfold login. repeat case_match; cbn [snd]; try done.
    by apply (exec_wf (UpdateUser _ _)).
  - unfold postSkill. repeat case_match; cbn [snd]; try done.
    by apply (exec_wf (AddSkill _ _)).
  - unfold deleteSkill. repeat case_match; cbn [snd]; try done;
      by apply (exec_wf (RemoveSkill _)).
  - unfold postSession. repeat case_match; cbn [snd]; try done.
    by apply (exec_wf (CreateFile _ _)), (exec_wf (CreateSession _ _)).
  - unfold postSessionEnd. repeat case_match; cbn [snd]; try done;
      by apply (exec_wf (EndSession _ _)).
  - unfold postFile. repeat case_match; cbn [snd]; try done.
    by apply (exec_wf (CreateFile _ _)).
  - unfold putFileContent. repeat case_match; cbn [snd]; try done;
      by apply (exec_wf (UpdateFile _ _ _)).
  - unfold postFeedback. repeat case_match; cbn [snd]; try done.
    by apply (exec_wf (AddFeedback _ _)).
  - case_match; [| done]. by apply (exec_wf (UpdateUser _ _)).
  - by apply (exec_wf (UpdateFile _ _ _)).
  - by apply (exec_wf (CreateFile _ _)).
  - by apply (exec_wf (EndSession _ _)).
Qed.

Lemma serve_accounts_ok (s : MemStorage.t) (req : Request) :
  wf s → accounts_ok s → accounts_ok (serve s req).
Proof.
  intros Hwf Hok. destruct req; cbn [serve].
  - unfold register. destruct parsed as [userData|]; [| done].
    destruct (getUserByUsername _ _) eqn:Hname; [done |].
    destruct (getUserByEmail _ _) eqn:Hmail; [done |].
    cbn [snd]. by apply createUser_accounts_ok.
  - unfold login. destruct req_body as [[username password]|]; [| done].
    destruct (username ≫= _); [| done]. case_decide; [| done].
    cbn [snd]. by apply updateUser_online_accounts_ok.
  - unfold postSkill. by repeat case_match.
  - unfold deleteSkill. by repeat case_match.
  - unfold postSession. by repeat case_match.
  - unfold postSessionEnd, endSession. by repeat case_match.
  - unfold postFile. by repeat case_match.
  - unfold putFileContent, updateFile. by repeat case_match.
  - unfold postFeedback. by repeat case_match.
  - case_match; [| done]. by apply updateUser_online_accounts_ok.
  - unfold updateFile. by repeat case_match.
  - done.
  - unfold endSession. by repeat case_match.
Qed.

Lemma serve_all_ok (reqs : list Request) :
  wf (serve_all reqs) ∧ accounts_ok (serve_all reqs).
Proof.
  unfold serve_all. induction reqs as [| req reqs IH] using rev_ind.
  - split; [apply empty_wf | apply empty_accounts_ok].
  - rewrite foldl_app. cbn. destruct IH as [Hwf Hok].
    split; [by apply serve_wf | by apply serve_accounts_ok].
Qed.

(** X15. Whatever requests and socket events the server has handled since
    it started, no two users share a username or an e-mail address, and
    every user is the one found under their own id, username and e-mail
    address. *)
Theorem accounts_stay_unique (reqs : list Request) :
  let s := serve_all reqs in
  NoDup (User.username <$> listUsers s)
  ∧ NoDup (User.email <$> listUsers s)
  ∧ ∀ user, user ∈ listUsers s →
      getUser s (User.id user) = Some user
      ∧ getUserByUsername s (User.username user) = Some user
      ∧ getUserByEmail s (User.email user) = Some user.
Proof.
  cbn zeta. destruct (serve_all_ok reqs) as [Hwf (Hrows & Hnames & Hmails)].
  split_and!; [done | done |]. intros user Hin. split_and!.
  - destruct Hwf as ((_ & Hnd & _) & _).
    by apply (jsmap_values_get User.id).
  - by apply (js_find_unique User.username).
  - by apply (js_find_unique User.email).
Qed.

(** X16. A registration with a valid body is turned down with 409, and
    the store left as it was, exactly when the username or the e-mail
    address is already in use; otherwise the reply is 201 with the new
    user, who had no predecessor under that id, is offline, and comes last
    in the list of users. *)
Theorem register_outcome (userData : InsertUser.t) (s : MemStorage.t) :
  wf s →
  let r := register (Some userData) s in
  let taken :=
    InsertUser.username userData ∈ User.username <$> listUsers s
    ∨ InsertUser.email userData ∈ User.email <$> listUsers s in
  (taken → status r.1 = 409 ∧ r.2 = s)
  ∧ (¬ taken →
     ∃ user,
       r.1 = json 201 (without_password user)
       ∧ User.username user = InsertUser.username userData
       ∧ User.email user = InsertUser.email userData
       ∧ User.isOnline user = false
       ∧ getUser s (User.id user) = None
       ∧ listUsers r.2 = listUsers s ++ [user]).
Proof.
  intros Hwf. cbn zeta. unfold register.
  pose proof (not_taken User.username (listUsers s)
                (InsertUser.username userData)) as Hname.
  pose proof (not_taken User.email (listUsers s)
                (InsertUser.email userData)) as Hmail.
  unfold getUserByUsername, getUserByEmail. unfold listUsers in Hname, Hmail.
  destruct (js_find _ _) as [u1|] eqn:H1.
  { split; [done |]. intros Hfree. exfalso. apply Hfree. left.
    apply dec_stable. rewrite <- Hname. done. }
  destruct (js_find (λ user, bool_decide (User.email user = _)) _)
    as [u2|] eqn:H2.
  { split; [done |]. intros Hfree. exfalso. apply Hfree. right.
    apply dec_stable. rewrite <- Hmail. done. }
  split.
  - intros [Hin | Hin]; exfalso;
      [by apply Hname in Hin | by apply Hmail in Hin].
  - intros _. destruct Hwf as ((Hc & Hnd & Hk) & _).
    assert (JsMap.get (userIdCounter s) (users s) = None) as Hnone.
    { apply jsmap_get_None. intros Hin. apply Hk in Hin. lia. }
    eexists. split_and!; [done | done | done | done | exact Hnone |].
    unfold createUser, listUsers. cbn [fst snd users].
    rewrite jsmap_set_new by done. unfold JsMap.values.
    by rewrite fmap_app.
Qed.

(** X17. With unique usernames, a login succeeds exactly for the name and
    password of a stored user.  It then marks that user online in the
    store, but answers with the record read before the update, so the
    reply still shows the earlier [isOnline].  A login that fails answers
    401 and leaves the store as it was. *)
Theorem login_replies_with_the_record_read (username password : string)
    (s : MemStorage.t) :
  wf s → accounts_ok s →
  let r := login (Some (Some username, Some password)) s in
  (∀ user, user ∈ listUsers s →
     User.username user = username → User.password user = password →
     r.1 = json 200 (without_password user)
     ∧ getUser r.2 (User.id user) = Some (merge_user user (online true))
     ∧ merge_user user (online true) ∈ listOnlineUsers r.2)
  ∧ ((∀ user, user ∈ listUsers s →
        ¬ (User.username user = username ∧ User.password user = password)) →
     r = (message 401 "Invalid credentials", s)).
Proof.
  intros Hwf (Hrows & Hnames & _). cbn zeta. unfold login.
  cbn [mbind option_bind].
  split.
  - intros user Hin <- <-.
    unfold getUserByUsername.
    rewrite (js_find_unique User.username) by done.
    rewrite decide_True by done. cbn [fst snd].
    destruct Hwf as ((_ & Hnd & _) & _).
    pose proof (jsmap_values_get User.id _ _ Hrows Hnd Hin) as Hg.
    unfold updateUser, getUser. rewrite Hg. cbn [snd users with_users].
    split_and!; [done | apply jsmap_get_set_eq |].
    unfold listOnlineUsers. cbn [users].
    apply list_elem_of_filter. split; [done |].
    apply list_elem_of_fmap. eexists (_, _). split; [done |].
    apply jsmap_get_Some_in, jsmap_get_set_eq.
  - intros Hnone. destruct (getUserByUsername s username) as [user|] eqn:Hg;
      [| done].
    apply js_find_Some in Hg as [Hin Hname].
    apply bool_decide_eq_true in Hname.
    rewrite decide_False; [done |].
    intros [= Hpw]. by apply (Hnone user).
Qed.

(** X18. A session created over HTTP is stored active and not ended under
    an id no session had, comes last among the active sessions, and gets
    one more file, [main.js] with the starting comment, after whatever
    files were already filed under that session id. *)
Theorem new_session_gets_main_file (sessionData : InsertSession.t)
    (now now' : nat) (s : MemStorage.t) :
  wf s →
  let r := postSession (Some sessionData) now now' s in
  ∃ session file,
    r.1 = json 201 session
    ∧ getSession s (Session.id session) = None
    ∧ getSession r.2 (Session.id session) = Some session
    ∧ Session.isActive session = true
    ∧ Session.endedAt session = None
    ∧ findActiveSessions r.2 = findActiveSessions s ++ [session]
    ∧ getSessionFiles r.2 (Session.id session)
      = getSessionFiles s (Session.id session) ++ [file]
    ∧ getFile r.2 (File.id file) = Some file
    ∧ File.name file = Some "main.js"
    ∧ File.content file = Some "// Start coding here"
    ∧ File.createdAt file = now'.
Proof.
  intros (_ & _ & (_ & _ & Hks) & (_ & _ & Hkf) & _). cbn zeta.
  assert (JsMap.get (sessionIdCounter s) (sessions s) = None) as Hsn.
  { apply jsmap_get_None. intros Hin. apply Hks in Hin. lia. }
  assert (JsMap.get (fileIdCounter s) (files s) = None) as Hfn.
  { apply jsmap_get_None. intros Hin. apply Hkf in Hin. lia. }
  unfold postSession, createSession, createFile, initial_file.
  cbn [fst snd Session.id fileIdCounter files sessions
       InsertFile.sessionId InsertFile.name InsertFile.content
       InsertFile.language].
  eexists _, (File.mk (fileIdCounter s) (sessionIdCounter s) (Some "main.js")
                (Some "// Start coding here") (Some "javascript") now' now').
  split_and!; try done.
  - unfold getSession. cbn [sessions]. apply jsmap_get_set_eq.
  - unfold findActiveSessions. cbn [sessions].
    rewrite jsmap_set_new by done. unfold JsMap.values.
    rewrite fmap_app, filter_app. f_equal.
  - unfold getSessionFiles. cbn [files].
    rewrite jsmap_set_new by done. unfold JsMap.values.
    rewrite fmap_app, filter_app. f_equal.
    cbn [fmap list_fmap snd]. by rewrite filter_cons_True by done.
  - unfold getFile. cbn [files File.id]. apply jsmap_get_set_eq.
Qed.

(** The route for one session answers wherever the route for the active
    sessions would. *)
Lemma active_pattern_is_covered (path : list string) :
  is_Some (path_matches [Lit "api"; Lit "sessions"; Lit "active"] path) →
  is_Some (path_matches [Lit "api"; Lit "sessions"; Param] path).
Proof.
  destruct path as [| a [| b [| c [| d path]]]]; cbn [path_matches];
    try (by intros [? [=]]).
  - destruct (String.eqb _ (lowercase a)); [| by intros [? [=]]].
    destruct (String.eqb _ (lowercase b)); [| by intros [? [=]]].
    destruct (String.eqb c EmptyString) eqn:Hc; [| by eexists].
    apply String.eqb_eq in Hc as ->. by intros [? [=]].
  - destruct (String.eqb _ (lowercase a)); [| by intros [? [=]]].
    destruct (String.eqb _ (lowercase b)); [| by intros [? [=]]].
    destruct (String.eqb _ (lowercase c)); by intros [? [=]].
Qed.

(** The route that answers is the first in the table that matches. *)
Lemma first_route_Some (table : list (Method * list Segment * Route))
    (method : Method) (path : list string) (route : Route)
    (params : list string) :
  first_route table method path = Some (route, params) →
  ∃ i pattern,
    table !! i = Some (method, pattern, route)
    ∧ path_matches pattern path = Some params
    ∧ ∀ j pattern' route', (j < i)%nat →
        table !! j = Some (method, pattern', route') →
        path_matches pattern' path = None.
Proof.
  induction table as [| [[m pattern] r] table IH]; [done |].
  cbn [first_route]. destruct (decide (m = method)) as [-> | Hm].
  - destruct (path_matches pattern path) as [ps|] eqn:Hp.
    + intros [= -> ->]. exists 0%nat, pattern. split_and!; [done | done |].
      intros ??? ?. lia.
    + intros (i & pat & Hi & Hpat & Hbefore)%IH.
      exists (S i), pat. split_and!; [done | done |].
      intros [| j] pattern' route' Hj; cbn; [by intros [= <- _] |].
      apply Hbefore. lia.
  - intros (i & pat & Hi & Hpat & Hbefore)%IH.
    exists (S i), pat. split_and!; [done | done |].
    intros [| j] pattern' route' Hj; cbn; [by intros [= ? _] |].
    apply Hbefore. lia.
Qed.

(** X19. [GET /api/sessions/active] never reaches its handler: the route
    [/api/sessions/:id], registered before it, answers every path that
    [/api/sessions/active] matches.  The request is answered as a look-up
    of the session [parseInt('active')], which is 404 whatever the store
    holds. *)
Theorem active_sessions_route_is_shadowed (method : Method)
    (path : list string) (s : MemStorage.t) :
  fst <$> route_of method path ≠ Some ActiveSessions_
  ∧ route_of GET ["api"; "sessions"; "active"] = Some (GetSession_, ["active"])
  ∧ getSessionById (parseInt "active") s = message 404 "Session not found".
Proof.
  split_and!; [| by vm_compute | by vm_compute].
  destruct (route_of method path) as [[route params]|] eqn:Hr; [| done].
  cbn. intros [= ->].
  apply first_route_Some in Hr as (i & pattern & Hi & Hpat & Hbefore).
  assert (i = 10%nat ∧ method = GET
          ∧ pattern = [Lit "api"; Lit "sessions"; Lit "active"])
    as (-> & -> & ->).
  { unfold routes in Hi.
    do 17 (destruct i as [| i]; [cbn in Hi; by simplify_eq |]).
    done. }
  assert (is_Some (path_matches [Lit "api"; Lit "sessions"; Param] path))
    as [ps Hps] by (apply active_pattern_is_covered; by eexists).
  rewrite (Hbefore 7%nat [Lit "api"; Lit "sessions"; Param] GetSession_)
    in Hps; [done | lia | done].
Qed.

End Server_facts.

(** ** The client and the relay *)

Section Client_facts.

Variable throws : nat → bool.
Variable rejects : StorageCall → bool.

Lemma play_app (w : Client.World) (l1 l2 : list Client.Occurrence) :
  Client.play throws w (l1 ++ l2)
  = ((Client.play throws (Client.play throws w l1).1 l2).1,
     (Client.play throws w l1).2
       ++ (Client.play throws (Client.play throws w l1).1 l2).2).
Proof.
  revert w. induction l1 as [| a l1 IH]; intros w; cbn.
  - by destruct (Client.play throws w l2).
  - rewrite IH. cbn. by rewrite app_assoc.
Qed.

Lemma notifyConnectionStateHandlers_ok (b : bool) (c : Client.WebSocketClient) :
  Forall Client.envelope_ok (Client.notifyConnectionStateHandlers throws b c).
Proof.
  unfold Client.notifyConnectionStateHandlers.
  induction (Client.connectionStateHandlers c) as [| h hs IH]; [done |].
  cbn. constructor; [done |]. apply Forall_app. split; [| done].
  by destruct (throws h); repeat constructor.
Qed.

Lemma notifyMessageHandlers_ok (m : WebSocketMessage)
    (c : Client.WebSocketClient) :
  Forall Client.envelope_ok (Client.notifyMessageHandlers throws m c).
Proof.
  unfold Client.notifyMessageHandlers.
  destruct (msg_type m) as [ty|]; [| done].
  induction (Client.messageHandlers c ty) as [| h hs IH]; [done |].
  cbn. constructor; [done |]. apply Forall_app. split; [| done].
  by destruct (throws h); repeat constructor.
Qed.

Lemma sendMessage_world (m : WebSocketMessage) (w : Client.World) :
  (Client.sendMessage m w).1 = w.
Proof. unfold Client.sendMessage. by repeat case_match. Qed.

Lemma sendMessage_ok (m : WebSocketMessage) (w : Client.World) :
  Client.envelope_ok (Client.Sent 0 m) →
  Forall Client.envelope_ok (Client.sendMessage m w).2.
Proof.
  intros Hm. unfold Client.sendMessage.
  repeat case_match; (constructor; [first [exact Hm | exact I] | constructor]).
Qed.

Lemma disconnect_ids (w : Client.World) :
  Client.userId (Client.this (Client.disconnect throws w).1)
  = Client.userId (Client.this w)
  ∧ Client.sessionId (Client.this (Client.disconnect throws w).1)
    = Client.sessionId (Client.this w).
Proof.
  unfold Client.disconnect, Client.clear_reconnectTimer, Client.close_socket.
  by repeat case_match.
Qed.

Lemma connect_ids (u : Z) (w : Client.World) :
  Client.userId (Client.this (Client.connect throws u w).1) = JNum u
  ∧ Client.sessionId (Client.this (Client.connect throws u w).1)
    = Client.sessionId (Client.this w).
Proof.
  unfold Client.connect. cbn. split; [done |].
  case_match; [| done]. apply disconnect_ids.
Qed.

Lemma connect_ok (u : Z) (w : Client.World) :
  Forall Client.envelope_ok (Client.connect throws u w).2.
Proof.
  unfold Client.connect. cbn. case_match; [| done].
  apply notifyConnectionStateHandlers_ok.
Qed.

Lemma send_ok (ty : MessageType) (p : Payload) (w : Client.World) :
  Client.ids_ok w →
  Client.ids_ok (Client.send ty p w).1
  ∧ Forall Client.envelope_ok (Client.send ty p w).2.
Proof.
  intros Hok. pose proof Hok as (Hu & Hs & Hus). unfold Client.send.
  destruct (truthy (Client.sessionId (Client.this w))) eqn:Hsid;
    [| split; [exact Hok | constructor]].
  rewrite sendMessage_world. split; [exact Hok |].
  apply sendMessage_ok. cbn. split_and!; [by apply Hus | | by right].
  unfold missing_fields. cbn.
  rewrite !bool_decide_eq_false_2 by done. done.
Qed.

Lemma act_ids_ok (w : Client.World) (a : Client.Occurrence) :
  Client.connects_a_user a → Client.ids_ok w →
  Client.ids_ok (Client.act throws w a).1
  ∧ Forall Client.envelope_ok (Client.act throws w a).2.
Proof.
  intros Ha Hok. pose proof Hok as (Hu & Hs & Hus).
  destruct a as [u | | s | | f c | f p | n c l | f | c t | c | c | ty h
                | ty h | h | h | k | k | k raw | id];
    cbn [Client.act]; try by apply send_ok.
  - (* connect *)
    split; [| apply connect_ok]. unfold Client.ids_ok.
    destruct (connect_ids u w) as [-> ->]. cbn in Ha.
    split_and!; [done | done |]. intros _. cbn. by apply negb_true_iff, Z.eqb_neq.
  - (* disconnect *)
    split; [| apply notifyConnectionStateHandlers_ok]. unfold Client.ids_ok.
    by destruct (disconnect_ids w) as [-> ->].
  - (* joinSession *)
    unfold Client.joinSession.
    destruct (negb (Client.isConnected _) || negb (truthy _)) eqn:Hg.
    { split; [exact Hok | by repeat constructor]. }
    apply orb_false_iff in Hg as [_ Hg%negb_false_iff].
    rewrite sendMessage_world. split; [by split_and! |].
    apply sendMessage_ok. cbn. split_and!; [done | | by left].
    unfold missing_fields. cbn.
    rewrite !bool_decide_eq_false_2 by done. done.
  - (* leaveSession *)
    unfold Client.leaveSession.
    destruct (negb (Client.isConnected _) || negb (truthy (Client.userId _))
              || negb (truthy (Client.sessionId _))) eqn:Hg;
      [split; [exact Hok | constructor] |].
    apply orb_false_iff in Hg as [Hg Hg2%negb_false_iff].
    apply orb_false_iff in Hg as [_ Hg1%negb_false_iff].
    cbn [fst snd]. rewrite sendMessage_world. split; [by split_and! |].
    apply sendMessage_ok. cbn. split_and!; [done | | by right].
    unfold missing_fields. cbn.
    rewrite !bool_decide_eq_false_2 by done. done.
  - split; [exact Hok | constructor].
  - split; [exact Hok | constructor].
  - split; [exact Hok | constructor].
  - split; [exact Hok | constructor].
  - (* open *)
    destruct (Client.sockets w !! k) as [[]|];
      try (split; [exact Hok | constructor]).
    split; [| apply notifyConnectionStateHandlers_ok].
    unfold Client.open_listener, Client.clear_reconnectTimer. cbn.
    case_match; exact Hok.
  - (* close *)
    destruct (Client.sockets w !! k) as [[]|];
      try (split; [exact Hok | constructor]);
      (split; [exact Hok | apply notifyConnectionStateHandlers_ok]).
  - (* message *)
    destruct (Client.sockets w !! k) as [[]|];
      try (split; [exact Hok | constructor]);
      (destruct raw; cbn; split;
       [exact Hok | by repeat constructor
        | exact Hok | apply notifyMessageHandlers_ok]).
  - (* timer *)
    case_decide; [| split; [exact Hok | constructor]].
    unfold Client.reconnect_callback. cbn [Client.this Client.userId].
    destruct (Client.userId (Client.this w)) as [| | u] eqn:Hw;
      try (split; [exact Hok | constructor]).
    destruct (truthy (JNum u)) eqn:Hut; [| split; [exact Hok | constructor]].
    split; [| apply connect_ok]. unfold Client.ids_ok.
    destruct (connect_ids u
      (Client.mkWorld (Client.this w) (Client.sockets w)
         (filter (λ i, i ≠ id) (Client.timers w)) (Client.lastTimer w)))
      as [-> ->]. cbn [Client.this Client.sessionId].
    split_and!; [done | done | done].
Qed.

Lemma play_ids_ok (w : Client.World) (actions : list Client.Occurrence) :
  Forall Client.connects_a_user actions → Client.ids_ok w →
  Client.ids_ok (Client.play throws w actions).1
  ∧ Forall Client.envelope_ok (Client.play throws w actions).2.
Proof.
  revert w. induction actions as [| a actions IH]; intros w Hall Hok;
    [split; [exact Hok | constructor] |].
  apply Forall_cons in Hall as [Ha Hall]. cbn.
  destruct (act_ids_ok w a Ha Hok) as [Hok1 Hout1].
  destruct (IH _ Hall Hok1) as [Hok2 Hout2].
  split; [done | by apply Forall_app].
Qed.

(** X20. Whatever the application calls and the browser reports, as long
    as [connect] is given the id of a user, every envelope the client
    sends is one the relay counts as well formed: it carries the id of a
    user, no property is missing, and unless it is a join it carries the
    id of a session. *)
Theorem client_envelopes_are_well_formed (actions : list Client.Occurrence)
    (k : nat) (message : WebSocketMessage) :
  Forall Client.connects_a_user actions →
  Client.Sent k message ∈ (Client.play throws Client.new actions).2 →
  wf_event (Message k (Parsed message)) = true
  ∧ malformed (Parsed message) = false
  ∧ (msg_type message = Some SESSION_JOIN
     ∨ truthy (msg_sessionId message) = true).
Proof.
  intros Hall Hin.
  assert (Client.ids_ok Client.new) as Hnew by (by split_and!).
  destruct (play_ids_ok _ _ Hall Hnew) as [_ Hout].
  rewrite Forall_forall in Hout. by apply Hout in Hin.
Qed.

Lemma notifyConnectionStateHandlers_silent (b : bool)
    (c : Client.WebSocketClient) :
  filter Client.is_sent (Client.notifyConnectionStateHandlers throws b c) = [].
Proof.
  unfold Client.notifyConnectionStateHandlers.
  induction (Client.connectionStateHandlers c) as [| h hs IH]; [done |].
  cbn [mbind list_bind]. rewrite filter_app, IH, app_nil_r.
  rewrite filter_cons_False by (by intros ?).
  destruct (throws h); [| done]. by rewrite filter_cons_False by (by intros ?).
Qed.

Lemma reconnect_callback_connects (w : Client.World) (u : Z) :
  Client.userId (Client.this w) = JNum u → u ≠ 0 →
  Client.reconnect_callback throws w = Client.connect throws u w.
Proof.
  intros Hu Hu0. unfold Client.reconnect_callback. rewrite Hu.
  by rewrite (truthy_JNum u Hu0).
Qed.




(** A [send...] call of a client that is in a session and whose socket
    is open. *)
Lemma send_open (ty : MessageType) (p : Payload) (w : Client.World)
    (k : nat) (s : Z) :
  Client.socket (Client.this w) = Some k →
  Client.sockets w !! k = Some OPEN →
  Client.sessionId (Client.this w) = JNum s → s ≠ 0 →
  Client.send ty p w
  = (w, [Client.Sent k (mkMsg (Some ty) (JNum s)
                          (Client.userId (Client.this w)) (Some p))]).
Proof.
  intros Hsock Hk Hs Hs0. unfold Client.send, Client.sendMessage.
  by rewrite Hs, (truthy_JNum s Hs0), Hsock, Hk.
Qed.

(** The close event of a socket that has not closed. *)
Lemma act_close (w : Client.World) (k : nat) (rs : ReadyState) :
  Client.sockets w !! k = Some rs → rs ≠ CLOSED →
  let r := Client.act throws w (Client.SocketCloses k) in
  Client.this r.1
  = Client.set_reconnectTimer (Some (S (Client.lastTimer w)))
      (Client.set_isConnected false (Client.this w))
  ∧ Client.sockets r.1 = <[k := CLOSED]> (Client.sockets w)
  ∧ Client.timers r.1 = Client.timers w ++ [S (Client.lastTimer w)]
  ∧ filter Client.is_sent r.2 = [].
Proof.
  intros Hk Hrs. cbn. rewrite Hk.
  destruct rs; try done; cbn; split_and!; try done;
    apply notifyConnectionStateHandlers_silent.
Qed.

(** The reconnect timer fires while the client still holds the socket
    that has closed. *)
Lemma act_timer (w : Client.World) (id k : nat) (u : Z) :
  id ∈ Client.timers w →
  Client.socket (Client.this w) = Some k →
  Client.sockets w !! k = Some CLOSED →
  Client.userId (Client.this w) = JNum u → u ≠ 0 →
  let r := Client.act throws w (Client.TimerFires id) in
  Client.socket (Client.this r.1) = Some (length (Client.sockets w))
  ∧ Client.sockets r.1 = Client.sockets w ++ [CONNECTING]
  ∧ Client.reconnectTimer (Client.this r.1) = None
  ∧ Client.userId (Client.this r.1) = JNum u
  ∧ Client.sessionId (Client.this r.1) = Client.sessionId (Client.this w)
  ∧ filter Client.is_sent r.2 = [].
Proof.
  intros Hid Hsock Hk Hu Hu0. cbn zeta. cbn [Client.act].
  rewrite decide_True by done.
  rewrite (reconnect_callback_connects _ u) by done.
  destruct w as [[sock mh ch rt uid sid conn] socks tms lt].
  cbn in Hsock, Hk, Hu. subst sock uid.
  unfold Client.connect, Client.disconnect, Client.close_socket.
  cbn [Client.this Client.socket Client.sockets]. rewrite Hk.
  unfold Client.clear_reconnectTimer.
  destruct rt; cbn; split_and!; try done;
    apply (notifyConnectionStateHandlers_silent false
             (Client.mkClient None mh ch None JNull JNull false)).
Qed.

(** The open event of a socket that is connecting. *)
Lemma act_open (w : Client.World) (k : nat) :
  Client.sockets w !! k = Some CONNECTING →
  Client.reconnectTimer (Client.this w) = None →
  let r := Client.act throws w (Client.SocketOpens k) in
  Client.this r.1 = Client.set_isConnected true (Client.this w)
  ∧ Client.sockets r.1 = <[k := OPEN]> (Client.sockets w)
  ∧ filter Client.is_sent r.2 = [].
Proof.
  intros Hk Hrt. cbn. rewrite Hk.
  unfold Client.open_listener, Client.clear_reconnectTimer. cbn. rewrite Hrt.
  split_and!; try done. apply notifyConnectionStateHandlers_silent.
Qed.

(** The server drops an open socket; the timer fires; the new socket
    opens. *)
Lemma reconnected (w : Client.World) (k : nat) (u : Z) :
  Client.socket (Client.this w) = Some k →
  Client.sockets w !! k = Some OPEN →
  Client.userId (Client.this w) = JNum u → u ≠ 0 →
  let k' := length (Client.sockets w) in
  let r := Client.play throws w
             [Client.SocketCloses k;
              Client.TimerFires (S (Client.lastTimer w));
              Client.SocketOpens k'] in
  filter Client.is_sent r.2 = []
  ∧ Client.socket (Client.this r.1) = Some k'
  ∧ Client.sockets r.1 !! k' = Some OPEN
  ∧ Client.isConnected (Client.this r.1) = true
  ∧ Client.userId (Client.this r.1) = JNum u
  ∧ Client.sessionId (Client.this r.1) = Client.sessionId (Client.this w).
Proof.
  intros Hsock Hk Hu Hu0. cbn zeta.
  assert (k < length (Client.sockets w))%nat as Hlt
    by (by eapply lookup_lt_Some).
  cbn [Client.play fst snd]. rewrite app_nil_r.
  destruct (act_close w k OPEN Hk) as (Ht1 & Hs1 & Htm1 & Ho1); [done |].
  destruct (Client.act throws w (Client.SocketCloses k)) as [w1 o1].
  cbn [fst snd] in *.
  destruct (act_timer w1 (S (Client.lastTimer w)) k u)
    as (Hsock2 & Hs2 & Hrt2 & Hu2 & Hsid2 & Ho2).
  { rewrite Htm1. apply elem_of_app. right. apply list_elem_of_here. }
  { by rewrite Ht1. }
  { rewrite Hs1. by apply list_lookup_insert_eq. }
  { by rewrite Ht1. }
  { done. }
  destruct (Client.act throws w1 (Client.TimerFires _)) as [w2 o2].
  cbn [fst snd] in *.
  assert (length (Client.sockets w1) = length (Client.sockets w)) as Hlen
    by (by rewrite Hs1, length_insert).
  rewrite Hlen in Hsock2.
  destruct (act_open w2 (length (Client.sockets w))) as (Ht3 & Hs3 & Ho3).
  { rewrite Hs2, <- Hlen. by apply list_lookup_middle. }
  { done. }
  destruct (Client.act throws w2 (Client.SocketOpens _)) as [w3 o3].
  cbn [fst snd] in *.
  split_and!.
  - by rewrite !filter_app, Ho1, Ho2, Ho3.
  - by rewrite Ht3.
  - rewrite Hs3. apply list_lookup_insert_eq.
    rewrite Hs2, length_app, Hlen. cbn. lia.
  - by rewrite Ht3.
  - by rewrite Ht3.
  - rewrite Ht3. cbn. rewrite Hsid2. by rewrite Ht1.
Qed.

(** X22. After the server has dropped the socket of a client that is in a
    session, the client connects again on its own but does not join
    again: nothing is sent while it reconnects, and it keeps its session
    id.  A code change it then sends goes out on the new socket, which the
    relay has in no session: the relay forwards it to nobody, yet stores
    it. *)
Theorem reconnect_does_not_rejoin (w : Client.World) (k : nat)
    (s u fileId : Z) (content : string) (st : State) (ws : nat) :
  Client.socket (Client.this w) = Some k →
  Client.sockets w !! k = Some OPEN →
  Client.userId (Client.this w) = JNum u → u ≠ 0 →
  Client.sessionId (Client.this w) = JNum s → s ≠ 0 →
  conns st !! ws = Some (mkConn JNull JNull OPEN) →
  let k' := length (Client.sockets w) in
  let r := Client.play throws w
             [Client.SocketCloses k;
              Client.TimerFires (S (Client.lastTimer w));
              Client.SocketOpens k'] in
  let edit :=
    mkMsg (Some CODE_CHANGE) (JNum s) (JNum u)
          (Some (mkPayload (JNum fileId) (Some content) None None JUndefined
                   EmptyString)) in
  let relayed := (step rejects st (Message ws (Parsed edit))).2 in
  filter Client.is_sent r.2 = []
  ∧ Client.act throws r.1 (Client.SendCodeChange fileId content)
    = (r.1, [Client.Sent k' edit])
  ∧ filter is_send relayed = []
  ∧ (fileId ≠ 0 →
     calls (UpdateFile (JNum fileId) (Some content)) relayed = 1%nat).
Proof.
  intros Hsock Hk Hu Hu0 Hs Hs0 Hws. intros k' r edit relayed.
  destruct (reconnected w k u Hsock Hk Hu Hu0)
    as (Hsilent & Hsock' & Hk' & _ & Hu' & Hs').
  fold k' r in Hsilent, Hsock', Hk', Hu', Hs'.
  split_and!.
  - done.
  - cbn [Client.act]. unfold Client.sendCodeChange.
    rewrite (send_open _ _ r.1 k' s) by congruence.
    by rewrite Hu'.
  - subst relayed. rewrite (step_message_live rejects st ws _ _ Hws) by done.
    by apply (on_message_prejoin rejects ws _ _ st Hws).
  - intros Hf. subst relayed.
    rewrite (step_message_live rejects st ws _ _ Hws) by done.
    rewrite (on_message_other rejects ws _ _ st Hws) by done.
    cbn zeta. unfold broadcast. rewrite bind_userId_sessionId.
    cbn [sessionId truthy app snd fst].
    unfold dispatch. cbn [edit msg_type msg_payload p_fileId p_content].
    rewrite (truthy_JNum fileId Hf). cbn [fst snd app].
    rewrite calls_cons_eq. by rewrite calls_log.
Qed.

End Client_facts.

(** ** The code view *)

Section CodeBlock_facts.

Lemma builtin_is_variable (token : string) :
  token ∈ CodeBlock.builtins →
  CodeBlock.one_of CodeBlock.keywords token = false
  ∧ CodeBlock.is_identifier token
    && negb (CodeBlock.one_of CodeBlock.literals token) = true.
Proof.
  unfold CodeBlock.builtins. intros Hb.
  repeat (apply elem_of_cons in Hb as [-> | Hb]; [by vm_compute |]).
  by apply elem_of_nil in Hb.
Qed.

(** X23. No token is ever given the class of the built-in objects: every
    name on that list is an identifier and neither a keyword nor a literal
    word, so the test for variables, which comes first, gives it the class
    of a variable. *)
Theorem builtin_class_is_never_given (token lang : string) :
  CodeBlock.getTokenClass token lang ≠ "text-blue-300"
  ∧ (token ∈ CodeBlock.builtins →
     lang = "javascript" ∨ lang = "typescript" →
     CodeBlock.getTokenClass token lang = "text-green-400").
Proof.
  unfold CodeBlock.getTokenClass. split.
  - destruct (bool_decide _ || bool_decide _); [| done].
    destruct (CodeBlock.one_of CodeBlock.keywords token) eqn:Hk; [done |].
    destruct (CodeBlock.is_identifier token && _) eqn:Hid; [done |].
    destruct (CodeBlock.one_of CodeBlock.builtins token) eqn:Hb.
    + apply bool_decide_eq_true in Hb.
      apply builtin_is_variable in Hb as [_ Hb]. congruence.
    + by repeat case_match.
  - intros Hb Hlang. apply builtin_is_variable in Hb as [-> ->].
    by destruct Hlang as [-> | ->].
Qed.

End CodeBlock_facts.

(** ** Instances of the further properties *)

Lemma sends_only_to_open_sockets_witness :
  is_open room 2%nat = true
  ∧ Message 1%nat (Parsed codeChange) ≠ Close 2%nat.
Proof.
  apply (sends_only_to_open_sockets mem_storage room
           (Message 1%nat (Parsed codeChange)) 2%nat codeChange).
  vm_compute. constructor.
Defined.

Lemma stale_close_silences_twin_witness :
  let st' := (step mem_storage twins (Close 1%nat)).1 in
  connectedClients st' !! JNum 1 = None
  ∧ conns st' !! 2%nat = Some (mkConn (JNum 1) (JNum 7) OPEN)
  ∧ ¬ registered st' 2%nat
  ∧ ∀ evs d, has_joined evs 2%nat = false →
      Send 2%nat d ∉ (run mem_storage st' evs).2.
Proof.
  apply (stale_close_silences_twin mem_storage twins 1%nat 2%nat
           (mkConn (JNum 1) (JNum 7) OPEN) (mkConn (JNum 1) (JNum 7) OPEN)).
  - apply (run_invariants mem_storage init twin_trace);
      [repeat constructor | apply init_invariants].
  - discriminate.
  - reflexivity.
  - reflexivity.
  - discriminate.
  - reflexivity.
  - reflexivity.
Defined.

Lemma reachable_tables_consistent_witness :
  let st := (run mem_storage init room_trace).1 in
  (∀ m w, connectedClients st !! m = Some w →
     ∃ c, conns st !! w = Some c ∧ userId c = m ∧ truthy m = true
          ∧ readyState c ≠ CLOSED)
  ∧ (∀ m1 m2 w, connectedClients st !! m1 = Some w →
       connectedClients st !! m2 = Some w → m1 = m2)
  ∧ (∀ sid, NoDup (members st sid)).
Proof.
  apply (reachable_tables_consistent mem_storage room_trace).
  repeat constructor.
Defined.

Lemma members_only_after_join_witness :
  ∃ ws data,
    Message ws (Parsed data) ∈ room_trace
    ∧ msg_type data = Some SESSION_JOIN
    ∧ msg_sessionId data = JNum 7.
Proof.
  apply (members_only_after_join mem_storage room_trace (JNum 7) (JNum 1)).
  vm_compute. constructor.
Defined.

Lemma leave_and_close_agree_witness :
  let bye := step mem_storage room (Message 1%nat (Parsed (leaveMessage 7 1))) in
  let gone := step mem_storage room (Close 1%nat) in
  sessionClients bye.1 = sessionClients gone.1
  ∧ filter is_send bye.2 = filter is_send gone.2
  ∧ calls (EndSession (JNum 7)) bye.2 = calls (EndSession (JNum 7)) gone.2.
Proof.
  apply (leave_and_close_agree mem_storage room 1%nat
           (mkConn (JNum 1) (JNum 7) OPEN) 7 1).
  - apply (run_invariants mem_storage init room_trace);
      [repeat constructor | apply init_invariants].
  - reflexivity.
  - discriminate.
  - reflexivity.
  - reflexivity.
  - discriminate.
  - discriminate.
  - reflexivity.
  - reflexivity.
Defined.

Lemma joining_elsewhere_keeps_old_membership_witness :
  let r := run mem_storage room
             (Message 1%nat (Parsed (joinMessage 8 1))
                :: (Message 1%nat <$> [Parsed codeChange]) ++ [Close 1%nat]) in
  sessionClients r.1 !! JNum 7 = sessionClients room !! JNum 7
  ∧ members r.1 (JNum 7) = members room (JNum 7)
  ∧ calls (EndSession (JNum 7)) r.2 = 0%nat.
Proof.
  apply (joining_elsewhere_keeps_old_membership mem_storage room 1%nat
           (mkConn (JNum 1) (JNum 7) OPEN) (joinMessage 8 1)
           [Parsed codeChange] (JNum 7)).
  - reflexivity.
  - discriminate.
  - reflexivity.
  - discriminate.
  - repeat constructor.
Defined.

Lemma createUser_is_fresh_witness :
  let r := MemStorage.createUser
             (MemStorage.InsertUser.mk "eve" "pw" "eve@example.org" "Eve" None)
             campus in
  MemStorage.getUser campus (MemStorage.User.id r.1) = None
  ∧ MemStorage.getUser r.2 (MemStorage.User.id r.1) = Some r.1
  ∧ MemStorage.User.isOnline r.1 = false
  ∧ (∀ id, id ≠ MemStorage.User.id r.1 →
       MemStorage.getUser r.2 id = MemStorage.getUser campus id)
  ∧ MemStorage.listUsers r.2 = MemStorage.listUsers campus ++ [r.1].
Proof.
  apply (createUser_is_fresh
           (MemStorage.InsertUser.mk "eve" "pw" "eve@example.org" "Eve" None)
           campus).
  apply (serve_all_ok campus_requests).
Defined.

Lemma endSession_deactivates_witness :
  let r := MemStorage.endSession 1 20 campus in
  MemStorage.findActiveSessions r.2
  = filter (λ x, MemStorage.Session.id x ≠ 1)
           (MemStorage.findActiveSessions campus)
  ∧ (∀ id', id' ≠ 1 →
       MemStorage.getSession r.2 id' = MemStorage.getSession campus id')
  ∧ match MemStorage.getSession campus 1 with
    | Some x =>
        r.1 = MemStorage.getSession r.2 1
        ∧ r.1 = Some (MemStorage.Session.mk (MemStorage.Session.id x)
                        (MemStorage.Session.createdAt x) (Some 20%nat)
                        (MemStorage.Session.creatorId x)
                        (MemStorage.Session.partnerId x) false
                        (MemStorage.Session.language x))
    | None => r = (None, campus)
    end.
Proof.
  apply (endSession_deactivates 1 20 campus).
  apply (serve_all_ok campus_requests).
Defined.

Lemma updateFile_rewrites_one_file_witness :
  let r := MemStorage.updateFile 1 (Some "x=1") 30 campus in
  let upd f :=
    MemStorage.File.mk (MemStorage.File.id f) (MemStorage.File.sessionId f)
      (MemStorage.File.name f) (Some "x=1") (MemStorage.File.language f)
      (MemStorage.File.createdAt f) 30 in
  (∀ sid, MemStorage.getSessionFiles r.2 sid
          = (λ f, if decide (MemStorage.File.id f = 1) then upd f else f)
              <$> MemStorage.getSessionFiles campus sid)
  ∧ (∀ id', id' ≠ 1 →
       MemStorage.getFile r.2 id' = MemStorage.getFile campus id')
  ∧ r.1 = upd <$> MemStorage.getFile campus 1
  ∧ MemStorage.getFile r.2 1 = r.1
  ∧ (MemStorage.getFile campus 1 = None → r.2 = campus).
Proof.
  apply (updateFile_rewrites_one_file 1 (Some "x=1") 30 campus).
  apply (serve_all_ok campus_requests).
Defined.

Lemma removeSkill_reports_witness :
  let r := MemStorage.removeSkill 1 campus in
  (r.1 = true ↔
     ∃ u sk, sk ∈ MemStorage.getUserSkills campus u
             ∧ MemStorage.Skill.id sk = 1)
  ∧ (∀ u, MemStorage.getUserSkills r.2 u
          = filter (λ sk, MemStorage.Skill.id sk ≠ 1)
                   (MemStorage.getUserSkills campus u))
  ∧ MemStorage.removeSkill 1 r.2 = (false, r.2).
Proof.
  apply (removeSkill_reports 1 campus).
  apply (serve_all_ok campus_requests).
Defined.

Lemma register_outcome_witness :
  let r := Server.register (Some ada) campus in
  let taken :=
    MemStorage.InsertUser.username ada
      ∈ MemStorage.User.username <$> MemStorage.listUsers campus
    ∨ MemStorage.InsertUser.email ada
      ∈ MemStorage.User.email <$> MemStorage.listUsers campus in
  (taken → Server.status r.1 = 409 ∧ r.2 = campus)
  ∧ (¬ taken →
     ∃ user,
       r.1 = Server.json 201 (Server.without_password user)
       ∧ MemStorage.User.username user = MemStorage.InsertUser.username ada
       ∧ MemStorage.User.email user = MemStorage.InsertUser.email ada
       ∧ MemStorage.User.isOnline user = false
       ∧ MemStorage.getUser campus (MemStorage.User.id user) = None
       ∧ MemStorage.listUsers r.2 = MemStorage.listUsers campus ++ [user]).
Proof.
  apply (register_outcome ada campus).
  apply (serve_all_ok campus_requests).
Defined.

Lemma login_replies_with_the_record_read_witness :
  let r := Server.login (Some (Some "ada", Some "secret")) campus in
  (∀ user, user ∈ MemStorage.listUsers campus →
     MemStorage.User.username user = "ada" →
     MemStorage.User.password user = "secret" →
     r.1 = Server.json 200 (Server.without_password user)
     ∧ MemStorage.getUser r.2 (MemStorage.User.id user)
       = Some (MemStorage.merge_user user (Server.online true))
     ∧ MemStorage.merge_user user (Server.online true)
       ∈ MemStorage.listOnlineUsers r.2)
  ∧ ((∀ user, user ∈ MemStorage.listUsers campus →
        ¬ (MemStorage.User.username user = "ada"
           ∧ MemStorage.User.password user = "secret")) →
     r = (Server.message 401 "Invalid credentials", campus)).
Proof.
  apply (login_replies_with_the_record_read "ada" "secret" campus).
  - apply (serve_all_ok campus_requests).
  - apply (serve_all_ok campus_requests).
Defined.

Lemma new_session_gets_main_file_witness :
  let r := Server.postSession
             (Some (MemStorage.InsertSession.mk 2 None None)) 40 41 campus in
  ∃ session file,
    r.1 = Server.json 201 session
    ∧ MemStorage.getSession campus (MemStorage.Session.id session) = None
    ∧ MemStorage.getSession r.2 (MemStorage.Session.id session) = Some session
    ∧ MemStorage.Session.isActive session = true
    ∧ MemStorage.Session.endedAt session = None
    ∧ MemStorage.findActiveSessions r.2
      = MemStorage.findActiveSessions campus ++ [session]
    ∧ MemStorage.getSessionFiles r.2 (MemStorage.Session.id session)
      = MemStorage.getSessionFiles campus (MemStorage.Session.id session)
          ++ [file]
    ∧ MemStorage.getFile r.2 (MemStorage.File.id file) = Some file
    ∧ MemStorage.File.name file = Some "main.js"
    ∧ MemStorage.File.content file = Some "// Start coding here"
    ∧ MemStorage.File.createdAt file = 41%nat.
Proof.
  apply (new_session_gets_main_file
           (MemStorage.InsertSession.mk 2 None None) 40 41 campus).
  apply (serve_all_ok campus_requests).
Defined.

Lemma client_envelopes_are_well_formed_witness :
  wf_event (Message 0%nat (Parsed codeChange)) = true
  ∧ malformed (Parsed codeChange) = false
  ∧ (msg_type codeChange = Some SESSION_JOIN
     ∨ truthy (msg_sessionId codeChange) = true).
Proof.
  apply (client_envelopes_are_well_formed quiet
           [Client.Connect 1; Client.SocketOpens 0; Client.JoinSession 7;
            Client.SendCodeChange 10 "x=1"] 0%nat codeChange).
  - repeat constructor; discriminate.
  - vm_compute. apply list_elem_of_further, list_elem_of_here.
Defined.


Lemma reconnect_does_not_rejoin_witness :
  let r := Client.play quiet client_in_session
             [Client.SocketCloses 0; Client.TimerFires 1;
              Client.SocketOpens 1] in
  let relayed := (step mem_storage lobby (Message 1%nat (Parsed codeChange))).2 in
  filter Client.is_sent r.2 = []
  ∧ Client.act quiet r.1 (Client.SendCodeChange 10 "x=1")
    = (r.1, [Client.Sent 1%nat codeChange])
  ∧ filter is_send relayed = []
  ∧ (10 ≠ 0 →
     calls (UpdateFile (JNum 10) (Some "x=1")) relayed = 1%nat).
Proof.
  apply (reconnect_does_not_rejoin quiet mem_storage client_in_session 0%nat
           7 1 10 "x=1" lobby 1%nat).
  - reflexivity.
  - reflexivity.
  - reflexivity.
  - discriminate.
  - reflexivity.
  - discriminate.
  - reflexivity.
Defined.
